(** * FileCLI: file-type classification and dialect sniffing

    A shallow embedding of the inference core of FileCLI:

    - [file_handling/analyze/file_type_analyzer.py]: the [FileType] table and
      the three classifiers of [FileTypeAnalyzer] with their merge;
    - [file_handling/file/__init__.py]: [File.get_random_sample];
    - [file_handling/analyze/sniffer.py]: the dialect enumerations and the
      [FileSniffer] inference methods and validated setters;
    - [helpers/__init__.py] and [helpers/decorators.py]: [get_data_type],
      [input_type_validation], [call_counter], [cache] and what
      [class_decorator] makes of the methods of [File] and [FileSniffer];
    - [file_handling/file/__init__.py]: backup and restore;
    - [helpers/levenshtein.py]: [Levenshtein.distance].

    The functions of a class are embedded as they are written, and the
    methods that the decorated class holds are built from them in the
    modules [Running] and [Backup].

    Python values are modelled as follows.  A [bytes] object is a
    [list byte], a [str] is a [string], an [Enum] is an inductive type with
    its members listed in declaration order, an exception is a constructor
    of [Exception] carried by the [Result] type, and the attributes of an
    instance are the fields of a record. *)

From Stdlib Require Import List Strings.String Strings.Ascii Strings.Byte Bool Arith ZArith NArith QArith Lia.
Import ListNotations.

Close Scope Q_scope.
Open Scope nat_scope.

Set Implicit Arguments.

(* ================================================================== *)
(** * Python runtime: exceptions, bytes and iteration helpers          *)
(* ================================================================== *)

Module Py.

(** The exceptions that the embedded code can raise. *)
Inductive Exception : Type :=
| StopIteration
| TypeError
| KeyError
| ZeroDivisionError
| ValueError
| IOError
| IndexError
| EncodingException
| LookupError
| RecursionError.

(** A call either returns a value or raises. *)
Inductive Result (A : Type) : Type :=
| Ok (a : A)
| Raise (e : Exception).

Arguments Ok {A} a.
Arguments Raise {A} e.

Definition bind {A B} (r : Result A) (k : A -> Result B) : Result B :=
  match r with
  | Ok a => k a
  | Raise e => Raise e
  end.

Definition returns {A} (r : Result A) : Prop := exists a, r = Ok a.

Definition bytes := list byte.

(** [range(n)] *)
Definition range (n : nat) : list nat := seq 0 n.

Fixpoint bytes_eqb (a b : bytes) : bool :=
  match a, b with
  | [], [] => true
  | x :: a', y :: b' => Byte.eqb x y && bytes_eqb a' b'
  | _, _ => false
  end.

(** [s.startswith(prefix)] *)
Fixpoint startswith (s prefix : bytes) {struct prefix} : bool :=
  match prefix with
  | [] => true
  | p :: prefix' =>
      match s with
      | [] => false
      | c :: s' => Byte.eqb c p && startswith s' prefix'
      end
  end.

(** [s.count(sub)]: the number of non-overlapping occurrences of [sub],
    found scanning from the left.  After a match the scan resumes behind
    the matched bytes: [skip] is the number of bytes of the last match
    still to be stepped over.  For the empty pattern Python answers
    [len(s) + 1]. *)
Fixpoint count_from (sub : bytes) (skip : nat) (s : bytes) : nat :=
  match s with
  | [] => match sub with [] => 1 | _ => 0 end
  | _ :: s' =>
      match skip with
      | S k => count_from sub k s'
      | O => if startswith s sub
             then S (count_from sub (Nat.pred (List.length sub)) s')
             else count_from sub 0 s'
      end
  end.

Definition count (s sub : bytes) : nat := count_from sub 0 s.

(** Iterating a file opened in binary mode yields its lines: each line
    runs up to and including the next LF; a last line without LF is
    yielded as it is.  [cur] holds the bytes of the line being read, in
    reverse. *)
Fixpoint lines_from (cur : bytes) (s : bytes) : list bytes :=
  match s with
  | [] => match cur with [] => [] | _ => [rev cur] end
  | c :: s' =>
      if Byte.eqb c x0a
      then rev (c :: cur) :: lines_from [] s'
      else lines_from (c :: cur) s'
  end.

Definition readlines (s : bytes) : list bytes := lines_from [] s.

(** [max(items, key=...)] over a non-empty sequence: the first item whose
    key is maximal. *)
Fixpoint max_by {A} (key : A -> nat) (best : A) (rest : list A) : A :=
  match rest with
  | [] => best
  | a :: rest' =>
      if key best <? key a then max_by key a rest' else max_by key best rest'
  end.

(** [collections.Counter(items)] as an association list in insertion
    order. *)
Fixpoint counter_add {A} (eqb : A -> A -> bool) (a : A) (c : list (A * nat))
  : list (A * nat) :=
  match c with
  | [] => [(a, 1)]
  | (k, n) :: c' =>
      if eqb k a then (k, S n) :: c' else (k, n) :: counter_add eqb a c'
  end.

Definition Counter {A} (eqb : A -> A -> bool) (items : list A) : list (A * nat) :=
  fold_left (fun c a => counter_add eqb a c) items [].

(** [counter.most_common(1)]: a list holding the first entry with the
    largest count, empty for an empty counter. *)
Definition most_common_1 {A} (c : list (A * nat)) : list (A * nat) :=
  match c with
  | [] => []
  | e :: c' => [max_by snd e c']
  end.

End Py.

Import Py.

Declare Scope py_scope.
Delimit Scope py_scope with py.
Notation "x <- c1 ;; c2" := (Py.bind c1 (fun x => c2))
  (at level 61, c1 at next level, right associativity) : py_scope.

(* ================================================================== *)
(** * file_type_analyzer.py                                            *)
(* ================================================================== *)

(** A file on disk, as far as the analysers look at it: the suffix of its
    path and its byte content. *)
Record File : Type := mkFile {
  path_suffix : string;
  content : bytes
}.

Module FileTypes.

(** The members of [FileType], in declaration order. *)
Inductive FileType : Type :=
| UNKNOWN | PDF | EXCEL_LEGACY | EXCEL | CSV | JSON | ZIP | GZIP | TAR
| XML | HTML | TEXT | JSONL | TSV | PIPE | FIXED_WIDTH | NUMBERS | PAGES.

Definition members : list FileType :=
  [UNKNOWN; PDF; EXCEL_LEGACY; EXCEL; CSV; JSON; ZIP; GZIP; TAR;
   XML; HTML; TEXT; JSONL; TSV; PIPE; FIXED_WIDTH; NUMBERS; PAGES].

(** The dictionary that is the value of a member.  The key ['delimiter']
    is present in some dictionaries only. *)
Record Value : Type := mkValue {
  v_file_extension : string;
  v_description : string;
  v_byte_signature : bytes;
  v_is_text : bool;
  v_delimiter : option string
}.

Local Open Scope string_scope.

Definition tab : string := String (ascii_of_nat 9) EmptyString.

Definition value (ft : FileType) : Value :=
  match ft with
  | UNKNOWN => mkValue "" "An unknown file type" [] false None
  | PDF => mkValue ".pdf" "A PDF file" [x25; x50; x44; x46] false None
  | EXCEL_LEGACY =>
      mkValue ".xls" "An Excel file" [xd0; xcf; x11; xe0; xa1; xb1; x1a; xe1] false None
  | EXCEL => mkValue ".xlsx" "An Excel file" [x50; x4b; x03; x04] false None
  | CSV => mkValue ".csv" "A CSV file" [] true (Some ",")
  | JSON => mkValue ".json" "A JSON file" [] true None
  | ZIP => mkValue ".zip" "A ZIP file" [x50; x4b; x03; x04] false None
  | GZIP => mkValue ".gz" "A GZIP file" [x1f; x8b] false None
  | TAR => mkValue ".tar" "A TAR file" [] false None
  | XML => mkValue ".xml" "An XML file" [] true None
  | HTML => mkValue ".html" "An HTML file" [] true None
  | TEXT => mkValue ".txt" "A text file" [] true None
  | JSONL => mkValue ".jsonl" "A JSON Lines file" [] true None
  | TSV => mkValue ".tsv" "A TSV file" [] true (Some tab)
  | PIPE => mkValue ".pipe" "A pipe-delimited file" [] true (Some "|")
  | FIXED_WIDTH => mkValue ".fixed_width" "A fixed width file" [] true None
  | NUMBERS => mkValue ".numbers" "Mac Numbers file" [] false None
  | PAGES => mkValue ".pages" "Mac Pages file" [] false None
  end.

Definition file_extension (ft : FileType) : string := v_file_extension (value ft).
Definition description (ft : FileType) : string := v_description (value ft).
Definition byte_signature (ft : FileType) : bytes := v_byte_signature (value ft).
Definition is_text (ft : FileType) : bool := v_is_text (value ft).

Definition delimiter (ft : FileType) : option string :=
  if is_text ft then v_delimiter (value ft) else None.

(** Equality of two dictionaries. *)
Definition value_eqb (a b : Value) : bool :=
  String.eqb (v_file_extension a) (v_file_extension b)
  && String.eqb (v_description a) (v_description b)
  && bytes_eqb (v_byte_signature a) (v_byte_signature b)
  && Bool.eqb (v_is_text a) (v_is_text b)
  && match v_delimiter a, v_delimiter b with
     | Some x, Some y => String.eqb x y
     | None, None => true
     | _, _ => false
     end.

(** [FileType.__eq__] and [FileType.__ne__]: members are compared by
    their values. *)
Definition eq (self other : FileType) : bool := value_eqb (value self) (value other).
Definition ne (self other : FileType) : bool := negb (eq self other).

(** [a is b] on members: identity. *)
Definition is_ (a b : FileType) : bool :=
  match a, b with
  | UNKNOWN, UNKNOWN | PDF, PDF | EXCEL_LEGACY, EXCEL_LEGACY | EXCEL, EXCEL
  | CSV, CSV | JSON, JSON | ZIP, ZIP | GZIP, GZIP | TAR, TAR | XML, XML
  | HTML, HTML | TEXT, TEXT | JSONL, JSONL | TSV, TSV | PIPE, PIPE
  | FIXED_WIDTH, FIXED_WIDTH | NUMBERS, NUMBERS | PAGES, PAGES => true
  | _, _ => false
  end.

(** [FileType.from_extension] *)
Fixpoint from_extension_loop (fts : list FileType) (suffix : string) : FileType :=
  match fts with
  | [] => UNKNOWN
  | ft :: fts' =>
      if String.eqb (file_extension ft) suffix then ft
      else from_extension_loop fts' suffix
  end.

Definition from_extension (suffix : string) : FileType :=
  from_extension_loop members suffix.

End FileTypes.

Module FileTypeAnalyzer.
Import FileTypes.
Local Open Scope py_scope.

(** [FileTypeAnalyzer.file_type_from_extension] *)
Definition file_type_from_extension (f : File) : FileType :=
  from_extension (path_suffix f).

(** [FileTypeAnalyzer.file_type_from_signature]: the loop over the
    members, on the first 16 bytes of the file. *)
Fixpoint signature_loop (fts : list FileType) (head : bytes) : FileType :=
  match fts with
  | [] => UNKNOWN
  | ft :: fts' =>
      if startswith head (byte_signature ft)
         && negb (bytes_eqb (byte_signature ft) [])
      then ft
      else signature_loop fts' head
  end.

Definition file_type_from_signature (f : File) : FileType :=
  let head := firstn 16 (content f) in
  signature_loop members head.

(** The reading loop of [file_type_from_characteristics]: [it] is the
    file iterator, [lines] the lines read so far.  [None] stands for the
    early [return FileType.UNKNOWN] taken when the iterator is exhausted
    at an index below 3. *)
Fixpoint read_lines_loop (idx : list nat) (it : list bytes) (lines : list bytes)
  : option (list bytes) :=
  match idx with
  | [] => Some lines
  | i :: idx' =>
      match it with
      | l :: it' => read_lines_loop idx' it' (lines ++ [l])
      | [] => if i <? 3 then None else Some lines
      end
  end.

(** The four delimiter bytes [","], ["\t"], ["|"], [";"]. *)
Definition delimiters : bytes := [x2c; x09; x7c; x3b].

Definition is_delimiter (c : byte) : bool := existsb (Byte.eqb c) delimiters.

(** The part of [file_type_from_characteristics] behind the reading
    loop. *)
Definition classify_lines (first_line : bytes) (lines : list bytes) : FileType :=
  if startswith first_line [x50; x4b] then ZIP
  else if startswith first_line [x3c; x3f; x78; x6d; x6c] then XML
  else if startswith first_line [x7b] then JSON
  else if startswith first_line [x5b] then JSONL
  else if startswith first_line [x49; x44] then PDF
  else
    let counts := Counter Byte.eqb (filter is_delimiter first_line) in
    let by_delimiter :=
      match most_common_1 counts with
      | (delimiter, delimiter_count) :: _ =>
          if 1 <? delimiter_count then
            if Byte.eqb delimiter x2c then Some CSV
            else if Byte.eqb delimiter x09 then Some TSV
            else if Byte.eqb delimiter x7c then Some PIPE
            else if Byte.eqb delimiter x3b then Some CSV
            else None
          else None
      | [] => None
      end in
    match by_delimiter with
    | Some ft => ft
    | None =>
        if List.length (Counter Nat.eqb (map (@List.length byte) lines)) =? 1
        then FIXED_WIDTH
        else UNKNOWN
    end.

(** [FileTypeAnalyzer.file_type_from_characteristics] *)
Definition file_type_from_characteristics (f : File) : Result FileType :=
  match readlines (content f) with
  | [] => Raise StopIteration
  | first_line :: it =>
      match read_lines_loop (range 20) it [first_line] with
      | None => Ok UNKNOWN
      | Some lines => Ok (classify_lines first_line lines)
      end
  end.

(** The merge of the three classifications in
    [FileTypeAnalyzer.file_type]. *)
Definition merge (ft_from_extension ft_from_signature ft_from_characteristics : FileType)
  : FileType :=
  if eq ft_from_extension ft_from_signature && ne ft_from_extension UNKNOWN
  then ft_from_extension
  else if eq ft_from_extension ft_from_characteristics && ne ft_from_extension UNKNOWN
  then ft_from_extension
  else if eq ft_from_signature ft_from_characteristics && ne ft_from_signature UNKNOWN
  then ft_from_signature
  else if ne ft_from_signature UNKNOWN
  then ft_from_signature
  else if is_ ft_from_extension UNKNOWN && eq ft_from_characteristics FIXED_WIDTH
  then ft_from_characteristics
  else if ne ft_from_characteristics UNKNOWN
  then ft_from_characteristics
  else TEXT.

(** [FileTypeAnalyzer.file_type] *)
Definition file_type (f : File) : Result FileType :=
  let ft_from_extension := file_type_from_extension f in
  let ft_from_signature := file_type_from_signature f in
  ft_from_characteristics <- file_type_from_characteristics f ;;
  Ok (merge ft_from_extension ft_from_signature ft_from_characteristics).

End FileTypeAnalyzer.

(* ================================================================== *)
(** * file/__init__.py: random sampling                                *)
(* ================================================================== *)

Module FileClass.
Local Open Scope Z_scope.

(** The process-wide generator of module [random]: an arbitrary sequence
    of draws and the number of draws consumed so far. *)
Record Random : Type := mkRandom {
  draws : nat -> N;
  consumed : nat
}.

(** [random.randint(a, b)]: some integer of [a..b], [ValueError] when the
    range is empty.  Every integer of the range is the answer for a
    suitable draw. *)
Definition randint (g : Random) (a b : Z) : Result Z * Random :=
  if b <? a then (Raise ValueError, g)
  else (Ok (a + Z.of_N (draws g (consumed g)) mod (b - a + 1)),
        mkRandom (draws g) (S (consumed g))).

(** [file.seek(position)] followed by [file.read(size)]. *)
Definition read_at (data : bytes) (position size : Z) : bytes :=
  firstn (Z.to_nat size) (skipn (Z.to_nat position) data).

(** The loop [for _ in range(chunk_count)] of [get_random_sample]. *)
Fixpoint read_chunks (chunk_count : nat) (data : bytes) (file_size chunk_size : Z)
  (random_chunks : list bytes) (g : Random) : Result (list bytes) * Random :=
  match chunk_count with
  | O => (Ok random_chunks, g)
  | S chunk_count' =>
      match randint g 0 (file_size - chunk_size) with
      | (Ok random_position, g') =>
          read_chunks chunk_count' data file_size chunk_size
            (random_chunks ++ [read_at data random_position chunk_size]) g'
      | (Raise e, g') => (Raise e, g')
      end
  end.

(** The function [get_random_sample] of [File]: any exception of the
    body is turned into an [IOError].  The class holds this function
    under [@cache] and the decorators of the class; the method as it is
    called is [Running.get_random_sample]. *)
Definition get_random_sample (f : File) (bytes_to_read : Z) (g : Random)
  : Result bytes * Random :=
  let file_size := Z.of_nat (List.length (content f)) in
  let bytes_to_read := if file_size <? bytes_to_read then file_size else bytes_to_read in
  let chunk_size := 4096 in
  let chunk_count := bytes_to_read / chunk_size in
  match read_chunks (Z.to_nat chunk_count) (content f) file_size chunk_size [] g with
  | (Ok random_chunks, g') => (Ok (List.concat random_chunks), g')
  | (Raise _, g') => (Raise IOError, g')
  end.

End FileClass.

(* ================================================================== *)
(** * sniffer.py: the dialect enumerations                             *)
(* ================================================================== *)

Definition CR_char : ascii := "013"%char.
Definition LF_char : ascii := "010"%char.
Definition TAB_char : ascii := "009"%char.

(** [str.encode()] on the ASCII strings that are the values of the
    enumerations: one byte for each character. *)
Definition encode (s : string) : bytes := list_byte_of_string s.

Module Delimiter.
Inductive t : Type := NONE | COMMA | SEMICOLON | TAB | SPACE.
Definition members : list t := [NONE; COMMA; SEMICOLON; TAB; SPACE].
Definition value (d : t) : option string :=
  match d with
  | NONE => None
  | COMMA => Some ","%string
  | SEMICOLON => Some ";"%string
  | TAB => Some (String TAB_char EmptyString)
  | SPACE => Some " "%string
  end.
Definition eqb (a b : t) : bool :=
  match a, b with
  | NONE, NONE | COMMA, COMMA | SEMICOLON, SEMICOLON | TAB, TAB | SPACE, SPACE => true
  | _, _ => false
  end.
End Delimiter.

Module LineTerminator.
Inductive t : Type := CRLF | LF | CR.
Definition members : list t := [CRLF; LF; CR].
Definition value (lt : t) : string :=
  match lt with
  | CRLF => String CR_char (String LF_char EmptyString)
  | LF => String LF_char EmptyString
  | CR => String CR_char EmptyString
  end.
End LineTerminator.

Module Quotechar.
Inductive t : Type := DOUBLE_QUOTE | SINGLE_QUOTE | BACKTICK | NONE.
Definition members : list t := [DOUBLE_QUOTE; SINGLE_QUOTE; BACKTICK; NONE].
Definition value (q : t) : string :=
  match q with
  | DOUBLE_QUOTE => String (ascii_of_nat 34) EmptyString
  | SINGLE_QUOTE => "'"%string
  | BACKTICK => "`"%string
  | NONE => EmptyString
  end.
End Quotechar.

Module Header.
Inductive t : Type := TRUE | FALSE.
Definition members : list t := [TRUE; FALSE].
Definition value (h : t) : bool :=
  match h with
  | TRUE => true
  | FALSE => false
  end.
End Header.

Module Encoding.
Local Open Scope string_scope.

Inductive t : Type :=
| ASCII | ANSI | ISO_8859_1 | WINDOWS_1252 | UTF_8_BOM | UTF_8 | CP1252
| LATIN_1 | MACROMAN | UTF_16_BE | UTF_16_LE | UTF_16 | UTF_32_BE
| UTF_32_LE | UTF_32 | CP850 | CP1250 | CP1251 | CP1253.

Definition members : list t :=
  [ASCII; ANSI; ISO_8859_1; WINDOWS_1252; UTF_8_BOM; UTF_8; CP1252;
   LATIN_1; MACROMAN; UTF_16_BE; UTF_16_LE; UTF_16; UTF_32_BE;
   UTF_32_LE; UTF_32; CP850; CP1250; CP1251; CP1253].

Definition name (e : t) : string :=
  match e with
  | ASCII => "ASCII" | ANSI => "ANSI" | ISO_8859_1 => "ISO_8859_1"
  | WINDOWS_1252 => "WINDOWS_1252" | UTF_8_BOM => "UTF_8_BOM"
  | UTF_8 => "UTF_8" | CP1252 => "CP1252" | LATIN_1 => "LATIN_1"
  | MACROMAN => "MACROMAN" | UTF_16_BE => "UTF_16_BE"
  | UTF_16_LE => "UTF_16_LE" | UTF_16 => "UTF_16" | UTF_32_BE => "UTF_32_BE"
  | UTF_32_LE => "UTF_32_LE" | UTF_32 => "UTF_32" | CP850 => "CP850"
  | CP1250 => "CP1250" | CP1251 => "CP1251" | CP1253 => "CP1253"
  end.

Definition value (e : t) : string :=
  match e with
  | ASCII => "ascii" | ANSI => "ansi" | ISO_8859_1 => "iso-8859-1"
  | WINDOWS_1252 => "windows-1252" | UTF_8_BOM => "utf-8-sig"
  | UTF_8 => "utf-8" | CP1252 => "cp1252" | LATIN_1 => "latin_1"
  | MACROMAN => "macroman" | UTF_16_BE => "utf-16-be"
  | UTF_16_LE => "utf-16-le" | UTF_16 => "utf-16" | UTF_32_BE => "utf-32-be"
  | UTF_32_LE => "utf-32-le" | UTF_32 => "utf-32" | CP850 => "cp850"
  | CP1250 => "cp1250" | CP1251 => "cp1251" | CP1253 => "cp1253"
  end.

Definition eqb (a b : t) : bool := String.eqb (name a) (name b).

(** [str.upper()] on ASCII letters. *)
Definition upper_char (c : ascii) : ascii :=
  let n := nat_of_ascii c in
  if ((97 <=? n)%nat && (n <=? 122)%nat)%bool then ascii_of_nat (n - 32) else c.

Fixpoint upper (s : string) : string :=
  match s with
  | EmptyString => EmptyString
  | String c s' => String (upper_char c) (upper s')
  end.

(** [s.replace("-", "_")] *)
Fixpoint replace_hyphens (s : string) : string :=
  match s with
  | EmptyString => EmptyString
  | String c s' =>
      String (if Ascii.eqb c "-"%char then "_"%char else c) (replace_hyphens s')
  end.

(** [getattr(Encoding, attr)] for an upper-case attribute name: the member
    of that name, if any. *)
Definition getattr (attr : string) : option t :=
  find (fun e => String.eqb (name e) attr) members.

(** [Encoding.get]: every exception, also the one raised for [None], is
    swallowed and answered with [None]. *)
Definition get (encoding : option string) : option t :=
  match encoding with
  | None => None
  | Some s => getattr (replace_hyphens (upper s))
  end.

End Encoding.

(* ================================================================== *)
(** * helpers/__init__.py                                              *)
(* ================================================================== *)

Module DataType.
(** The four classes that [get_data_type] answers with. *)
Inductive t : Type := int | float | datetime | str.
Definition eqb (a b : t) : bool :=
  match a, b with
  | int, int | float, float | datetime, datetime | str, str => true
  | _, _ => false
  end.
End DataType.

Module Helpers.
Local Open Scope string_scope.

Section Builtins.
(** The conversions of the Python library that [get_data_type] tries:
    [true] when the call returns, [false] when it raises [ValueError]. *)
Variable int_converts : string -> bool.
Variable float_converts : string -> bool.
Variable strptime_converts : string -> string -> bool.

Definition formats : list string :=
  ["%d-%m-%Y"; "%Y-%m-%d"; "%Y/%m/%d"; "%Y-%m-%d %H"; "%Y-%m-%d %H:%M";
   "%Y-%m-%d %H:%M:%S"; "%Y-%m-%d %H:%M:%S.%f"; "%Y-%m-%d %H:%M:%S %z"].

Fixpoint try_formats (field : string) (forms : list string) : DataType.t :=
  match forms with
  | [] => DataType.str
  | form :: forms' =>
      if strptime_converts field form then DataType.datetime
      else try_formats field forms'
  end.

Definition get_data_type (field : string) : DataType.t :=
  if int_converts field then DataType.int
  else if float_converts field then DataType.float
  else try_formats field formats.

End Builtins.
End Helpers.

(* ================================================================== *)
(** * helpers/decorators.py and sniffer.py: FileSniffer                *)
(* ================================================================== *)

(** Arithmetic on Python floats.  The two float computations of the
    sniffer, [lf + cr * 0.9] and [diff / width], have integer operands
    that are counts of bytes or of fields of a sample.  They are modelled
    in exact rational arithmetic: between an integer and such a value, or
    between such a quotient and [0.1], the binary64 result compares as the
    exact one does for all counts below 2^49. *)
Definition float_of_count (n : nat) : Q := inject_Z (Z.of_nat n).
Definition float_gt (x y : Q) : bool := negb (Qle_bool x y).

Module FileSniffer.
Import FileClass.

(** The classes that the setters validate against, and the Python values
    that can be assigned to a property. *)
Inductive PyClass : Type :=
| EncodingClass | DelimiterClass | LineTerminatorClass | QuotecharClass | HeaderClass.

Inductive PyValue : Type :=
| PyNone
| PyBool (b : bool)
| PyInt (z : Z)
| PyStr (s : string)
| PyBytes (b : bytes)
| PyEncoding (e : Encoding.t)
| PyDelimiter (d : Delimiter.t)
| PyLineTerminator (lt : LineTerminator.t)
| PyQuotechar (q : Quotechar.t)
| PyHeader (h : Header.t).

Definition isinstance (v : PyValue) (c : PyClass) : bool :=
  match v, c with
  | PyEncoding _, EncodingClass
  | PyDelimiter _, DelimiterClass
  | PyLineTerminator _, LineTerminatorClass
  | PyQuotechar _, QuotecharClass
  | PyHeader _, HeaderClass => true
  | _, _ => false
  end.

(** The attributes of an instance; [None] is an attribute that has not
    been set. *)
Record t : Type := mk {
  delimited_file : File;
  sample : bytes;
  BYTES_TO_ANALYZE : Z;
  _encoding : option PyValue;
  _delimiter : option PyValue;
  _lineterminator : option PyValue;
  _line_terminator : option PyValue;
  _quotechar : option PyValue;
  _header : option PyValue
}.

(** What a method runs in: the instance and the random generator. *)
Record World : Type := mkWorld {
  self : t;
  random : Random
}.

(** A method call: it returns or raises, and leaves a world behind. *)
Definition M (A : Type) : Type := World -> Result A * World.

Definition ret {A} (a : A) : M A := fun w => (Ok a, w).
Definition raise {A} (e : Exception) : M A := fun w => (Raise e, w).
Definition bindM {A B} (m : M A) (k : A -> M B) : M B :=
  fun w => match m w with
           | (Ok a, w') => k a w'
           | (Raise e, w') => (Raise e, w')
           end.
Definition lift {A} (r : Result A) : M A := fun w => (r, w).

Declare Scope sniffer_scope.
Delimit Scope sniffer_scope with sniffer.
Notation "x <~ c1 ;; c2" := (bindM c1 (fun x => c2))
  (at level 61, c1 at next level, right associativity) : sniffer_scope.
Notation "c1 ;;; c2" := (bindM c1 (fun _ => c2))
  (at level 61, right associativity) : sniffer_scope.
Local Open Scope sniffer_scope.

Definition set_sample (s : bytes) : M unit :=
  fun w =>
    let o := self w in
    (Ok tt, mkWorld (mk (delimited_file o) s (BYTES_TO_ANALYZE o) (_encoding o)
                        (_delimiter o) (_lineterminator o) (_line_terminator o)
                        (_quotechar o) (_header o)) (random w)).

(** [self.delimited_file.get_random_sample(n)] as a call of the function
    itself, which draws a sample at every call; the call of the method
    under its decorators is [Running.call_get_random_sample]. *)
Definition call_get_random_sample (bytes_to_read : Z) : M bytes :=
  fun w =>
    match get_random_sample (delimited_file (self w)) bytes_to_read (random w) with
    | (r, g') => (r, mkWorld (self w) g')
    end.

(** [FileSniffer.__init__] on a plain [File], which has none of the
    attributes [_encoding], [_delimiter], [_lineterminator], [_quotechar],
    [_header]: the five [hasattr] branches are skipped. *)
Definition init (file : File) (bytes_arg : option Z) (g : Random) : Result t * Random :=
  match get_random_sample file 16184 g with
  | (Ok s, g') =>
      (Ok (mk file s (match bytes_arg with Some b => b | None => 16184%Z end)
              None None None None None None), g')
  | (Raise e, g') => (Raise e, g')
  end.

(** ** input_type_validation *)

Fixpoint check_args (pairs : list (PyValue * PyClass)) : Result unit :=
  match pairs with
  | [] => Ok tt
  | (arg, type_) :: pairs' =>
      if negb (isinstance arg type_) then Raise TypeError else check_args pairs'
  end.

Fixpoint check_kwargs (types : list PyClass) (kwargs : list (string * PyValue))
  : Result unit :=
  match kwargs with
  | [] => Ok tt
  | (key, value) :: kwargs' =>
      match types with
      | [] => Raise IndexError
      | type0 :: _ =>
          if negb (isinstance value type0) then Raise TypeError
          else check_kwargs types kwargs'
      end
  end.

(** The wrapper that [input_type_validation(types)(method)] returns. *)
Definition input_type_validation (types : list PyClass)
  (method : list PyValue -> list (string * PyValue) -> M unit)
  (args : list PyValue) (kwargs : list (string * PyValue)) : M unit :=
  lift (check_args (combine args types)) ;;;
  lift (check_kwargs types kwargs) ;;;
  method args kwargs.

(** ** The five properties and their setters *)

Inductive Property : Type := encoding | delimiter | lineterminator | quotechar | header.

Definition class_of (p : Property) : PyClass :=
  match p with
  | encoding => EncodingClass
  | delimiter => DelimiterClass
  | lineterminator => LineTerminatorClass
  | quotechar => QuotecharClass
  | header => HeaderClass
  end.

(** The attribute that the setter of a property writes. *)
Definition stored (p : Property) (o : t) : option PyValue :=
  match p with
  | encoding => _encoding o
  | delimiter => _delimiter o
  | lineterminator => _lineterminator o
  | quotechar => _quotechar o
  | header => _header o
  end.

Definition store (p : Property) (value : PyValue) : M unit :=
  fun w =>
    let o := self w in
    let v := Some value in
    let o' :=
      match p with
      | encoding =>
          mk (delimited_file o) (sample o) (BYTES_TO_ANALYZE o) v (_delimiter o)
             (_lineterminator o) (_line_terminator o) (_quotechar o) (_header o)
      | delimiter =>
          mk (delimited_file o) (sample o) (BYTES_TO_ANALYZE o) (_encoding o) v
             (_lineterminator o) (_line_terminator o) (_quotechar o) (_header o)
      | lineterminator =>
          mk (delimited_file o) (sample o) (BYTES_TO_ANALYZE o) (_encoding o)
             (_delimiter o) v (_line_terminator o) (_quotechar o) (_header o)
      | quotechar =>
          mk (delimited_file o) (sample o) (BYTES_TO_ANALYZE o) (_encoding o)
             (_delimiter o) (_lineterminator o) (_line_terminator o) v (_header o)
      | header =>
          mk (delimited_file o) (sample o) (BYTES_TO_ANALYZE o) (_encoding o)
             (_delimiter o) (_lineterminator o) (_line_terminator o) (_quotechar o) v
      end in
    (Ok tt, mkWorld o' (random w)).

(** The undecorated setter [def p(self, value): self._p = value]; a call
    that does not bind [value] exactly once is a [TypeError]. *)
Definition setter_body (p : Property) (args : list PyValue)
  (kwargs : list (string * PyValue)) : M unit :=
  match args, kwargs with
  | [value], [] => store p value
  | [], [(key, value)] =>
      if String.eqb key "value" then store p value else raise TypeError
  | _, _ => raise TypeError
  end.

Definition setter (p : Property) : list PyValue -> list (string * PyValue) -> M unit :=
  input_type_validation [class_of p] (setter_body p).

(** The assignment [sniffer.p = value]. *)
Definition assign (p : Property) (value : PyValue) : M unit :=
  setter p [value] [].

(** ** infer_encoding *)

Section Encoding_inference.
(** [decodes codec sample]: [sample.decode(codec)] returns, rather than
    raising [UnicodeDecodeError]. *)
Variable decodes : string -> bytes -> bool.
(** [detect sample]: the name under ['encoding'] in the answer of
    [chardet.detect(sample)], [None] when the detector has no guess. *)
Variable detect : bytes -> option string.

(** The candidates, for an interpreter that knows the codec of every
    member; [Running.candidates_loop] has the codecs that it does not
    know. *)
Definition candidates_of (s : bytes) : list Encoding.t :=
  filter (fun encoding => decodes (Encoding.value encoding) s) Encoding.members.

(** [x in candidates] *)
Definition member_of (x : Encoding.t) (candidates : list Encoding.t) : bool :=
  existsb (Encoding.eqb x) candidates.

(** One round of the loop body for the index [i]: [inl e] is the
    [return] of [e], [inr tt] the fall through to the next round, taken
    after the sample has been replaced. *)
Definition attempt (i : nat) : M (Encoding.t + unit) :=
  fun w =>
    let o := self w in
    let candidates := candidates_of (sample o) in
    let charset_value := detect (sample o) in
    let resample :=
      (s <~ call_get_random_sample (BYTES_TO_ANALYZE o * Z.of_nat i) ;;
       set_sample s ;;;
       ret (inr tt)) in
    match Encoding.get charset_value with
    | Some e => if member_of e candidates then (Ok (inl e), w) else resample w
    | None => resample w
    end.

Fixpoint infer_encoding_loop (idx : list nat) : M Encoding.t :=
  match idx with
  | [] => raise EncodingException
  | i :: idx' =>
      r <~ attempt i ;;
      match r with
      | inl e => ret e
      | inr _ => infer_encoding_loop idx'
      end
  end.

(** [FileSniffer.infer_encoding] *)
Definition infer_encoding : M Encoding.t := infer_encoding_loop (range 5).

End Encoding_inference.

(** ** infer_delimiter and infer_line_terminator

    Both read [self.sample] only. *)

Definition delimiter_counts (s : bytes) (delim : Delimiter.t) : nat :=
  match Delimiter.value delim with
  | Some v => count s (encode v)
  | None => 0
  end.

(** [FileSniffer.infer_delimiter]: the keys of [counts] are the members
    other than [NONE], in declaration order. *)
Definition infer_delimiter (s : bytes) : Delimiter.t :=
  max_by (delimiter_counts s) Delimiter.COMMA
    [Delimiter.SEMICOLON; Delimiter.TAB; Delimiter.SPACE].

Definition line_terminator_counts (s : bytes) (lt : LineTerminator.t) : nat :=
  count s (encode (LineTerminator.value lt)).

(** The body of [infer_line_terminator] behind the computation of
    [counts], whose keys are [CRLF], [LF], [CR], in this order. *)
Definition choose_line_terminator (counts : LineTerminator.t -> nat) : LineTerminator.t :=
  if float_gt (float_of_count (counts LineTerminator.CRLF))
       (float_of_count (counts LineTerminator.LF)
        + float_of_count (counts LineTerminator.CR) * (9 # 10))%Q
  then LineTerminator.CRLF
  else if counts LineTerminator.LF =? counts LineTerminator.CR
  then LineTerminator.CRLF
  else max_by counts LineTerminator.CRLF [LineTerminator.LF; LineTerminator.CR].

(** [FileSniffer.infer_line_terminator] *)
Definition infer_line_terminator (s : bytes) : LineTerminator.t :=
  choose_line_terminator (line_terminator_counts s).

(** ** infer_header *)

Section Header_inference.
Variable int_converts : string -> bool.
Variable float_converts : string -> bool.
Variable strptime_converts : string -> string -> bool.
Local Open Scope py_scope.

Definition get_data_type : string -> DataType.t :=
  Helpers.get_data_type int_converts float_converts strptime_converts.

(** [l[i]] on a list and [d[i]] on a dictionary keyed by [0 .. len-1]. *)
Definition item {A} (e : Exception) (l : list A) (i : nat) : Result A :=
  match nth_error l i with
  | Some a => Ok a
  | None => Raise e
  end.

(** [sum([1 for i in range(n) if first_row_data_types[i] != checks[0][i]])],
    the indices taken in order. *)
Fixpoint count_differences (idx : list nat) (first_row_data_types : list DataType.t)
  (checks : list (list DataType.t)) : Result nat :=
  match idx with
  | [] => Ok 0
  | i :: idx' =>
      a <- item IndexError first_row_data_types i ;;
      row <- item KeyError checks 0 ;;
      b <- item KeyError row i ;;
      n <- count_differences idx' first_row_data_types checks ;;
      Ok (if negb (DataType.eqb a b) then S n else n)
  end.

(** [FileSniffer.infer_header] on the rows that the [csv.reader] over the
    decoded sample yields. *)
Definition infer_header (reader : list (list string)) : Result Header.t :=
  match reader with
  | [] => Raise StopIteration
  | first_row :: rest =>
      let first_row_data_types := map get_data_type first_row in
      if negb (forallb (fun data_type => DataType.eqb data_type DataType.str)
                 first_row_data_types)
      then Ok Header.FALSE
      else
        let checks := map (map get_data_type) rest in
        let first_row_type_length := List.length first_row_data_types in
        differing <- count_differences (range first_row_type_length)
                       first_row_data_types checks ;;
        if first_row_type_length =? 0 then Raise ZeroDivisionError
        else
          let diff := (float_of_count differing / float_of_count first_row_type_length)%Q in
          if float_gt diff (1 # 10) then Ok Header.TRUE else Ok Header.FALSE
  end.

End Header_inference.

End FileSniffer.

(* ================================================================== *)
(** * The documented behaviour, for comparison with the code           *)
(* ================================================================== *)

Module Documented.
Import FileTypes.

Definition FileType_eq_dec (a b : FileType) : {a = b} + {a <> b}.
Proof. decide equality. Defined.

Definition same (a b : FileType) : bool := if FileType_eq_dec a b then true else false.

(** The merge policy as the numbered table of the documentation: each
    rule is a condition with its answer, and the first rule whose
    condition holds gives the result. *)
Definition precedence_rules (extension signature characteristics : FileType)
  : list (bool * FileType) :=
  [ (same extension signature && negb (same extension UNKNOWN), extension);
    (same extension characteristics && negb (same extension UNKNOWN), extension);
    (same signature characteristics && negb (same signature UNKNOWN), signature);
    (negb (same signature UNKNOWN), signature);
    (same extension UNKNOWN && same characteristics FIXED_WIDTH, characteristics);
    (negb (same characteristics UNKNOWN), characteristics) ].

Fixpoint first_match (rules : list (bool * FileType)) (otherwise : FileType) : FileType :=
  match rules with
  | [] => otherwise
  | (condition, answer) :: rules' =>
      if condition then answer else first_match rules' otherwise
  end.

Definition precedence_table (extension signature characteristics : FileType) : FileType :=
  first_match (precedence_rules extension signature characteristics) TEXT.

(** The number of column positions at which two rows of types differ, and
    its share of the width of the first row. *)
Definition mismatches (first second : list DataType.t) : nat :=
  List.length (filter (fun ab => negb (DataType.eqb (fst ab) (snd ab)))
                 (combine first second)).

Definition mismatch_fraction (first second : list DataType.t) : Q :=
  (inject_Z (Z.of_nat (mismatches first second))
   / inject_Z (Z.of_nat (List.length first)))%Q.

(** The literal occurrences of [sub] in a sample: the positions of the
    sample from which the bytes of [sub] can be read off one behind the
    other. *)
Definition occurs_at (sub s : bytes) (position : nat) : bool :=
  bytes_eqb (firstn (List.length sub) (skipn position s)) sub.

Definition occurrences (sub s : bytes) : nat :=
  List.length (filter (occurs_at sub s) (seq 0 (List.length s))).

(** The occurrences of a line break that are not part of a CRLF
    sequence. *)
Definition lone (sub s : bytes) : nat :=
  occurrences sub s - occurrences [x0d; x0a] s.

(** The inference of the line terminator as the documentation words it,
    on the occurrences of CRLF, LF and CR in the sample: CRLF if the count
    of CRLF exceeds the count of LF plus 0.9 times the count of CR; else
    CRLF if the counts of LF and CR are equal; else the terminator with
    the highest count. *)
Definition documented_line_terminator (s : bytes) : LineTerminator.t :=
  let crlf := occurrences [x0d; x0a] s in
  let lf := occurrences [x0a] s in
  let cr := occurrences [x0d] s in
  match (inject_Z (Z.of_nat lf) + (9 # 10) * inject_Z (Z.of_nat cr)
         ?= inject_Z (Z.of_nat crlf))%Q with
  | Lt => LineTerminator.CRLF
  | _ =>
      if lf =? cr then LineTerminator.CRLF
      else if (lf <=? crlf) && (cr <=? crlf) then LineTerminator.CRLF
      else if cr <=? lf then LineTerminator.LF
      else LineTerminator.CR
  end.

End Documented.

(* ================================================================== *)
(** * Notions used in the statements and proofs                        *)
(* ================================================================== *)

Module Notions.

(** A chunk read from [data]: [size] contiguous bytes that start at
    [position]. *)
Definition slice_of (data : bytes) (size : nat) (chunk : bytes) : Prop :=
  exists position : nat,
    (position + size <= List.length data)%nat
    /\ chunk = firstn size (skipn position data).

(** Whether the scan stands on a line feed. *)
Definition at_line_feed (s : bytes) : nat :=
  match s with
  | c :: _ => if Byte.eqb c x0a then 1 else 0
  | [] => 0
  end.

(** A string of decimal digits, on which [int()] and [float()] return. *)
Fixpoint all_digits (s : string) : bool :=
  match s with
  | EmptyString => true
  | String c s' =>
      (48 <=? nat_of_ascii c) && (nat_of_ascii c <=? 57) && all_digits s'
  end.

Definition decimal_digits (s : string) : bool :=
  negb (String.eqb s EmptyString) && all_digits s.

End Notions.

(* ================================================================== *)
(** * Concrete files and samples                                       *)
(* ================================================================== *)

Module Samples.
Import FileClass FileSniffer.

(** A ZIP archive under a [.txt] name: the local file header signature
    and the first two bytes behind it. *)
Definition pk_named_txt : File := mkFile ".txt" [x50; x4b; x03; x04; x14; x00].

(** 4096 times the letter [a], then one [b]. *)
Definition file_of_4097_bytes : File := mkFile ".csv" (repeat x61 4096 ++ [x62]).

(** One short line of a CSV file. *)
Definition short_csv : File := mkFile ".csv" [x61; x2c; x62; x0a].

Definition zero_draws : Random := mkRandom (fun _ => 0%N) 0.
Definition seven_draws : Random := mkRandom (fun _ => 7%N) 0.

(** 100 CRLF sequences, then 5 lines that end in a lone LF, then 5 that
    end in a lone CR. *)
Definition mixed_terminators : bytes :=
  List.concat (repeat [x0d; x0a] 100)
  ++ List.concat (repeat [x61; x0a] 5)
  ++ List.concat (repeat [x61; x0d] 5).

(** A sniffer whose encoding has been set to UTF-8. *)
Definition utf8_sniffer : World :=
  mkWorld (mk short_csv [] 16184
             (Some (PyEncoding Encoding.UTF_8)) None None None None None)
          zero_draws.

Definition name_age_rows : list (list string) :=
  [["Name"; "Age"]; ["Alice"; "34"]; ["Bob"; "27"]]%string.

End Samples.

(* ================================================================== *)
(** * Further concrete inputs                                          *)
(* ================================================================== *)

Module Inputs.
Import FileClass FileSniffer.

(** Four lines of comma separated values. *)
Definition four_line_csv : File :=
  mkFile ".csv"
    [x61; x2c; x62; x2c; x63; x0a;  x31; x2c; x32; x2c; x33; x0a;
     x34; x2c; x35; x2c; x36; x0a;  x37; x2c; x38; x2c; x39; x0a].

(** A ZIP archive of a single line, under its own extension. *)
Definition small_zip : File := mkFile ".zip" [x50; x4b; x03; x04; x14; x00].

(** Three lines of text under the extension [.json]. *)
Definition three_line_json : File :=
  mkFile ".json" [x7b; x0a; x7d; x0a; x20; x0a].

(** A sniffer over [four_line_csv], as [FileSniffer.__init__] leaves it:
    the file is shorter than a chunk and the sample is empty. *)
Definition fresh_sniffer : World :=
  mkWorld (mk four_line_csv [] 16184 None None None None None None) Samples.zero_draws.

(** A sniffer that holds a sample of its own. *)
Definition sampled_sniffer : World :=
  mkWorld (mk four_line_csv (content four_line_csv) 16184 None None None None None None)
          Samples.zero_draws.

(** A detector that always names ASCII, one that never names anything,
    and a decoder that accepts every sample. *)
Definition detect_ascii (s : bytes) : option string := Some "ascii"%string.
Definition detect_nothing (s : bytes) : option string := None.
Definition decodes_all (codec : string) (s : bytes) : bool := true.

End Inputs.

(* ================================================================== *)
(** * Further notions used in the statements                           *)
(* ================================================================== *)

Module Further.
Import FileClass FileSniffer.

(** The guess of the detector for a sample is turned down: it names no
    member of [Encoding], or one that does not decode the sample. *)
Definition turned_down (decodes : string -> bytes -> bool)
  (detect : bytes -> option string) (s : bytes) : Prop :=
  match Encoding.get (detect s) with
  | Some e => member_of e (candidates_of decodes s) = false
  | None => True
  end.

End Further.

(* ================================================================== *)
(** * sniffer.py: the getters of the five properties                   *)
(* ================================================================== *)

Module Getters.
Import FileClass FileSniffer.
Local Open Scope sniffer_scope.

(** What a getter does: besides the exceptions of the methods above, the
    read of an attribute that is not set raises [AttributeError]. *)
Inductive Outcome (A : Type) : Type :=
| Returned (a : A)
| Raised (e : Exception)
| RaisedAttributeError.

Arguments Returned {A} a.
Arguments Raised {A} e.
Arguments RaisedAttributeError {A}.

(** [return self._p] *)
Definition read_attribute (attribute : option PyValue) (w : World)
  : Outcome PyValue * World :=
  match attribute with
  | Some v => (Returned v, w)
  | None => (RaisedAttributeError, w)
  end.

(** The shape that the five getters share:
    [if not hasattr(self, guard): self.p = self.infer_p()] and then
    [return self._p].  [guard] reads the attribute that [hasattr] tests. *)
Definition getter (guard : FileSniffer.t -> option PyValue) (p : Property)
  (infer : M PyValue) (w : World) : Outcome PyValue * World :=
  match guard (self w) with
  | Some _ => read_attribute (stored p (self w)) w
  | None =>
      match (value <~ infer ;; assign p value) w with
      | (Ok _, w') => read_attribute (stored p (self w')) w'
      | (Raise e, w') => (Raised e, w')
      end
  end.

(** The inference functions as the getters call them, the calls not
    counted; [Running.get_lineterminator] has the getter of lineterminator
    with the call counted. *)
Definition infer_encoding_value (decodes : string -> bytes -> bool)
  (detect : bytes -> option string) : M PyValue :=
  e <~ infer_encoding decodes detect ;; ret (PyEncoding e).

Definition infer_delimiter_value : M PyValue :=
  fun w => (Ok (PyDelimiter (infer_delimiter (sample (self w)))), w).

Definition infer_line_terminator_value : M PyValue :=
  fun w => (Ok (PyLineTerminator (infer_line_terminator (sample (self w)))), w).

(** The getter [encoding] tests [_encoding]. *)
Definition get_encoding (decodes : string -> bytes -> bool)
  (detect : bytes -> option string) : World -> Outcome PyValue * World :=
  getter _encoding encoding (infer_encoding_value decodes detect).

(** The getter [delimiter] tests [_delimiter]. *)
Definition get_delimiter : World -> Outcome PyValue * World :=
  getter _delimiter delimiter infer_delimiter_value.

(** The getter [lineterminator] tests [_line_terminator] and returns
    [_lineterminator]. *)
Definition get_lineterminator : World -> Outcome PyValue * World :=
  getter _line_terminator lineterminator infer_line_terminator_value.

(** The getters [quotechar] and [header] test [_quotechar] and [_header];
    their inference methods run the [csv] module and are taken as they
    come. *)
Definition get_quotechar (infer_quotechar : M PyValue) : World -> Outcome PyValue * World :=
  getter _quotechar quotechar infer_quotechar.

Definition get_header (infer_header : M PyValue) : World -> Outcome PyValue * World :=
  getter _header header infer_header.

End Getters.

(* ================================================================== *)
(** * sniffer.py: EnumDescriptor                                       *)
(* ================================================================== *)

Module EnumDescriptor.
Import FileSniffer.
Local Open Scope py_scope.

(** What the attribute [enum_class] of a descriptor holds: the class
    given to [__init__], or, after an assignment, the value assigned. *)
Inductive Held : Type :=
| HeldClass (c : PyClass)
| HeldValue (v : PyValue).

(** [EnumDescriptor.__init__] *)
Definition init (enum_class : PyClass) : Held := HeldClass enum_class.

(** [EnumDescriptor.__get__]: the instance and the owner are not looked
    at. *)
Definition get (self : Held) (instance : nat) : Held := self.

(** [isinstance(value, self.enum_class)]: a [TypeError] when the second
    argument is not a class. *)
Definition isinstance_held (value : PyValue) (h : Held) : Result bool :=
  match h with
  | HeldClass c => Ok (isinstance value c)
  | HeldValue _ => Raise TypeError
  end.

(** [cls(s)] on an enumeration and a string: the first member whose
    value is [s], [ValueError] when there is none. *)
Definition first_member {A} (members : list A) (has_value : A -> bool)
  (wrap : A -> PyValue) : Result PyValue :=
  match find has_value members with
  | Some m => Ok (wrap m)
  | None => Raise ValueError
  end.

Definition call_class (c : PyClass) (s : string) : Result PyValue :=
  match c with
  | EncodingClass =>
      first_member Encoding.members (fun e => String.eqb (Encoding.value e) s) PyEncoding
  | DelimiterClass =>
      first_member Delimiter.members
        (fun d => match Delimiter.value d with
                  | Some v => String.eqb v s
                  | None => false
                  end) PyDelimiter
  | LineTerminatorClass =>
      first_member LineTerminator.members
        (fun lt => String.eqb (LineTerminator.value lt) s) PyLineTerminator
  | QuotecharClass =>
      first_member Quotechar.members (fun q => String.eqb (Quotechar.value q) s) PyQuotechar
  | HeaderClass =>
      first_member Header.members (fun _ => false) PyHeader
  end.

(** [self.enum_class(value)]: a member of an enumeration is not
    callable. *)
Definition call_held (h : Held) (s : string) : Result PyValue :=
  match h with
  | HeldClass c => call_class c s
  | HeldValue _ => Raise TypeError
  end.

(** The body of the outer [try] of [__set__]: it ends in the new content
    of [enum_class] or in an exception. *)
Definition set_body (self : Held) (value : PyValue) : Result Held :=
  is_instance <- isinstance_held value self ;;
  if negb is_instance then
    converted <-
      match value with
      | PyStr s =>
          match call_held self s with
          | Ok member => Ok member
          | Raise ValueError => Ok value
          | Raise e => Raise e
          end
      | _ => Ok value
      end ;;
    Raise ValueError
  else Ok (HeldValue value).

(** [EnumDescriptor.__set__]: a [TypeError] of the body is raised anew as
    [TypeError], every other exception passes. *)
Definition set (self : Held) (instance : nat) (value : PyValue) : Result unit * Held :=
  match set_body self value with
  | Ok held => (Ok tt, held)
  | Raise e => (Raise e, self)
  end.

End EnumDescriptor.

(* ================================================================== *)
(** * helpers/decorators.py: call_counter and cache                    *)
(* ================================================================== *)

Module Decorators.
Local Open Scope Z_scope.

(** A dictionary with string keys. *)
Fixpoint lookup {V} (key : string) (d : list (string * V)) : option V :=
  match d with
  | [] => None
  | (k, v) :: d' => if String.eqb k key then Some v else lookup key d'
  end.

Fixpoint update {V} (key : string) (v : V) (d : list (string * V)) : list (string * V) :=
  match d with
  | [] => [(key, v)]
  | (k, v0) :: d' =>
      if String.eqb k key then (k, v) :: d' else (k, v0) :: update key v d'
  end.

Definition remove {V} (key : string) (d : list (string * V)) : list (string * V) :=
  filter (fun kv => negb (String.eqb (fst kv) key)) d.

(** ** call_counter *)

(** An instance as [call_counter] sees it: the attributes
    [disable_call_counter] and [call_count], either of which may be
    missing, the records sent to [self.log], and all other attributes. *)
Record Counted (S : Type) : Type := mkCounted {
  disable_call_counter : option (list string);
  call_count : option (list (string * Z));
  log : list (Z * string * Z);
  others : S
}.

Arguments mkCounted {S} _ _ _ _.
Arguments disable_call_counter {S} _.
Arguments call_count {S} _.
Arguments log {S} _.
Arguments others {S} _.

(** What the wrapper does: it runs the method, or raises
    [RecursionError] without running it. *)
Inductive Call (R : Type) : Type :=
| Ran (r : R)
| RaisedRecursionError.

Arguments Ran {R} r.
Arguments RaisedRecursionError {R}.

(** [while limits and count > limits.pop(0): level = levels.pop(0)].  The
    two lists hold five entries each, so [levels] is not exhausted before
    [limits]. *)
Fixpoint level_loop (limits levels : list Z) (count level : Z) : Z :=
  match limits with
  | [] => level
  | limit :: limits' =>
      if limit <? count then
        match levels with
        | l :: levels' => level_loop limits' levels' count l
        | [] => level
        end
      else level
  end.

(** The wrapper that [call_counter(method, name)] returns.  [method] is
    given the whole instance. *)
Definition call_counter {S R} (method : Counted S -> R * Counted S) (name : string)
  (self : Counted S) : Call R * Counted S :=
  let disabled :=
    match disable_call_counter self with
    | Some names => existsb (String.eqb name) names
    | None => false
    end in
  if disabled then
    let (r, self') := method self in (Ran r, self')
  else
    let limits := [1; 10; 50; 250; 1000] in
    let levels := [10; 20; 30; 40; 50] in
    let counts := match call_count self with Some d => d | None => [] end in
    let counts := match lookup name counts with
                  | Some _ => counts
                  | None => update name 0 counts
                  end in
    let count := match lookup name counts with Some c => c + 1 | None => 1 end in
    let counts := update name count counts in
    let level := level_loop limits levels count 1 in
    let log' :=
      if negb (level =? 1)
         && ((count mod 10 =? 0) || (level =? 50) || (count <? 10))
      then log self ++ [(level, name, count)]
      else log self in
    let self1 := mkCounted (disable_call_counter self) (Some counts) log' (others self) in
    if level =? 50 then (RaisedRecursionError, self1)
    else let (r, self') := method self1 in (Ran r, self').

(** ** cache *)

(** [time.time()]: an arbitrary sequence of readings and the number of
    readings taken. *)
Record Clock : Type := mkClock {
  times : nat -> Q;
  readings : nat
}.

Definition time (c : Clock) : Q * Clock :=
  (times c (readings c), mkClock (times c) (S (readings c))).

(** An instance as [cache] sees it: the attribute [cache], which may be
    missing, with the entries [{'return_value': v, 'time': t}], the clock,
    and all other attributes. *)
Record Cached (V S : Type) : Type := mkCached {
  cache_attr : option (list (string * (V * Q)));
  clock : Clock;
  attrs : S
}.

Arguments mkCached {V S} _ _ _.
Arguments cache_attr {V S} _.
Arguments clock {V S} _.
Arguments attrs {V S} _.

(** Calling the method and storing what it returns under its name,
    together with the time read after the call. *)
Definition fill {V S A K}
  (method : A -> list (string * K) -> S -> Result V * S) (name : string)
  (args : A) (kwargs : list (string * K)) (entries : list (string * (V * Q)))
  (c : Clock) (s : S) : Result V * Cached V S :=
  match method args kwargs s with
  | (Ok v, s') =>
      let (t, c') := time c in
      (Ok v, mkCached (Some (update name (v, t) entries)) c' s')
  | (Raise e, s') => (Raise e, mkCached (Some entries) c s')
  end.

(** The wrapper that [cache(method)] returns, for a method that works on
    the other attributes of the instance.  [truthy] is the truth value of
    a keyword argument. *)
Definition cache {V S A K} (truthy : K -> bool)
  (method : A -> list (string * K) -> S -> Result V * S) (name : string)
  (args : A) (kwargs : list (string * K)) (self : Cached V S) : Result V * Cached V S :=
  let disable := match lookup "DISABLE_CACHE" kwargs with
                 | Some k => truthy k
                 | None => false
                 end in
  let kwargs := remove "DISABLE_CACHE" kwargs in
  if disable then
    match method args kwargs (attrs self) with
    | (r, s') => (r, mkCached (cache_attr self) (clock self) s')
    end
  else
    let entries := match cache_attr self with Some d => d | None => [] end in
    match lookup name entries with
    | None => fill method name args kwargs entries (clock self) (attrs self)
    | Some (v, t) =>
        let (now, c') := time (clock self) in
        if float_gt (now - t)%Q 60
        then fill method name args kwargs entries c' (attrs self)
        else (Ok v, mkCached (Some entries) c' (attrs self))
    end.

End Decorators.

(* ================================================================== *)
(** * Notions and inputs for the decorators                            *)
(* ================================================================== *)

Module DecoratorNotions.
Import FileClass Decorators.
Local Open Scope Z_scope.

(** The number of calls counted for a name; none are counted when the
    attribute or the key is missing. *)
Definition counted {S} (name : string) (self : Counted S) : Z :=
  match call_count self with
  | Some d => match lookup name d with Some c => c | None => 0 end
  | None => 0
  end.

(** The name is listed in [disable_call_counter]. *)
Definition exempt {S} (name : string) (self : Counted S) : bool :=
  match disable_call_counter self with
  | Some names => existsb (String.eqb name) names
  | None => false
  end.

(** The keyword arguments switch the cache off. *)
Definition bypasses {K} (truthy : K -> bool) (kwargs : list (string * K)) : bool :=
  match lookup "DISABLE_CACHE" kwargs with
  | Some k => truthy k
  | None => false
  end.

(** The cache holds a value for the name. *)
Definition cached {V S} (name : string) (self : Cached V S) : option (V * Q) :=
  match cache_attr self with
  | Some d => lookup name d
  | None => None
  end.

(** [File.get_random_sample] as the method under [@cache]: the size is
    its argument, the random generator is what it works on. *)
Definition sample_method (file : File) (bytes_to_read : Z) (kwargs : list (string * bool))
  (g : Random) : Result bytes * Random :=
  get_random_sample file bytes_to_read g.

(** An instance without a cache, whose clock stands still. *)
Definition uncached_file : Cached bytes Random :=
  mkCached None (mkClock (fun _ => 0%Q) 0) Samples.zero_draws.

(** An instance on which a method has been called 1000 times. *)
Definition worn_instance : Counted unit :=
  mkCounted None (Some [("infer_delimiter"%string, 1000)]) [] tt.

End DecoratorNotions.

(* ================================================================== *)
(** * helpers/decorators.py: the decorators as the classes apply them  *)
(* ================================================================== *)

Module ClassDecorator.
Import Decorators DecoratorNotions.
Local Open Scope Z_scope.

(** The wrapper of [log_return_value]: the method runs, and for the log
    its return value is sliced when the text of the value is longer than
    200 characters.  [unsliceable] picks the values of such a text that
    cannot be sliced, a [Path] for one: on them the slice is a
    [TypeError], raised when the method has run. *)
Definition log_return_value {S A} (unsliceable : A -> bool)
  (method : S -> Result A * S) (self : S) : Result A * S :=
  match method self with
  | (Ok return_value, self') =>
      if unsliceable return_value then (Raise TypeError, self')
      else (Ok return_value, self')
  | (Raise e, self') => (Raise e, self')
  end.

(** What [class_decorator] makes of the method [name] of [File] and of
    [FileSniffer].  Both classes hand it [log_method_calls],
    [log_return_value], [log_time], [call_counter] and [error_handler],
    and no callback.  [log_method_calls] only writes to the log.
    [log_time] writes to the log at a level that it finds from two
    readings of [perf_counter], which are taken to differ across a call.
    [error_handler], without a callback, logs an exception and raises it
    again, so that it makes no difference whether it stands inside of
    [call_counter], as in [FileSniffer], or outside, as in [File]. *)
Definition class_decorator {S A} (unsliceable : A -> bool) (name : string)
  (method : Counted S -> Result A * Counted S) (self : Counted S)
  : Result A * Counted S :=
  match call_counter (log_return_value unsliceable method) name self with
  | (Ran r, self') => (r, self')
  | (RaisedRecursionError, self') => (Raise RecursionError, self')
  end.

(** The instance with other attributes behind its counters. *)
Definition with_others {S} (self : Counted S) (s : S) : Counted S :=
  mkCounted (disable_call_counter self) (call_count self) (log self) s.

(** The instance as the method under [call_counter] finds it: the call
    has been counted, unless the name is exempt. *)
Definition tally {S} (name : string) (self : Counted S) : Counted S :=
  snd (call_counter (fun self1 => (tt, self1)) name self).

(** The counter lets a call of the name pass: the name is exempt, or
    fewer than 1000 calls of it are counted. *)
Definition admits {S} (name : string) (self : Counted S) : bool :=
  exempt name self || (counted name self <? 1000).

(** What [cache] answers with when it does not run the method: the value
    stored under the name, if the clock now reads at most 60 seconds more
    than when the value was stored. *)
Definition fresh {V S} (name : string) (self : Cached V S) : option V :=
  match cached name self with
  | Some (v, t) =>
      if float_gt (times (clock self) (readings (clock self)) - t)%Q 60
      then None else Some v
  | None => None
  end.

End ClassDecorator.

(* ================================================================== *)
(** * file/__init__.py and sniffer.py: the methods as the classes hold  *)
(** * them                                                             *)
(* ================================================================== *)

Module Running.
Import FileClass Decorators DecoratorNotions ClassDecorator.
Local Open Scope Z_scope.

(** ** File.get_random_sample *)

(** A [File] object as its methods find it: the counters of
    [call_counter], the attribute [cache] with the clock that [cache]
    reads, and the random generator.  The file on disk, a [File] record
    of suffix and content, stays as it is. *)
Definition FileObject : Type := Counted (Cached bytes Random).

(** The function that stands under [@cache],
    [def get_random_sample(self, bytes_to_read)], called with one
    positional argument: a keyword argument that is left when
    [DISABLE_CACHE] has been taken out cannot be bound, which is a
    [TypeError].  The body reads a file that can be opened, and its
    handler, which would log and raise [IOError], is not reached. *)
Definition sample_body (f : File) (bytes_to_read : Z) (kwargs : list (string * bool))
  (g : Random) : Result bytes * Random :=
  match kwargs with
  | [] => FileClass.get_random_sample f bytes_to_read g
  | _ :: _ => (Raise TypeError, g)
  end.

(** [File.get_random_sample] as the class holds it: the body under
    [@cache], and this under the decorators of the class.  A [bytes]
    object can be sliced. *)
Definition get_random_sample (f : File) (bytes_to_read : Z)
  (kwargs : list (string * bool)) : FileObject -> Result bytes * FileObject :=
  class_decorator (fun _ : bytes => false) "get_random_sample"
    (fun self =>
       match cache (fun b : bool => b) (sample_body f) "get_random_sample"
               bytes_to_read kwargs (others self) with
       | (r, cached') => (r, with_others self cached')
       end).

(** ** FileSniffer *)

(** A [FileSniffer] object as its methods find it: the counters of
    [call_counter], its attributes, and the [File] object that the
    attribute [delimited_file] refers to, which no one else calls while a
    method of the sniffer runs. *)
Record State : Type := mkState {
  attributes : FileSniffer.t;
  file_object : FileObject
}.

Definition Sniffer : Type := Counted State.

Definition with_attributes (self : Sniffer) (o : FileSniffer.t) : Sniffer :=
  with_others self (mkState o (file_object (others self))).

(** [self.sample = s] *)
Definition with_sample (o : FileSniffer.t) (s : bytes) : FileSniffer.t :=
  FileSniffer.mk (FileSniffer.delimited_file o) s (FileSniffer.BYTES_TO_ANALYZE o)
    (FileSniffer._encoding o) (FileSniffer._delimiter o) (FileSniffer._lineterminator o)
    (FileSniffer._line_terminator o) (FileSniffer._quotechar o) (FileSniffer._header o).

(** [self.delimited_file.get_random_sample(n)] *)
Definition call_get_random_sample (bytes_to_read : Z) (self : Sniffer)
  : Result bytes * Sniffer :=
  let state := others self in
  match get_random_sample (FileSniffer.delimited_file (attributes state))
          bytes_to_read [] (file_object state) with
  | (r, file') => (r, with_others self (mkState (attributes state) file'))
  end.

(** [FileSniffer(file)] and [FileSniffer(file, bytes)] for a plain
    [File]: a new object without counters, whose [__init__], which no
    decorator wraps, takes the sample through the [File] object and skips
    the five [hasattr] branches. *)
Definition init (f : File) (bytes_arg : option Z) (file : FileObject)
  : Result Sniffer * FileObject :=
  match get_random_sample f 16184 [] file with
  | (Ok s, file') =>
      (Ok (mkCounted None None []
             (mkState
                (FileSniffer.mk f s (match bytes_arg with Some b => b | None => 16184 end)
                   None None None None None None)
                file')),
       file')
  | (Raise e, file') => (Raise e, file')
  end.

(** ** infer_encoding *)

(** What [sample.decode(codec)] does: it returns, or raises
    [UnicodeDecodeError], or, for a codec that the interpreter does not
    know, [LookupError]. *)
Inductive Decoding : Type :=
| Decoded
| RaisedUnicodeDecodeError
| RaisedLookupError.

Section Encoding_inference.
Variable decode : string -> bytes -> Decoding.
(** [detect sample]: the name under ['encoding'] in the answer of
    [chardet.detect(sample)], [None] when the detector has no guess. *)
Variable detect : bytes -> option string.

(** The loop [for encoding in Encoding] with its [try]: only
    [UnicodeDecodeError] is caught. *)
Fixpoint candidates_loop (members : list Encoding.t) (s : bytes)
  (candidates : list Encoding.t) : Result (list Encoding.t) :=
  match members with
  | [] => Ok candidates
  | encoding :: members' =>
      match decode (Encoding.value encoding) s with
      | Decoded => candidates_loop members' s (candidates ++ [encoding])
      | RaisedUnicodeDecodeError => candidates_loop members' s candidates
      | RaisedLookupError => Raise LookupError
      end
  end.

(** One round of the loop body for the index [i]: [inl e] is the
    [return] of [e], [inr tt] the fall through to the next round, taken
    when the sample has been replaced. *)
Definition attempt (i : nat) (self : Sniffer) : Result (Encoding.t + unit) * Sniffer :=
  let o := attributes (others self) in
  match candidates_loop Encoding.members (FileSniffer.sample o) [] with
  | Raise e => (Raise e, self)
  | Ok candidates =>
      let charset_value := detect (FileSniffer.sample o) in
      let resample :=
        match call_get_random_sample (FileSniffer.BYTES_TO_ANALYZE o * Z.of_nat i) self with
        | (Ok s, self') =>
            (Ok (inr tt), with_attributes self' (with_sample (attributes (others self')) s))
        | (Raise e, self') => (Raise e, self')
        end in
      match Encoding.get charset_value with
      | Some e =>
          if FileSniffer.member_of e candidates then (Ok (inl e), self) else resample
      | None => resample
      end
  end.

Fixpoint infer_encoding_loop (idx : list nat) (self : Sniffer)
  : Result Encoding.t * Sniffer :=
  match idx with
  | [] => (Raise EncodingException, self)
  | i :: idx' =>
      match attempt i self with
      | (Ok (inl e), self') => (Ok e, self')
      | (Ok (inr _), self') => infer_encoding_loop idx' self'
      | (Raise e, self') => (Raise e, self')
      end
  end.

(** [FileSniffer.infer_encoding] as the class holds it.  The text of a
    member of an enumeration is short. *)
Definition infer_encoding : Sniffer -> Result Encoding.t * Sniffer :=
  class_decorator (fun _ : Encoding.t => false) "infer_encoding"
    (infer_encoding_loop (range 5)).

End Encoding_inference.

(** ** The getter of lineterminator *)

(** [FileSniffer.infer_line_terminator] as the class holds it. *)
Definition infer_line_terminator : Sniffer -> Result LineTerminator.t * Sniffer :=
  class_decorator (fun _ : LineTerminator.t => false) "infer_line_terminator"
    (fun self =>
       (Ok (FileSniffer.infer_line_terminator
              (FileSniffer.sample (attributes (others self)))),
        self)).

(** The assignment [self.p = value]: the setter under
    [input_type_validation], which no decorator of the class wraps, on
    the attributes of the sniffer. *)
Definition assign (p : FileSniffer.Property) (value : FileSniffer.PyValue) (self : Sniffer)
  : Result unit * Sniffer :=
  match FileSniffer.assign p value
          (FileSniffer.mkWorld (attributes (others self))
             (attrs (others (file_object (others self))))) with
  | (r, w') => (r, with_attributes self (FileSniffer.self w'))
  end.

(** The getter [lineterminator]:
    [if not hasattr(self, "_line_terminator"):
         self.lineterminator = self.infer_line_terminator()]
    and then [return self._lineterminator]. *)
Definition get_lineterminator (self : Sniffer)
  : Getters.Outcome FileSniffer.PyValue * Sniffer :=
  let read (self1 : Sniffer) :=
    match FileSniffer._lineterminator (attributes (others self1)) with
    | Some v => (Getters.Returned v, self1)
    | None => (Getters.RaisedAttributeError, self1)
    end in
  match FileSniffer._line_terminator (attributes (others self)) with
  | Some _ => read self
  | None =>
      match infer_line_terminator self with
      | (Raise e, self1) => (Getters.Raised e, self1)
      | (Ok lt, self1) =>
          match assign FileSniffer.lineterminator (FileSniffer.PyLineTerminator lt) self1 with
          | (Raise e, self2) => (Getters.Raised e, self2)
          | (Ok _, self2) => read self2
          end
      end
  end.

End Running.

(* ================================================================== *)
(** * Objects at run time, for the statements                          *)
(* ================================================================== *)

Module RunningInputs.
Import FileClass Decorators DecoratorNotions ClassDecorator Running.
Local Open Scope Z_scope.

(** A [File] object on which no method has been called yet, as
    [File.__init__] finds it when it builds the sniffer, with a clock
    that stands still and a generator that draws 7. *)
Definition new_file_object : FileObject :=
  mkCounted None None [] (mkCached None (mkClock (fun _ => 0%Q) 0) Samples.seven_draws).

(** The sample that the [File] object holds in its cache holds no byte. *)
Definition caches_no_byte (self : FileObject) : Prop :=
  match cached "get_random_sample" (others self) with
  | Some (v, _) => v = []
  | None => True
  end.

(** The guess of the detector for a sample is turned down: every codec
    is known, and the guess names no member of [Encoding], or one that
    does not decode the sample. *)
Definition turned_down (decode : string -> bytes -> Decoding)
  (detect : bytes -> option string) (s : bytes) : Prop :=
  exists candidates,
    candidates_loop decode Encoding.members s [] = Ok candidates
    /\ match Encoding.get (detect s) with
       | Some e => FileSniffer.member_of e candidates = false
       | None => True
       end.

(** An interpreter without the codec [ansi], which decodes every sample
    with every other codec; an empty sample is decoded under every name. *)
Definition decode_without_ansi (codec : string) (s : bytes) : Decoding :=
  match s with
  | [] => Decoded
  | _ :: _ => if String.eqb codec "ansi" then RaisedLookupError else Decoded
  end.

(** An interpreter that knows every codec and decodes every sample. *)
Definition decode_all (codec : string) (s : bytes) : Decoding := Decoded.

(** The [File] object and the sniffer over the file of 4097 bytes as
    [__init__] leaves them: the one chunk that has been read starts at
    the second byte of the file, and the cache holds it. *)
Definition one_chunk : bytes := repeat x61 4095 ++ [x62].

Definition sampled_file_object : FileObject :=
  mkCounted None (Some [("get_random_sample"%string, 1)]) []
    (mkCached (Some [("get_random_sample"%string, (one_chunk, 0%Q))])
       (mkClock (fun _ => 0%Q) 1) (mkRandom (fun _ => 7%N) 1)).

Definition new_sniffer : Sniffer :=
  mkCounted None None []
    (mkState (FileSniffer.mk Samples.file_of_4097_bytes one_chunk 16184
                None None None None None None)
       sampled_file_object).

(** This sniffer when [infer_line_terminator] has been called 1000
    times. *)
Definition worn_sniffer : Sniffer :=
  mkCounted None (Some [("infer_line_terminator"%string, 1000)]) [] (others new_sniffer).

(** This sniffer when the line terminator CR has been assigned to it. *)
Definition cr_sniffer : Sniffer :=
  snd (assign FileSniffer.lineterminator
         (FileSniffer.PyLineTerminator LineTerminator.CR) new_sniffer).

End RunningInputs.

(* ================================================================== *)
(** * file/__init__.py: backup and restore                             *)
(* ================================================================== *)

Module Backup.
Import Getters Decorators DecoratorNotions ClassDecorator.

(** The files on disk: the content under each path that exists.  Every
    path can be opened for writing. *)
Definition Disk : Type := string -> option bytes.

Definition write (disk : Disk) (path : string) (data : bytes) : Disk :=
  fun q => if String.eqb q path then Some data else disk q.

Definition unlink (disk : Disk) (path : string) : Disk :=
  fun q => if String.eqb q path then None else disk q.

Definition content_of (disk : Disk) (path : string) : bytes :=
  match disk path with
  | Some data => data
  | None => []
  end.

(** The attributes [_path] and [_backup] of a [File]; [_backup] is set by
    [__enter__]. *)
Record Handle : Type := mkHandle {
  _path : string;
  _backup : option string
}.

(** A [File] object as the methods of backup and restore find it: the
    counters of [call_counter], the two attributes, and the files on
    disk. *)
Record Stored : Type := mkStored {
  handle : Handle;
  disk : Disk
}.

Definition Object : Type := Counted Stored.

Definition with_disk (self : Object) (d : Disk) : Object :=
  with_others self (mkStored (handle (others self)) d).

(** The loop

      while True:
          chunk = source.read(buffer_size)
          if not chunk: break
          target.write(chunk)

    with [source] at [position] and [target] at its end.  [None] says
    that the loop has not ended within [fuel] rounds. *)
Fixpoint copy_loop (fuel : nat) (disk : Disk) (source target : string) (position : nat)
  : option Disk :=
  match fuel with
  | O => None
  | S fuel' =>
      let chunk := firstn 4096 (skipn position (content_of disk source)) in
      match chunk with
      | [] => Some disk
      | _ :: _ =>
          copy_loop fuel' (write disk target (content_of disk target ++ chunk))
            source target (position + List.length chunk)
      end
  end.

(** [with open(source, "rb") as source, open(target, "wb") as target:]
    and the loop; a source that does not exist is an exception before
    the target is opened.  Opening the target creates it or empties it.
    The loop is given one round for every byte of the source and one
    more. *)
Definition copy_file (disk : Disk) (source target : string) : option (Result unit * Disk) :=
  match disk source with
  | None => Some (Raise IOError, disk)
  | Some data =>
      match copy_loop (S (List.length data)) (write disk target []) source target 0 with
      | Some disk' => Some (Ok tt, disk')
      | None => None
      end
  end.

(** A method call on the object; [None] says that a loop of the method
    has not ended within its rounds. *)
Definition Method (A : Type) : Type := Object -> option (Result A * Object).

(** [class_decorator], as [File] applies it, on such a method:
    [call_counter] counts the call and refuses it or runs the method, and
    [log_return_value] raises [TypeError] on a return value that it
    cannot slice, when the method has run. *)
Definition decorated {A} (unsliceable : A -> bool) (name : string) (method : Method A)
  : Method A :=
  fun self =>
    match call_counter (fun self1 => (method self1, self1)) name self with
    | (RaisedRecursionError, self1) => Some (Raise RecursionError, self1)
    | (Ran None, _) => None
    | (Ran (Some (Ok return_value, self')), _) =>
        if unsliceable return_value then Some (Raise TypeError, self')
        else Some (Ok return_value, self')
    | (Ran (Some (Raise e, self')), _) => Some (Raise e, self')
    end.

(** [File.log_error] as the class holds it: the body writes to the log
    and returns [None], whose text is short. *)
Definition log_error : Method unit :=
  decorated (fun _ : unit => false) "log_error" (fun self => Some (Ok tt, self)).

(** The handler [except Exception as e: self.log_error(...)] followed by
    [raise IOError(...)], in which an exception of [log_error] takes the
    place of the [IOError]. *)
Definition handler {A} : Method A :=
  fun self =>
    match log_error self with
    | Some (Ok _, self') => Some (Raise IOError, self')
    | Some (Raise e, self') => Some (Raise e, self')
    | None => None
    end.

Section Paths.
(** [Path.with_suffix]: [ValueError] for a path without a name. *)
Variable with_suffix : string -> string -> Result string.

(** The function [backup_file]: every exception is handed to the
    handler. *)
Definition backup_file_body : Method string :=
  fun self =>
    let path := _path (handle (others self)) in
    match with_suffix path ".bak" with
    | Raise _ => handler self
    | Ok backup_path =>
        match copy_file (disk (others self)) path backup_path with
        | Some (Ok _, disk') => Some (Ok backup_path, with_disk self disk')
        | Some (Raise _, disk') => handler (with_disk self disk')
        | None => None
        end
    end.

(** [File.backup_file] as the class holds it.  It returns a [Path],
    which cannot be sliced: [log_return_value] raises [TypeError] when
    the text of the path is longer than 200 characters. *)
Definition backup_file : Method string :=
  decorated (fun backup_path => 200 <? String.length backup_path) "backup_file"
    backup_file_body.

(** The function [restore_backup]: the [AttributeError] of
    [self.backup], raised when no backup has been made, is handed to the
    handler like every other exception. *)
Definition restore_backup_body : Method unit :=
  fun self =>
    match _backup (handle (others self)) with
    | None => handler self
    | Some backup_path =>
        match copy_file (disk (others self)) backup_path (_path (handle (others self))) with
        | Some (Ok _, disk') => Some (Ok tt, with_disk self disk')
        | Some (Raise _, disk') => handler (with_disk self disk')
        | None => None
        end
    end.

(** [File.restore_backup] as the class holds it; it returns [None]. *)
Definition restore_backup : Method unit :=
  decorated (fun _ : unit => false) "restore_backup" restore_backup_body.

(** [File.__enter__], which no decorator wraps:
    [self.backup = self.backup_file()], and the instance is returned. *)
Definition enter : Method unit :=
  fun self =>
    match backup_file self with
    | Some (Ok backup_path, self') =>
        Some (Ok tt,
              with_others self'
                (mkStored (mkHandle (_path (handle (others self'))) (Some backup_path))
                   (disk (others self'))))
    | Some (Raise e, self') => Some (Raise e, self')
    | None => None
    end.

(** [File.__exit__], which no decorator wraps; [raised] says that the
    block has raised.  The answer [False] lets the exception of the block
    pass. *)
Definition exit (self : Object) (raised : bool) : option (Outcome bool * Object) :=
  if raised then
    match log_error self with
    | Some (Ok _, self1) =>
        match restore_backup self1 with
        | Some (Ok _, self2) => Some (Returned false, self2)
        | Some (Raise e, self2) => Some (Raised e, self2)
        | None => None
        end
    | Some (Raise e, self1) => Some (Raised e, self1)
    | None => None
    end
  else
    match _backup (handle (others self)) with
    | Some backup_path =>
        Some (Returned true, with_disk self (unlink (disk (others self)) backup_path))
    | None => Some (RaisedAttributeError, self)
    end.

End Paths.

(** A disk with the single file [report.csv], and a [with_suffix] for
    paths of one suffix. *)
Definition one_file_disk : Disk :=
  fun q => if String.eqb q "report.csv" then Some [x61; x2c; x62; x0a] else None.

Definition swap_suffix (path suffix : string) : Result string :=
  if String.eqb path "report.csv" then Ok (String.append "report" suffix)
  else if String.eqb path "old.bak" then Ok (String.append "old" suffix)
  else Raise ValueError.

Definition bak_disk : Disk :=
  fun q => if String.eqb q "old.bak" then Some [x61; x2c; x62; x0a] else None.

(** [File] objects as their construction leaves them: the sniffer has
    called [get_random_sample] once. *)
Definition report_object : Object :=
  mkCounted None (Some [("get_random_sample"%string, 1%Z)]) []
    (mkStored (mkHandle "report.csv" None) one_file_disk).

Definition old_bak_object : Object :=
  mkCounted None (Some [("get_random_sample"%string, 1%Z)]) []
    (mkStored (mkHandle "old.bak" None) bak_disk).

End Backup.

(* ================================================================== *)
(** * helpers/levenshtein.py                                           *)
(* ================================================================== *)

Module Levenshtein.
Import FileSniffer.
Local Open Scope py_scope.
Local Open Scope Z_scope.

(** A [str] is the list of its code points. *)
Definition str : Type := list N.

Section Strip.
(** The white space of [str.strip()]. *)
Variable is_space : N -> bool.

Fixpoint lstrip (s : str) : str :=
  match s with
  | [] => []
  | c :: s' => if is_space c then lstrip s' else s
  end.

(** [s.strip()] *)
Definition strip (s : str) : str := rev (lstrip (rev (lstrip s))).

(** [l[-1]] *)
Definition last_item (l : list Z) : Result Z :=
  match rev l with
  | x :: _ => Ok x
  | [] => Raise IndexError
  end.

(** How a round of the outer loop ends: in a [return], or in the next
    row of distances. *)
Inductive Flow : Type :=
| Returns (z : Z)
| Goes (new_distances : list Z).

(** [for index1, char1 in enumerate(s1)], from [index1] on. *)
Fixpoint inner_loop (limit : Z) (char2 : N) (distances : list Z) (s1 : str)
  (index1 : nat) (new_distances : list Z) : Result Flow :=
  match s1 with
  | [] => Ok (Goes new_distances)
  | char1 :: s1' =>
      if limit <? Z.of_nat index1 then Ok (Returns (limit + 1))
      else
        entry <-
          (if N.eqb char1 char2 then item IndexError distances index1
           else
             a <- item IndexError distances index1 ;;
             b <- item IndexError distances (index1 + 1) ;;
             c <- last_item new_distances ;;
             Ok (1 + Z.min a (Z.min b c))) ;;
        inner_loop limit char2 distances s1' (S index1) (new_distances ++ [entry])
  end.

(** [for index2, char2 in enumerate(s2)], from [index2] on, and the
    [return distances[-1]] behind it. *)
Fixpoint outer_loop (limit : Z) (s1 s2 : str) (index2 : nat) (distances : list Z)
  : Result Z :=
  match s2 with
  | [] => last_item distances
  | char2 :: s2' =>
      if limit <? Z.of_nat index2 then Ok (limit + 1)
      else
        flow <- inner_loop limit char2 distances s1 0 [Z.of_nat index2 + 1] ;;
        match flow with
        | Returns z => Ok z
        | Goes new_distances => outer_loop limit s1 s2' (S index2) new_distances
        end
  end.

(** [Levenshtein.distance] *)
Definition distance (s1 s2 : str) (limit : Z) : Result Z :=
  let s1 := strip s1 in
  let s2 := strip s2 in
  let swapped := if (List.length s2 <? List.length s1)%nat then (s2, s1) else (s1, s2) in
  let s1 := fst swapped in
  let s2 := snd swapped in
  let distances := map Z.of_nat (seq 0 (List.length s1 + 1)) in
  outer_loop limit s1 s2 0 distances.

End Strip.

(** Turning one string into another by keeping, substituting, deleting
    and inserting single characters, at the cost of one for each
    substitution, deletion and insertion. *)
Inductive edit : str -> str -> nat -> Prop :=
| edit_nil : edit [] [] 0
| edit_keep (a : N) (s t : str) (n : nat) : edit s t n -> edit (a :: s) (a :: t) n
| edit_substitute (a b : N) (s t : str) (n : nat) :
    edit s t n -> edit (a :: s) (b :: t) (S n)
| edit_delete (a : N) (s t : str) (n : nat) : edit s t n -> edit (a :: s) t (S n)
| edit_insert (b : N) (s t : str) (n : nat) : edit s t n -> edit s (b :: t) (S n).

(** The Levenshtein distance: the least cost. *)
Definition least_cost (s t : str) (d : nat) : Prop :=
  edit s t d /\ forall n, edit s t n -> (d <= n)%nat.

(** The white space of the ASCII range, and two words of twelve letters. *)
Definition ascii_space (c : N) : bool :=
  ((9 <=? c) && (c <=? 13) || (28 <=? c) && (c <=? 32))%N.

Definition twelve_letters : str := [97; 98; 99; 100; 101; 102; 103; 104; 105; 106; 107; 108]%N.

Definition kitten : str := [107; 105; 116; 116; 101; 110]%N.
Definition sitting : str := [32; 115; 105; 116; 116; 105; 110; 103; 10]%N.

End Levenshtein.

(* ------------------------------------------------------------------ *)
(** ** What a row of [Levenshtein.distance] holds                       *)
(* ------------------------------------------------------------------ *)

Module DistanceNotions.
Import Levenshtein.

(** The entries [0 .. k] of [row] are the least costs of turning the
    prefixes of [s1] of these lengths into [q]. *)
Definition row_upto (s1 q : str) (k : nat) (row : list Z) : Prop :=
  List.length row = S k /\
  forall i : nat, i <= k ->
    exists d : nat,
      nth_error row i = Some (Z.of_nat d) /\ least_cost (firstn i s1) q d.

End DistanceNotions.

(* ================================================================== *)
(** * Properties of the Python helpers                                 *)
(* ================================================================== *)

Lemma byte_eqb_refl (b : byte) : Byte.eqb b b = true.
Proof. now apply Byte.byte_dec_lb. Qed.

Lemma byte_eqb_eq (a b : byte) : Byte.eqb a b = true <-> a = b.
Proof.
  split; [apply Byte.byte_dec_bl | apply Byte.byte_dec_lb].
Qed.

Lemma startswith_app (p rest : bytes) : startswith (p ++ rest) p = true.
Proof.
  induction p as [|c p IH]; simpl; [reflexivity|].
  now rewrite byte_eqb_refl, IH.
Qed.

Lemma startswith_inv (p s : bytes) :
  startswith s p = true -> exists rest, s = p ++ rest.
Proof.
  revert s; induction p as [|c p IH]; intros s H; simpl in *.
  - now exists s.
  - destruct s as [|d s]; [discriminate|].
    apply andb_true_iff in H as [Hd Hs].
    apply byte_eqb_eq in Hd; subst d.
    destruct (IH _ Hs) as [rest ->].
    now exists rest.
Qed.

(* ================================================================== *)
(** * FileType and FileTypeAnalyzer                                    *)
(* ================================================================== *)

Section FileType_facts.
Import FileTypes FileTypeAnalyzer Documented.

(** [FileType.__eq__] compares dictionaries, and no two members carry the
    same dictionary: it is equality of members. *)
Lemma eq_is_equality (a b : FileType) : eq a b = same a b.
Proof. destruct a, b; reflexivity. Qed.

Lemma is_is_equality (a b : FileType) : is_ a b = same a b.
Proof. destruct a, b; reflexivity. Qed.

(** A file named [.txt] whose bytes begin with [PK\x03\x04] is not
    classified as ZIP by its signature: the loop meets EXCEL, which
    carries the same signature, first. *)
Lemma signature_of_pk_file_is_not_zip :
  path_suffix Samples.pk_named_txt = ".txt"%string
  /\ startswith (firstn 16 (content Samples.pk_named_txt)) [x50; x4b; x03; x04] = true
  /\ file_type_from_signature Samples.pk_named_txt = EXCEL
  /\ file_type_from_signature Samples.pk_named_txt <> ZIP.
Proof.
  repeat split; try reflexivity.
  vm_compute; discriminate.
Qed.

(** C1 (the failing inputs): on every file whose first 16 bytes begin
    with [PK\x03\x04], whatever the extension of its path,
    classification by byte signature returns EXCEL and not ZIP: EXCEL is
    declared with the same four bytes as ZIP and is met first by the
    loop, so that the signature declared for ZIP is never the one that
    matches. *)
Theorem signature_of_pk_file_is_excel (f : File) :
  startswith (firstn 16 (content f)) [x50; x4b; x03; x04] = true ->
  file_type_from_signature f = EXCEL.
Proof.
  unfold file_type_from_signature; intros H.
  apply startswith_inv in H as [rest Hrest].
  rewrite Hrest; reflexivity.
Qed.

Lemma signature_of_pk_file_is_excel_witness :
  startswith (firstn 16 (content Samples.pk_named_txt)) [x50; x4b; x03; x04] = true
  /\ file_type_from_signature Samples.pk_named_txt = EXCEL.
Proof.
  split; [reflexivity|].
  apply (signature_of_pk_file_is_excel Samples.pk_named_txt).
  reflexivity.
Defined.

Lemma merge_unfolds_to_table (e s c : FileType) :
  merge e s c = precedence_table e s c.
Proof.
  unfold merge, ne, precedence_table, precedence_rules.
  now rewrite !eq_is_equality, is_is_equality.
Qed.

(** C2: on every triple of classifications the merge of
    [FileTypeAnalyzer.file_type] is the result of the seven-step
    precedence table, and it is never UNKNOWN. *)
Theorem merge_is_precedence_table (e s c : FileType) :
  merge e s c = precedence_table e s c /\ merge e s c <> UNKNOWN.
Proof.
  split; [apply merge_unfolds_to_table|].
  rewrite merge_unfolds_to_table.
  unfold precedence_table, precedence_rules, same; simpl.
  repeat match goal with
         | |- context [if ?b then _ else _] => destruct b eqn:?
         end;
    try discriminate; intros ->;
    repeat match goal with
           | H : (_ && _)%bool = true |- _ => apply andb_true_iff in H as [? ?]
           end;
    discriminate.
Qed.

(** [file_type] returns the merge whenever the classification by
    characteristics returns. *)
Lemma file_type_is_merge (f : File) (c : FileType) :
  file_type_from_characteristics f = Ok c ->
  file_type f = Ok (precedence_table (file_type_from_extension f)
                      (file_type_from_signature f) c).
Proof.
  intros H; unfold file_type; rewrite H; simpl.
  now rewrite merge_unfolds_to_table.
Qed.

(** C3 (the failing input): EXCEL and ZIP are distinct members with the
    same non-empty byte signature, so that the signatures of the table
    are not pairwise distinct. *)
Lemma excel_and_zip_share_a_signature :
  ~ (forall a b : FileType,
        a <> b -> byte_signature a <> [] -> byte_signature b <> [] ->
        byte_signature a <> byte_signature b).
Proof.
  intros H.
  apply (H EXCEL ZIP); (discriminate || reflexivity).
Qed.

(** EXCEL and ZIP, which both carry [PK\x03\x04], are the only two
    distinct members with a common non-empty byte signature. *)
Theorem signatures_distinct_but_excel_zip (a b : FileType) :
  a <> b ->
  byte_signature a <> [] ->
  byte_signature b <> [] ->
  ~ (a = EXCEL /\ b = ZIP) ->
  ~ (a = ZIP /\ b = EXCEL) ->
  byte_signature a <> byte_signature b.
Proof.
  intros Hab Ha Hb H1 H2.
  destruct a, b; cbn in *;
    solve [ discriminate
          | exfalso; apply Hab; reflexivity
          | exfalso; apply Ha; reflexivity
          | exfalso; apply Hb; reflexivity
          | exfalso; apply H1; split; reflexivity
          | exfalso; apply H2; split; reflexivity ].
Qed.

Lemma signatures_distinct_but_excel_zip_witness :
  byte_signature PDF <> byte_signature GZIP.
Proof.
  apply (signatures_distinct_but_excel_zip (a := PDF) (b := GZIP));
    try discriminate; intros [H _]; discriminate.
Defined.

End FileType_facts.

(* ================================================================== *)
(** * File.get_random_sample                                           *)
(* ================================================================== *)

Section Random_sample_facts.
Import FileClass Notions.
Local Open Scope Z_scope.

Lemma slice_length (data : bytes) (size : nat) (chunk : bytes) :
  slice_of data size chunk -> List.length chunk = size.
Proof.
  intros (position & Hpos & ->).
  rewrite length_firstn, length_skipn; lia.
Qed.

Lemma concat_slices_length (data : bytes) (size : nat) (chunks : list bytes) :
  Forall (slice_of data size) chunks ->
  List.length (List.concat chunks) = (size * List.length chunks)%nat.
Proof.
  induction 1 as [|c cs Hc _ IH]; simpl; [lia|].
  rewrite length_app, IH, (slice_length Hc); lia.
Qed.

Lemma randint_in_range (g : Random) (a b : Z) :
  a <= b ->
  exists r g', randint g a b = (Ok r, g') /\ a <= r <= b.
Proof.
  intros Hab; unfold randint.
  destruct (Z.ltb_spec b a) as [Hlt|_]; [lia|].
  eexists; eexists; split; [reflexivity|].
  pose proof (Z.mod_pos_bound (Z.of_N (draws g (consumed g))) (b - a + 1)); lia.
Qed.

(** The loop reads [chunk_count] chunks and never raises, provided that a
    chunk fits into the file whenever one is read. *)
Lemma read_chunks_returns (chunk_count : nat) (data : bytes) (chunk_size : Z) :
  0 <= chunk_size ->
  (chunk_count = 0%nat \/ chunk_size <= Z.of_nat (List.length data)) ->
  forall (random_chunks : list bytes) (g : Random),
  exists new g',
    read_chunks chunk_count data (Z.of_nat (List.length data)) chunk_size random_chunks g
      = (Ok (random_chunks ++ new), g')
    /\ List.length new = chunk_count
    /\ Forall (slice_of data (Z.to_nat chunk_size)) new.
Proof.
  intros Hsize.
  induction chunk_count as [|k IH]; intros Hfit random_chunks g; simpl.
  - exists [], g; rewrite app_nil_r; repeat split; constructor.
  - destruct Hfit as [Hfit|Hfit]; [discriminate|].
    destruct (@randint_in_range g 0 (Z.of_nat (List.length data) - chunk_size))
      as (r & g1 & Hr & Hrange); [lia|].
    rewrite Hr.
    destruct (IH (or_intror Hfit) (random_chunks ++ [read_at data r chunk_size]) g1)
      as (new & g2 & Hrun & Hlen & Hall).
    exists (read_at data r chunk_size :: new), g2.
    rewrite Hrun, <- app_assoc; simpl.
    repeat split; [now rewrite Hlen|].
    constructor; [|exact Hall].
    exists (Z.to_nat r); split; [lia|reflexivity].
Qed.

(** The body on a file of 4097 bytes, which is smaller than the
    requested 5000 bytes: the sample is a single chunk of 4096 bytes, not
    the whole file. *)
Lemma small_file_sample_is_not_whole_file :
  Z.of_nat (List.length (content Samples.file_of_4097_bytes)) < 5000
  /\ fst (get_random_sample Samples.file_of_4097_bytes 5000 Samples.zero_draws)
     = Ok (repeat x61 4096)
  /\ fst (get_random_sample Samples.file_of_4097_bytes 5000 Samples.zero_draws)
     <> Ok (content Samples.file_of_4097_bytes).
Proof.
  assert (Hrun : fst (get_random_sample Samples.file_of_4097_bytes 5000 Samples.zero_draws)
                 = Ok (repeat x61 4096))
    by (vm_compute; reflexivity).
  split; [vm_compute; reflexivity|].
  split; [exact Hrun|].
  rewrite Hrun; intros H.
  injection H as H.
  apply (f_equal (@List.length byte)) in H.
  vm_compute in H; discriminate H.
Qed.

(** The body returns on every request for a size that is not negative. *)
Lemma get_random_sample_returns (f : File) (n : Z) (g : Random) :
  0 <= n ->
  exists (sample : bytes) (g' : Random), get_random_sample f n g = (Ok sample, g').
Proof.
  intros Hn; unfold get_random_sample.
  set (file_size := Z.of_nat (List.length (content f))).
  set (bytes_to_read := if file_size <? n then file_size else n).
  assert (Hle : 0 <= bytes_to_read <= file_size).
  { unfold bytes_to_read; destruct (Z.ltb_spec file_size n); unfold file_size in *; lia. }
  assert (Hdiv : 4096 * (bytes_to_read / 4096) <= bytes_to_read)
    by (apply Z.mul_div_le; lia).
  destruct (@read_chunks_returns (Z.to_nat (bytes_to_read / 4096)) (content f) 4096)
    with (random_chunks := @nil bytes) (g := g) as (new & g' & Hrun & _);
    [lia | fold file_size; lia |].
  fold file_size in Hrun; rewrite Hrun; simpl.
  now exists (List.concat new), g'.
Qed.

(** The body of the method: for every file and every requested size
    [n], it returns, the sample holds at most [n] bytes and at most as
    many bytes as the file, and it is a concatenation of chunks of 4096
    contiguous bytes of the file. *)
Lemma get_random_sample_bounded (f : File) (n : Z) (g : Random) :
  0 <= n ->
  exists (chunks : list bytes) (g' : Random),
    get_random_sample f n g = (Ok (List.concat chunks), g')
    /\ Z.of_nat (List.length (List.concat chunks)) <= n
    /\ (List.length (List.concat chunks) <= List.length (content f))%nat
    /\ Forall (slice_of (content f) 4096) chunks.
Proof.
  intros Hn; unfold get_random_sample.
  set (file_size := Z.of_nat (List.length (content f))).
  set (bytes_to_read := if file_size <? n then file_size else n).
  assert (Hle : 0 <= bytes_to_read <= n /\ bytes_to_read <= file_size).
  { unfold bytes_to_read; destruct (Z.ltb_spec file_size n); unfold file_size in *; lia. }
  assert (Hdiv : 0 <= bytes_to_read / 4096 /\ 4096 * (bytes_to_read / 4096) <= bytes_to_read).
  { split; [apply Z.div_pos; lia | apply Z.mul_div_le; lia]. }
  destruct (@read_chunks_returns (Z.to_nat (bytes_to_read / 4096)) (content f) 4096)
    with (random_chunks := @nil bytes) (g := g) as (new & g' & Hrun & Hlen & Hall);
    [lia | fold file_size; lia |].
  fold file_size in Hrun; rewrite Hrun; simpl.
  exists new, g'.
  change (Z.to_nat 4096) with 4096%nat in Hall.
  rewrite (concat_slices_length Hall), Hlen.
  repeat split; [lia | unfold file_size in *; lia | exact Hall].
Qed.

Lemma get_random_sample_bounded_witness :
  exists (chunks : list bytes) (g' : Random),
    get_random_sample Samples.short_csv 16184 Samples.seven_draws
    = (Ok (List.concat chunks), g')
    /\ Z.of_nat (List.length (List.concat chunks)) <= 16184
    /\ (List.length (List.concat chunks) <= List.length (content Samples.short_csv))%nat
    /\ Forall (slice_of (content Samples.short_csv) 4096) chunks.
Proof.
  apply (@get_random_sample_bounded Samples.short_csv 16184 Samples.seven_draws).
  lia.
Defined.

End Random_sample_facts.

(* ================================================================== *)
(** * FileTypeAnalyzer.file_type_from_characteristics                  *)
(* ================================================================== *)

Section Characteristics_facts.
Import FileTypes FileTypeAnalyzer.

(** With one, two or three lines the reading loop meets the end of the
    file at an index below 3 and the method returns UNKNOWN. *)
Lemma characteristics_of_short_file (f : File) :
  0 < List.length (readlines (content f)) < 4 ->
  file_type_from_characteristics f = Ok UNKNOWN.
Proof.
  unfold file_type_from_characteristics.
  destruct (readlines (content f)) as [|l1 [|l2 [|l3 [|l4 it]]]]; simpl;
    intros H; (reflexivity || lia).
Qed.

(** From four lines on the reading loop runs to its end or to the end of
    the file, and the content decides. *)
Lemma read_lines_loop_completes (n k : nat) (it lines : list bytes) :
  3 <= k + List.length it ->
  exists lines', read_lines_loop (seq k n) it lines = Some lines'.
Proof.
  revert k it lines; induction n as [|n IH]; intros k it lines H; simpl.
  - now exists lines.
  - destruct it as [|l it]; simpl in H.
    + destruct (Nat.ltb_spec k 3); [lia|]. now exists lines.
    + apply IH; lia.
Qed.

Lemma characteristics_of_longer_file (f : File) (first_line : bytes) (it : list bytes) :
  readlines (content f) = first_line :: it ->
  3 <= List.length it ->
  exists lines,
    file_type_from_characteristics f = Ok (classify_lines first_line lines).
Proof.
  unfold file_type_from_characteristics, range; intros -> H.
  destruct (@read_lines_loop_completes 20 0 it [first_line]) as [lines Hl]; [lia|].
  rewrite Hl; now exists lines.
Qed.

(** C8 (the failing input): the empty file has fewer than four lines, and
    on it the first [next(file)], which stands outside the [try] of the
    reading loop, raises [StopIteration]. *)
Theorem characteristics_of_empty_file_raises (suffix : string) :
  List.length (readlines (content (mkFile suffix []))) < 4
  /\ file_type_from_characteristics (mkFile suffix []) = Raise StopIteration.
Proof.
  split; [simpl; lia | reflexivity].
Qed.

End Characteristics_facts.

(* ================================================================== *)
(** * bytes.count on line terminators                                  *)
(* ================================================================== *)

Section Count_facts.
Import Notions.

Lemma count_from_single (b c : byte) (s : bytes) :
  count_from [b] 0 (c :: s)
  = if Byte.eqb c b then S (count_from [b] 0 s) else count_from [b] 0 s.
Proof.
  simpl. destruct (Byte.eqb c b); reflexivity.
Qed.

Lemma count_from_single_le (b c : byte) (s : bytes) :
  count_from [b] 0 s <= count_from [b] 0 (c :: s).
Proof.
  rewrite count_from_single. destruct (Byte.eqb c b); lia.
Qed.

(** Every counted CRLF is also a counted LF.  The second part is the
    state of the scan behind the CR of a match, where the LF of this match
    is still ahead. *)
Lemma count_crlf_le_lf (s : bytes) :
  count_from [x0d; x0a] 0 s <= count_from [x0a] 0 s
  /\ count_from [x0d; x0a] 1 s + at_line_feed s <= count_from [x0a] 0 s.
Proof.
  induction s as [|c s [IH0 IH1]]; [simpl; lia|].
  split.
  - pose proof (count_from_single_le x0a c s) as Hle.
    change (count_from [x0d; x0a] 0 (c :: s))
      with (if startswith (c :: s) [x0d; x0a]
            then S (count_from [x0d; x0a] 1 s)
            else count_from [x0d; x0a] 0 s).
    destruct (startswith (c :: s) [x0d; x0a]) eqn:Hstart; [|lia].
    simpl in Hstart.
    destruct s as [|d s]; [now rewrite andb_false_r in Hstart|].
    apply andb_true_iff in Hstart as [_ Hd].
    rewrite andb_true_r in Hd.
    simpl at_line_feed in IH1; rewrite Hd in IH1. lia.
  - change (count_from [x0d; x0a] 1 (c :: s)) with (count_from [x0d; x0a] 0 s).
    rewrite count_from_single; simpl at_line_feed.
    destruct (Byte.eqb c x0a); lia.
Qed.

(** Every counted CRLF is also a counted CR. *)
Lemma count_crlf_le_cr (s : bytes) :
  count_from [x0d; x0a] 0 s <= count_from [x0d] 0 s
  /\ count_from [x0d; x0a] 1 s <= count_from [x0d] 0 s.
Proof.
  induction s as [|c s [IH0 IH1]]; [simpl; lia|].
  split.
  - change (count_from [x0d; x0a] 0 (c :: s))
      with (if startswith (c :: s) [x0d; x0a]
            then S (count_from [x0d; x0a] 1 s)
            else count_from [x0d; x0a] 0 s).
    rewrite count_from_single.
    destruct (startswith (c :: s) [x0d; x0a]) eqn:Hstart.
    + simpl in Hstart. apply andb_true_iff in Hstart as [Hc _].
      rewrite Hc; lia.
    + destruct (Byte.eqb c x0d); lia.
  - change (count_from [x0d; x0a] 1 (c :: s)) with (count_from [x0d; x0a] 0 s).
    pose proof (count_from_single_le x0d c s); lia.
Qed.

End Count_facts.

(* ================================================================== *)
(** * FileSniffer.infer_line_terminator                                *)
(* ================================================================== *)

Section Line_terminator_facts.
Import FileSniffer Documented.
Import LineTerminator.

Lemma float_gt_spec (x y : Q) : float_gt x y = true <-> (y < x)%Q.
Proof.
  unfold float_gt; rewrite negb_true_iff.
  split; intros H.
  - apply Qnot_le_lt; intros Hle.
    apply Qle_bool_iff in Hle; congruence.
  - destruct (Qle_bool x y) eqn:Hle; [|reflexivity].
    apply Qle_bool_iff in Hle. exfalso; exact (Qlt_not_le _ _ H Hle).
Qed.

(** The weighted comparison, in integers. *)
Lemma weighted_rule_exact (crlf lf cr : nat) :
  (float_of_count lf + float_of_count cr * (9 # 10) < float_of_count crlf)%Q
  <-> 10 * lf + 9 * cr < 10 * crlf.
Proof.
  unfold float_of_count, Qlt, Qplus, Qmult, inject_Z; simpl; lia.
Qed.

Lemma max_by_upper_bound {A} (key : A -> nat) (rest : list A) :
  forall best x, x = best \/ In x rest -> key x <= key (max_by key best rest).
Proof.
  induction rest as [|a rest IH]; intros best x Hx; simpl.
  - destruct Hx as [->|[]]; lia.
  - destruct (Nat.ltb_spec (key best) (key a)) as [Hlt|Hge].
    + destruct Hx as [->|[->|Hin]].
      * specialize (IH a a (or_introl eq_refl)); lia.
      * apply IH; now left.
      * apply IH; now right.
    + destruct Hx as [->|[->|Hin]].
      * apply IH; now left.
      * specialize (IH best best (or_introl eq_refl)); lia.
      * apply IH; now right.
Qed.

Lemma line_terminator_counts_unfold (s : bytes) :
  line_terminator_counts s CRLF = count_from [x0d; x0a] 0 s
  /\ line_terminator_counts s LF = count_from [x0a] 0 s
  /\ line_terminator_counts s CR = count_from [x0d] 0 s.
Proof. repeat split. Qed.

(** The three steps of the choice, on arbitrary counts. *)
Lemma choose_line_terminator_rule (counts : LineTerminator.t -> nat) :
  let weighted :=
    (float_of_count (counts LF) + float_of_count (counts CR) * (9 # 10)
     < float_of_count (counts CRLF))%Q in
  (weighted -> choose_line_terminator counts = CRLF)
  /\ (~ weighted -> counts LF = counts CR -> choose_line_terminator counts = CRLF)
  /\ (~ weighted -> counts LF <> counts CR ->
      forall lt, counts lt <= counts (choose_line_terminator counts)).
Proof.
  cbv zeta; unfold choose_line_terminator.
  destruct (float_gt _ _) eqn:Hgt.
  - apply float_gt_spec in Hgt.
    repeat split; intros; (reflexivity || contradiction).
  - assert (Hnot : ~ (float_of_count (counts LF) + float_of_count (counts CR) * (9 # 10)
                      < float_of_count (counts CRLF))%Q).
    { intros H; apply float_gt_spec in H; congruence. }
    repeat split; try contradiction.
    + intros _ Heq. apply Nat.eqb_eq in Heq. now rewrite Heq.
    + intros _ Hne lt. apply Nat.eqb_neq in Hne; rewrite Hne.
      apply max_by_upper_bound.
      destruct lt; simpl; auto.
Qed.

(** A position of the sample holds [sub] when the sample starts with
    [sub] there. *)
Lemma startswith_firstn (sub s : bytes) :
  startswith s sub = bytes_eqb (firstn (List.length sub) s) sub.
Proof.
  revert s; induction sub as [|p sub IH]; intros s; [reflexivity|].
  destruct s as [|c s]; [reflexivity|].
  cbn [startswith List.length firstn bytes_eqb]. now rewrite IH.
Qed.

Lemma occurrences_shift (sub : bytes) (c : byte) (s : bytes) (positions : list nat) :
  List.length (filter (occurs_at sub (c :: s)) (map S positions))
  = List.length (filter (occurs_at sub s) positions).
Proof.
  induction positions as [|i positions IH]; [reflexivity|].
  cbn [map filter].
  change (occurs_at sub (c :: s) (S i)) with (occurs_at sub s i).
  destruct (occurs_at sub s i); cbn [List.length]; now rewrite IH.
Qed.

Lemma occurrences_cons (sub : bytes) (c : byte) (s : bytes) :
  occurrences sub (c :: s)
  = (if startswith (c :: s) sub then 1 else 0) + occurrences sub s.
Proof.
  unfold occurrences. cbn [List.length seq filter].
  rewrite <- seq_shift, startswith_firstn.
  change (occurs_at sub (c :: s) 0)
    with (bytes_eqb (firstn (List.length sub) (c :: s)) sub).
  destruct (bytes_eqb _ sub); cbn [List.length]; now rewrite occurrences_shift.
Qed.

(** [bytes.count] of a single byte counts its occurrences. *)
Lemma count_single_is_occurrences (b : byte) (s : bytes) :
  count_from [b] 0 s = occurrences [b] s.
Proof.
  induction s as [|c s IH]; [reflexivity|].
  rewrite count_from_single, occurrences_cons, IH.
  cbn [startswith]. rewrite andb_true_r.
  destruct (Byte.eqb c b); reflexivity.
Qed.

(** [bytes.count] of CRLF counts its occurrences, which cannot overlap.
    The second part is the state of the scan behind the CR of a match. *)
Lemma count_crlf_is_occurrences (s : bytes) :
  count_from [x0d; x0a] 0 s = occurrences [x0d; x0a] s
  /\ count_from [x0d; x0a] 1 s = occurrences [x0d; x0a] (tl s).
Proof.
  induction s as [|c s [IH0 IH1]]; [split; reflexivity|].
  split; [|exact IH0].
  rewrite occurrences_cons.
  change (count_from [x0d; x0a] 0 (c :: s))
    with (if startswith (c :: s) [x0d; x0a]
          then S (count_from [x0d; x0a] 1 s)
          else count_from [x0d; x0a] 0 s).
  destruct (startswith (c :: s) [x0d; x0a]) eqn:Hstart; [|exact IH0].
  rewrite IH1. cbn [startswith] in Hstart.
  destruct s as [|d s]; [now rewrite andb_false_r in Hstart|].
  apply andb_true_iff in Hstart as [_ Hd]. rewrite andb_true_r in Hd.
  apply byte_eqb_eq in Hd; subst d.
  rewrite (occurrences_cons [x0d; x0a] x0a s). reflexivity.
Qed.

Lemma line_terminator_counts_are_occurrences (s : bytes) :
  line_terminator_counts s CRLF = occurrences [x0d; x0a] s
  /\ line_terminator_counts s LF = occurrences [x0a] s
  /\ line_terminator_counts s CR = occurrences [x0d] s.
Proof.
  destruct (line_terminator_counts_unfold s) as (-> & -> & ->).
  rewrite !count_single_is_occurrences.
  now rewrite (proj1 (count_crlf_is_occurrences s)).
Qed.

(** C7: on every sample [infer_line_terminator] returns what the
    documented rule gives on the occurrences of CRLF, LF and CR in the
    sample: CRLF if the count of CRLF exceeds the count of LF plus 0.9
    times the count of CR; else CRLF if the counts of LF and CR are equal;
    else the terminator with the highest count.  In particular a sample
    with 100 CRLF sequences, 5 lone LF and 5 lone CR infers CRLF. *)
Theorem infer_line_terminator_follows_rule (s : bytes) :
  infer_line_terminator s = documented_line_terminator s
  /\ (occurrences [x0d; x0a] s = 100 ->
      lone [x0a] s = 5 ->
      lone [x0d] s = 5 ->
      infer_line_terminator s = CRLF).
Proof.
  assert (Hrule : infer_line_terminator s = documented_line_terminator s).
  { unfold infer_line_terminator, choose_line_terminator, documented_line_terminator.
    cbn [max_by].
    destruct (line_terminator_counts_are_occurrences s) as (-> & -> & ->).
    set (crlf := occurrences [x0d; x0a] s).
    set (lf := occurrences [x0a] s).
    set (cr := occurrences [x0d] s).
    cbv zeta.
    assert (Hweighted :
      float_gt (float_of_count crlf) (float_of_count lf + float_of_count cr * (9 # 10))%Q
      = true
      <-> (inject_Z (Z.of_nat lf) + (9 # 10) * inject_Z (Z.of_nat cr)
           < inject_Z (Z.of_nat crlf))%Q).
    { rewrite float_gt_spec. unfold float_of_count.
      now rewrite (Qmult_comm (9 # 10)). }
    destruct (Qcompare_spec
                (inject_Z (Z.of_nat lf) + (9 # 10) * inject_Z (Z.of_nat cr))
                (inject_Z (Z.of_nat crlf))) as [Heq|Hlt|Hgt].
    2: { now rewrite (proj2 Hweighted Hlt). }
    all: (assert (Hfloat :
            float_gt (float_of_count crlf)
              (float_of_count lf + float_of_count cr * (9 # 10))%Q = false)
          by (apply not_true_is_false; intros Hfloat; apply Hweighted in Hfloat;
              first [ rewrite Heq in Hfloat; exact (Qlt_irrefl _ Hfloat)
                    | exact (Qlt_irrefl _ (Qlt_trans _ _ _ Hfloat Hgt)) ]);
          rewrite Hfloat);
      (destruct (lf =? cr); [reflexivity|];
       cbn [max_by];
       destruct (Nat.ltb_spec crlf lf), (Nat.leb_spec lf crlf); try lia;
       cbn [andb];
       [ destruct (Nat.ltb_spec lf cr), (Nat.leb_spec cr lf); try lia; reflexivity
       | destruct (Nat.ltb_spec crlf cr), (Nat.leb_spec cr crlf); try lia;
         try reflexivity;
         destruct (Nat.leb_spec cr lf); try lia; reflexivity ]). }
  split; [exact Hrule|].
  intros Hcrlf Hlf Hcr. unfold lone in Hlf, Hcr.
  assert (Hlf' : occurrences [x0a] s = 105) by lia.
  assert (Hcr' : occurrences [x0d] s = 105) by lia.
  rewrite Hrule. unfold documented_line_terminator.
  rewrite Hcrlf, Hlf', Hcr'. reflexivity.
Qed.

Lemma infer_line_terminator_follows_rule_witness :
  occurrences [x0d; x0a] Samples.mixed_terminators = 100
  /\ lone [x0a] Samples.mixed_terminators = 5
  /\ lone [x0d] Samples.mixed_terminators = 5
  /\ infer_line_terminator Samples.mixed_terminators = CRLF.
Proof.
  split; [vm_compute; reflexivity|].
  split; [vm_compute; reflexivity|].
  split; [vm_compute; reflexivity|].
  apply (proj2 (infer_line_terminator_follows_rule Samples.mixed_terminators));
    vm_compute; reflexivity.
Defined.

(** C10: in every sample the count of LF and the count of CR are at least
    the count of CRLF; so the weighted comparison is never satisfied, and
    [infer_line_terminator] returns CRLF only where the counts of LF and
    CR are equal. *)
Theorem crlf_only_by_equality (s : bytes) :
  let counts := line_terminator_counts s in
  counts CRLF <= counts LF
  /\ counts CRLF <= counts CR
  /\ float_gt (float_of_count (counts CRLF))
       (float_of_count (counts LF) + float_of_count (counts CR) * (9 # 10))%Q = false
  /\ (infer_line_terminator s = CRLF -> counts LF = counts CR).
Proof.
  cbv zeta.
  destruct (line_terminator_counts_unfold s) as (Ecrlf & Elf & Ecr).
  pose proof (proj1 (count_crlf_le_lf s)) as Hlf.
  pose proof (proj1 (count_crlf_le_cr s)) as Hcr.
  rewrite <- Ecrlf, <- Elf in Hlf. rewrite <- Ecrlf, <- Ecr in Hcr.
  assert (Hgt : float_gt (float_of_count (line_terminator_counts s CRLF))
                  (float_of_count (line_terminator_counts s LF)
                   + float_of_count (line_terminator_counts s CR) * (9 # 10))%Q = false).
  { destruct (float_gt _ _) eqn:E; [|reflexivity].
    apply float_gt_spec, weighted_rule_exact in E; lia. }
  repeat split; try assumption.
  unfold infer_line_terminator, choose_line_terminator; rewrite Hgt.
  destruct (Nat.eqb_spec (line_terminator_counts s LF) (line_terminator_counts s CR))
    as [Heq|Hne]; [intros _; exact Heq|].
  simpl.
  destruct (Nat.ltb_spec (line_terminator_counts s CRLF) (line_terminator_counts s LF)).
  - destruct (Nat.ltb_spec (line_terminator_counts s LF) (line_terminator_counts s CR));
      discriminate.
  - destruct (Nat.ltb_spec (line_terminator_counts s CRLF) (line_terminator_counts s CR));
      [discriminate|lia].
Qed.

Lemma crlf_only_by_equality_witness :
  infer_line_terminator Samples.mixed_terminators = CRLF
  /\ line_terminator_counts Samples.mixed_terminators LF
     = line_terminator_counts Samples.mixed_terminators CR.
Proof.
  split; [vm_compute; reflexivity|].
  apply (crlf_only_by_equality Samples.mixed_terminators).
  vm_compute; reflexivity.
Defined.

End Line_terminator_facts.

(* ================================================================== *)
(** * FileSniffer: validated setters                                   *)
(* ================================================================== *)

Section Setter_facts.
Import FileSniffer.

(** An assignment of a member of the expected enumeration stores it. *)
Lemma valid_assignment_stores (p : Property) (value : PyValue) (w : World) :
  isinstance value (class_of p) = true ->
  exists w',
    assign p value w = (Ok tt, w')
    /\ stored p (self w') = Some value
    /\ random w' = random w.
Proof.
  intros H; unfold assign, setter, input_type_validation, bindM, lift; simpl.
  rewrite H; simpl.
  eexists; split; [reflexivity|].
  destruct p; split; reflexivity.
Qed.

(** C9: for each of the five dialect properties, assigning a value that
    is not a member of the corresponding enumeration raises [TypeError],
    and the instance is left as it was: the stored value of the property
    is unchanged. *)
Theorem invalid_assignment_raises_TypeError (p : Property) (value : PyValue) (w : World) :
  isinstance value (class_of p) = false ->
  assign p value w = (Raise TypeError, w)
  /\ stored p (self (snd (assign p value w))) = stored p (self w).
Proof.
  intros H.
  assert (E : assign p value w = (Raise TypeError, w)).
  { unfold assign, setter, input_type_validation, bindM, lift; simpl.
    now rewrite H. }
  rewrite E; split; reflexivity.
Qed.

Lemma invalid_assignment_raises_TypeError_witness :
  isinstance (PyStr "utf-8") (class_of encoding) = false
  /\ assign encoding (PyStr "utf-8") Samples.utf8_sniffer
     = (Raise TypeError, Samples.utf8_sniffer)
  /\ stored encoding (self (snd (assign encoding (PyStr "utf-8") Samples.utf8_sniffer)))
     = stored encoding (self Samples.utf8_sniffer).
Proof.
  split; [reflexivity|].
  apply (@invalid_assignment_raises_TypeError encoding (PyStr "utf-8") Samples.utf8_sniffer).
  reflexivity.
Defined.

End Setter_facts.

(* ================================================================== *)
(** * FileSniffer.infer_encoding                                       *)
(* ================================================================== *)

Section Encoding_facts.
Import FileClass FileSniffer.
Local Open Scope Z_scope.

Variable decodes : string -> bytes -> bool.
Variable detect : bytes -> option string.

(** A request for zero bytes is answered with the empty sample, and draws
    nothing. *)
Lemma get_random_sample_zero (f : File) (g : Random) :
  get_random_sample f 0 g = (Ok [], g).
Proof.
  unfold get_random_sample.
  destruct (Z.ltb_spec (Z.of_nat (List.length (content f))) 0) as [H|_]; [lia|].
  reflexivity.
Qed.

(** A round returns only an encoding that the detector names and that is
    among the candidates of the sample of this round. *)
Lemma attempt_returns_candidate (i : nat) (w w' : World) (e : Encoding.t) :
  attempt decodes detect i w = (Ok (inl e), w') ->
  w' = w
  /\ Encoding.get (detect (sample (self w))) = Some e
  /\ member_of e (candidates_of decodes (sample (self w))) = true.
Proof.
  unfold attempt, bindM, call_get_random_sample, set_sample, ret.
  destruct (Encoding.get (detect (sample (self w)))) as [e'|] eqn:Hget.
  - destruct (member_of e' _) eqn:Hin.
    + intros [= <- <-]; auto.
    + destruct (get_random_sample _ _ _) as [[s|ex] g']; intros [=].
  - destruct (get_random_sample _ _ _) as [[s|ex] g']; intros [=].
Qed.

Lemma infer_encoding_loop_returns_candidate (idx : list nat) :
  forall (w w' : World) (e : Encoding.t),
  infer_encoding_loop decodes detect idx w = (Ok e, w') ->
  Encoding.get (detect (sample (self w'))) = Some e
  /\ member_of e (candidates_of decodes (sample (self w'))) = true.
Proof.
  induction idx as [|i idx IH]; intros w w' e; simpl.
  - intros [=].
  - unfold bindM at 1.
    destruct (attempt decodes detect i w) as [[[e1|[]]|ex] w1] eqn:Hatt.
    + intros [= <- <-].
      apply attempt_returns_candidate in Hatt as (-> & H1 & H2); auto.
    + apply IH.
    + intros [=].
Qed.

(** [infer_encoding] runs at most five rounds; what it returns is named
    by the detector and decodes the sample of the round that returned. *)
Lemma infer_encoding_returns_candidate (w w' : World) (e : Encoding.t) :
  infer_encoding decodes detect w = (Ok e, w') ->
  Encoding.get (detect (sample (self w'))) = Some e
  /\ member_of e (candidates_of decodes (sample (self w'))) = true.
Proof. apply infer_encoding_loop_returns_candidate. Qed.

End Encoding_facts.

(* ================================================================== *)
(** * get_data_type and FileSniffer.infer_header                       *)
(* ================================================================== *)

Section Header_facts.
Import FileSniffer Documented.

Variable int_converts : string -> bool.
Variable float_converts : string -> bool.
Variable strptime_converts : string -> string -> bool.

Local Abbreviation get_data_type := (get_data_type int_converts float_converts strptime_converts).
Local Abbreviation infer_header := (infer_header int_converts float_converts strptime_converts).
Local Abbreviation types := (map get_data_type).

Lemma try_formats_spec (field : string) (forms : list string) :
  (Helpers.try_formats strptime_converts field forms = DataType.datetime
   /\ exists form, In form forms /\ strptime_converts field form = true)
  \/ (Helpers.try_formats strptime_converts field forms = DataType.str
      /\ forall form, In form forms -> strptime_converts field form = false).
Proof.
  induction forms as [|form forms IH]; simpl.
  - right; split; [reflexivity | intros ? []].
  - destruct (strptime_converts field form) eqn:E.
    + left; split; [reflexivity|]. exists form; auto.
    + destruct IH as [(H & form' & Hin & Hc)|(H & Hall)].
      * left; split; [exact H|]. exists form'; auto.
      * right; split; [exact H|]. intros form' [<-|Hin]; auto.
Qed.

(** The order of the trials of [get_data_type]: integer, then float, then
    the date and time formats, else string. *)
Lemma get_data_type_order (field : string) :
  (int_converts field = true -> get_data_type field = DataType.int)
  /\ (int_converts field = false -> float_converts field = true ->
      get_data_type field = DataType.float)
  /\ (int_converts field = false -> float_converts field = false ->
      (exists form, In form Helpers.formats /\ strptime_converts field form = true) ->
      get_data_type field = DataType.datetime)
  /\ (int_converts field = false -> float_converts field = false ->
      (forall form, In form Helpers.formats -> strptime_converts field form = false) ->
      get_data_type field = DataType.str).
Proof.
  unfold FileSniffer.get_data_type, Helpers.get_data_type.
  repeat split.
  - now intros ->.
  - now intros -> ->.
  - intros -> -> (form & Hin & Hc).
    destruct (try_formats_spec field Helpers.formats) as [[H _]|[_ Hall]]; [exact H|].
    rewrite (Hall _ Hin) in Hc; discriminate.
  - intros -> -> Hall.
    destruct (try_formats_spec field Helpers.formats) as [(_ & form & Hin & Hc)|[H _]];
      [|exact H].
    rewrite (Hall _ Hin) in Hc; discriminate.
Qed.

Lemma datatype_eqb_eq (a b : DataType.t) : DataType.eqb a b = true <-> a = b.
Proof. destruct a, b; simpl; split; (reflexivity || discriminate). Qed.

Lemma mismatches_same (l : list DataType.t) : mismatches l l = 0.
Proof.
  unfold mismatches. induction l as [|t ts IH]; [reflexivity|].
  simpl. rewrite (proj2 (datatype_eqb_eq t t) eq_refl). exact IH.
Qed.

Lemma all_str_iff (row : list string) :
  forallb (fun data_type => DataType.eqb data_type DataType.str) (types row) = true
  <-> forall field, In field row -> get_data_type field = DataType.str.
Proof.
  rewrite forallb_forall; split.
  - intros H field Hin. apply datatype_eqb_eq, H, in_map, Hin.
  - intros H t Hin. apply in_map_iff in Hin as (field & <- & Hin).
    apply datatype_eqb_eq, H, Hin.
Qed.

(** The index loop counts what the position-wise comparison counts. *)
Lemma count_differences_seq (l1 : list DataType.t) :
  forall (l2 p1 p2 : list DataType.t) (rest : list (list DataType.t)),
  List.length p1 = List.length p2 ->
  List.length l1 <= List.length l2 ->
  count_differences (seq (List.length p1) (List.length l1)) (p1 ++ l1) ((p2 ++ l2) :: rest)
  = Ok (mismatches l1 l2).
Proof.
  induction l1 as [|a l1 IH]; intros l2 p1 p2 rest Hp Hlen; [reflexivity|].
  destruct l2 as [|b l2]; [simpl in Hlen; lia|].
  simpl List.length; simpl seq.
  cbn [count_differences]; unfold item.
  rewrite nth_error_app2, Nat.sub_diag by lia.
  cbn [nth_error Py.bind].
  rewrite Hp at 1.
  rewrite nth_error_app2, Nat.sub_diag by lia.
  cbn [nth_error Py.bind].
  replace (p1 ++ a :: l1) with ((p1 ++ [a]) ++ l1) by now rewrite <- app_assoc.
  replace (p2 ++ b :: l2) with ((p2 ++ [b]) ++ l2) by now rewrite <- app_assoc.
  replace (S (List.length p1)) with (List.length (p1 ++ [a]))
    by (rewrite length_app; simpl; lia).
  rewrite IH; [| rewrite !length_app; simpl; lia | simpl in Hlen; lia].
  unfold mismatches; simpl.
  destruct (DataType.eqb a b); reflexivity.
Qed.

Lemma count_differences_range (l1 l2 : list DataType.t) (rest : list (list DataType.t)) :
  List.length l1 <= List.length l2 ->
  count_differences (range (List.length l1)) l1 (l2 :: rest) = Ok (mismatches l1 l2).
Proof.
  intros H. exact (@count_differences_seq l1 l2 [] [] rest eq_refl H).
Qed.

Lemma infer_header_typed_first_row (first : list string) (more : list (list string)) :
  (exists field, In field first /\ get_data_type field <> DataType.str) ->
  infer_header (first :: more) = Ok Header.FALSE.
Proof.
  intros (field & Hin & Hne); unfold FileSniffer.infer_header.
  destruct (forallb _ _) eqn:E; [|reflexivity].
  elim Hne. exact (proj1 (all_str_iff first) E field Hin).
Qed.

Lemma infer_header_string_first_row (first second : list string) (rest : list (list string)) :
  (forall field, In field first -> get_data_type field = DataType.str) ->
  first <> [] ->
  List.length first <= List.length second ->
  infer_header (first :: second :: rest)
  = Ok (if float_gt (mismatch_fraction (types first) (types second)) (1 # 10)
        then Header.TRUE else Header.FALSE).
Proof.
  intros Hstr Hne Hlen; unfold FileSniffer.infer_header.
  rewrite (proj2 (all_str_iff first) Hstr); cbn [negb].
  cbn [map].
  rewrite count_differences_range by (rewrite !length_map; exact Hlen).
  cbn [Py.bind].
  destruct (Nat.eqb_spec (List.length (types first)) 0) as [E|_].
  - rewrite length_map in E. destruct first; [contradiction | discriminate].
  - unfold mismatch_fraction, float_of_count.
    destruct (float_gt _ _); reflexivity.
Qed.

(** Where a second row follows that is at least as wide as a first row
    with at least one field, [infer_header] keeps to the documented rule:
    a field is classified by trying integer, float, the date and time
    formats, else string; a first row that is not all strings gives "no
    header"; otherwise the answer is "header present" exactly when more
    than 10% of the column positions of the first row differ in type from
    the second row.  The rows [Name, Age] and [Alice, 34] give a header,
    and rows of uniform types give none. *)
Theorem infer_header_rule (first second : list string) (rest : list (list string)) :
  (forall field,
      (int_converts field = true -> get_data_type field = DataType.int)
      /\ (int_converts field = false -> float_converts field = true ->
          get_data_type field = DataType.float)
      /\ (int_converts field = false -> float_converts field = false ->
          (exists form, In form Helpers.formats /\ strptime_converts field form = true) ->
          get_data_type field = DataType.datetime)
      /\ (int_converts field = false -> float_converts field = false ->
          (forall form, In form Helpers.formats -> strptime_converts field form = false) ->
          get_data_type field = DataType.str))
  /\ ((exists field, In field first /\ get_data_type field <> DataType.str) ->
      forall more, infer_header (first :: more) = Ok Header.FALSE)
  /\ ((forall field, In field first -> get_data_type field = DataType.str) ->
      first <> [] ->
      List.length first <= List.length second ->
      ((1 # 10 < mismatch_fraction (types first) (types second))%Q ->
       infer_header (first :: second :: rest) = Ok Header.TRUE)
      /\ (~ (1 # 10 < mismatch_fraction (types first) (types second))%Q ->
          infer_header (first :: second :: rest) = Ok Header.FALSE))
  /\ (get_data_type "Name"%string = DataType.str ->
      get_data_type "Age"%string = DataType.str ->
      get_data_type "Alice"%string = DataType.str ->
      get_data_type "34"%string = DataType.int ->
      infer_header (["Name"%string; "Age"%string] :: ["Alice"%string; "34"%string] :: rest)
      = Ok Header.TRUE)
  /\ (first <> [] -> types first = types second ->
      infer_header (first :: second :: rest) = Ok Header.FALSE).
Proof.
  split; [exact get_data_type_order|].
  split; [intros H more; now apply infer_header_typed_first_row|].
  split; [|split].
  - intros Hstr Hne Hlen.
    rewrite (@infer_header_string_first_row first second rest Hstr Hne Hlen).
    destruct (float_gt _ _) eqn:E.
    + split; [reflexivity|]. intros Hnot; elim Hnot. now apply float_gt_spec.
    + split; [|reflexivity]. intros Hlt. apply float_gt_spec in Hlt; congruence.
  - intros HName HAge HAlice H34.
    rewrite infer_header_string_first_row.
    + simpl map. rewrite HName, HAge, HAlice, H34. reflexivity.
    + intros field [<-|[<-|[]]]; assumption.
    + discriminate.
    + simpl; lia.
  - intros Hne Htypes.
    destruct (forallb (fun t => DataType.eqb t DataType.str) (types first)) eqn:E.
    + pose proof (proj1 (all_str_iff first) E) as Hstr.
      rewrite infer_header_string_first_row; auto.
      * rewrite <- Htypes.
        unfold mismatch_fraction; rewrite mismatches_same. reflexivity.
      * rewrite <- (length_map get_data_type first), Htypes, length_map; lia.
    + unfold FileSniffer.infer_header. now rewrite E.
Qed.

End Header_facts.

Section Header_witness.
Import FileSniffer Notions.

(** The converters of the witness agree with [int()], [float()] and
    [strptime] on the strings of the rows. *)
Lemma infer_header_rule_witness :
  infer_header decimal_digits decimal_digits (fun _ _ => false) Samples.name_age_rows
  = Ok Header.TRUE.
Proof.
  apply (@infer_header_rule decimal_digits decimal_digits (fun _ _ => false)
           ["Name"; "Age"]%string ["Alice"; "34"]%string [["Bob"; "27"]%string]);
    reflexivity.
Defined.

End Header_witness.

(* ================================================================== *)
(** * Further properties: the three classifiers and their merge        *)
(* ================================================================== *)

Section Classifier_facts.
Import FileTypes FileTypeAnalyzer.

Lemma from_extension_loop_spec (fts : list FileType) (suffix : string) :
  from_extension_loop fts suffix = UNKNOWN
  \/ (In (from_extension_loop fts suffix) fts
      /\ file_extension (from_extension_loop fts suffix) = suffix).
Proof.
  induction fts as [|ft fts IH]; simpl; [now left|].
  destruct (String.eqb_spec (file_extension ft) suffix) as [E|_].
  - right; split; [now left | exact E].
  - destruct IH as [IH|[Hin Hext]]; [now left | right; split; [now right | exact Hext]].
Qed.

Lemma from_extension_loop_none (fts : list FileType) (suffix : string) :
  (forall ft, In ft fts -> file_extension ft <> suffix) ->
  from_extension_loop fts suffix = UNKNOWN.
Proof.
  induction fts as [|ft fts IH]; intros H; simpl; [reflexivity|].
  destruct (String.eqb_spec (file_extension ft) suffix) as [E|_].
  - elim (H ft (or_introl eq_refl) E).
  - apply IH; intros ft' Hin; apply H; now right.
Qed.

(** X1: looking a member up by its own extension gives the member back;
    a lookup that does not answer UNKNOWN answers a member that carries
    the suffix; a suffix that no member carries gives UNKNOWN. *)
Theorem from_extension_round_trip :
  (forall ft, from_extension (file_extension ft) = ft)
  /\ (forall suffix,
        from_extension suffix <> UNKNOWN ->
        file_extension (from_extension suffix) = suffix)
  /\ (forall suffix,
        (forall ft, file_extension ft <> suffix) -> from_extension suffix = UNKNOWN).
Proof.
  repeat split.
  - intros ft; destruct ft; reflexivity.
  - intros suffix H. unfold from_extension in *.
    destruct (from_extension_loop_spec members suffix) as [E|[_ E]];
      [contradiction | exact E].
  - intros suffix H. apply from_extension_loop_none. intros ft _; apply H.
Qed.

Lemma from_extension_round_trip_witness :
  file_extension (from_extension ".tsv") = ".tsv"%string.
Proof.
  apply (proj1 (proj2 from_extension_round_trip) ".tsv"%string).
  discriminate.
Defined.

Lemma from_extension_zip (suffix : string) :
  from_extension suffix = ZIP <-> suffix = ".zip"%string.
Proof.
  split.
  - intros H. unfold from_extension in H.
    destruct (from_extension_loop_spec members suffix) as [E|[_ E]].
    + rewrite E in H; discriminate.
    + rewrite H in E. symmetry; exact E.
  - intros ->; reflexivity.
Qed.

Lemma bytes_eqb_nil (sig : bytes) : bytes_eqb sig [] = true <-> sig = [].
Proof. destruct sig; simpl; split; (reflexivity || discriminate). Qed.

Lemma signature_loop_spec (fts : list FileType) (head : bytes) :
  (signature_loop fts head = UNKNOWN
   /\ forall ft, In ft fts -> byte_signature ft <> [] ->
                 startswith head (byte_signature ft) = false)
  \/ (In (signature_loop fts head) fts
      /\ byte_signature (signature_loop fts head) <> []
      /\ startswith head (byte_signature (signature_loop fts head)) = true).
Proof.
  induction fts as [|ft fts IH]; simpl.
  - left; split; [reflexivity | intros ? []].
  - destruct (startswith head (byte_signature ft)) eqn:Hstart;
      destruct (bytes_eqb (byte_signature ft) []) eqn:Hnil; simpl.
    + apply bytes_eqb_nil in Hnil.
      destruct IH as [[E Hno]|(Hin & Hne & Hs)].
      * left; split; [exact E|].
        intros ft' [<-|Hin] Hne; [contradiction | now apply Hno].
      * right; repeat split; auto.
    + right; repeat split; [now left | | exact Hstart].
      intros E; apply bytes_eqb_nil in E; congruence.
    + destruct IH as [[E Hno]|(Hin & Hne & Hs)].
      * left; split; [exact E|].
        intros ft' [<-|Hin] Hne; [exact Hstart | now apply Hno].
      * right; repeat split; auto.
    + destruct IH as [[E Hno]|(Hin & Hne & Hs)].
      * left; split; [exact E|].
        intros ft' [<-|Hin] Hne; [exact Hstart | now apply Hno].
      * right; repeat split; auto.
Qed.

Lemma signature_loop_members_range (head : bytes) :
  In (signature_loop members head) [UNKNOWN; PDF; EXCEL_LEGACY; EXCEL; GZIP].
Proof.
  unfold members; cbn [signature_loop byte_signature value v_byte_signature bytes_eqb negb andb].
  replace (startswith head []) with true by (destruct head; reflexivity).
  cbn [andb negb].
  repeat match goal with
         | |- context [if ?b then _ else _] => destruct b
         end; simpl; tauto.
Qed.

(** X2: what the classification by signature answers has its signature at
    the head of the file; it answers UNKNOWN only when no signature is at
    the head; and it answers one of UNKNOWN, PDF, EXCEL_LEGACY, EXCEL and
    GZIP, never ZIP and never a text type. *)
Theorem signature_classification_range (f : File) :
  let head := firstn 16 (content f) in
  let ft := file_type_from_signature f in
  (ft <> UNKNOWN ->
   byte_signature ft <> [] /\ startswith head (byte_signature ft) = true)
  /\ (ft = UNKNOWN ->
      forall ft', byte_signature ft' <> [] -> startswith head (byte_signature ft') = false)
  /\ In ft [UNKNOWN; PDF; EXCEL_LEGACY; EXCEL; GZIP].
Proof.
  cbv zeta; unfold file_type_from_signature.
  set (head := firstn 16 (content f)).
  split; [|split; [|apply signature_loop_members_range]].
  - intros Hne.
    destruct (signature_loop_spec members head) as [[E _]|(_ & Hsig & Hs)];
      [contradiction | now split].
  - intros E ft' Hne.
    destruct (signature_loop_spec members head) as [[_ Hno]|(_ & Hsig & _)].
    + apply Hno; [destruct ft'; simpl; tauto | exact Hne].
    + rewrite E in Hsig; now elim Hsig.
Qed.

Lemma signature_classification_range_witness :
  byte_signature (file_type_from_signature Samples.pk_named_txt) <> []
  /\ startswith (firstn 16 (content Samples.pk_named_txt))
       (byte_signature (file_type_from_signature Samples.pk_named_txt)) = true.
Proof.
  apply (signature_classification_range Samples.pk_named_txt).
  discriminate.
Defined.

End Classifier_facts.

Section File_type_facts.
Import FileTypes FileTypeAnalyzer Documented.

(** The first line that the iteration yields begins with the bytes read
    so far. *)
Lemma lines_from_first (s cur : bytes) :
  cur <> [] \/ s <> [] ->
  exists tail it, lines_from cur s = (rev cur ++ tail) :: it.
Proof.
  revert cur; induction s as [|c s IH]; intros cur H; simpl.
  - destruct cur as [|b cur]; [destruct H as [H|H]; now elim H|].
    exists [], []; now rewrite app_nil_r.
  - destruct (Byte.eqb c x0a).
    + exists [c], (lines_from [] s); reflexivity.
    + destruct (IH (c :: cur)) as (tail & it & E); [left; discriminate|].
      exists (c :: tail), it. rewrite E; simpl. now rewrite <- app_assoc.
Qed.

Lemma readlines_nonempty (s : bytes) :
  s <> [] -> exists first_line it, readlines s = first_line :: it.
Proof.
  intros H. destruct (@lines_from_first s []) as (tail & it & E); [now right|].
  now exists tail, it.
Qed.

Lemma readlines_empty : readlines [] = [].
Proof. reflexivity. Qed.

Lemma read_lines_loop_short (first_line : bytes) (it : list bytes) :
  List.length it < 3 -> read_lines_loop (range 20) it [first_line] = None.
Proof.
  destruct it as [|l2 [|l3 [|l4 it]]]; simpl; intros H; (reflexivity || lia).
Qed.

Lemma classify_lines_range (first_line : bytes) (lines : list bytes) :
  In (classify_lines first_line lines)
     [UNKNOWN; ZIP; XML; JSON; JSONL; PDF; CSV; TSV; PIPE; FIXED_WIDTH].
Proof.
  unfold classify_lines.
  repeat match goal with
         | |- context [if startswith ?a ?b then _ else _] => destruct (startswith a b)
         end; try (simpl; tauto).
  destruct (most_common_1 _) as [|[delimiter delimiter_count] ?].
  - destruct (_ =? 1); simpl; tauto.
  - destruct (1 <? delimiter_count);
      repeat match goal with
             | |- context [if Byte.eqb ?a ?b then _ else _] => destruct (Byte.eqb a b)
             end;
      try (simpl; tauto);
      destruct (_ =? 1); simpl; tauto.
Qed.

(** X3: the classification by characteristics raises [StopIteration] on
    the empty file and returns on every other file; what it returns is
    one of UNKNOWN, ZIP, XML, JSON, JSONL, PDF, CSV, TSV, PIPE and
    FIXED_WIDTH. *)
Theorem characteristics_returns_unless_empty (f : File) :
  (content f = [] -> file_type_from_characteristics f = Raise StopIteration)
  /\ (content f <> [] ->
      exists ft,
        file_type_from_characteristics f = Ok ft
        /\ In ft [UNKNOWN; ZIP; XML; JSON; JSONL; PDF; CSV; TSV; PIPE; FIXED_WIDTH]).
Proof.
  unfold file_type_from_characteristics; split.
  - intros ->; reflexivity.
  - intros H. destruct (readlines_nonempty H) as (first_line & it & ->).
    destruct (read_lines_loop (range 20) it [first_line]) as [lines|].
    + eexists; split; [reflexivity | apply classify_lines_range].
    + exists UNKNOWN; split; [reflexivity | now left].
Qed.

Lemma characteristics_returns_unless_empty_witness :
  exists ft,
    file_type_from_characteristics Inputs.four_line_csv = Ok ft
    /\ In ft [UNKNOWN; ZIP; XML; JSON; JSONL; PDF; CSV; TSV; PIPE; FIXED_WIDTH].
Proof.
  apply (characteristics_returns_unless_empty Inputs.four_line_csv).
  discriminate.
Defined.

Lemma merge_never_unknown (e s c : FileType) : merge e s c <> UNKNOWN.
Proof.
  rewrite merge_unfolds_to_table.
  unfold precedence_table, precedence_rules, same; simpl.
  repeat match goal with
         | |- context [if ?b then _ else _] => destruct b eqn:?
         end;
    try discriminate; intros ->;
    repeat match goal with
           | H : (_ && _)%bool = true |- _ => apply andb_true_iff in H as [? ?]
           end;
    discriminate.
Qed.

(** X4: [file_type] raises [StopIteration] on the empty file; on every
    other file it returns, and what it returns is not UNKNOWN. *)
Theorem file_type_returns_unless_empty (f : File) :
  (content f = [] -> file_type f = Raise StopIteration)
  /\ (content f <> [] -> exists ft, file_type f = Ok ft /\ ft <> UNKNOWN).
Proof.
  unfold file_type; split.
  - intros E. unfold file_type_from_characteristics; rewrite E; reflexivity.
  - intros H. unfold file_type_from_characteristics.
    destruct (readlines_nonempty H) as (first_line & it & ->).
    destruct (read_lines_loop (range 20) it [first_line]) as [lines|]; simpl;
      eexists; (split; [reflexivity | apply merge_never_unknown]).
Qed.

Lemma file_type_returns_unless_empty_witness :
  exists ft, file_type Inputs.four_line_csv = Ok ft /\ ft <> UNKNOWN.
Proof.
  apply (file_type_returns_unless_empty Inputs.four_line_csv).
  discriminate.
Defined.

(** X5: a file of one, two or three lines that carries no byte signature
    is TEXT, whatever its extension and its content. *)
Theorem short_unsigned_file_is_text (f : File) :
  0 < List.length (readlines (content f)) < 4 ->
  file_type_from_signature f = UNKNOWN ->
  file_type f = Ok TEXT.
Proof.
  intros Hlines Hsig. unfold file_type.
  rewrite (characteristics_of_short_file f Hlines), Hsig; simpl.
  destruct (file_type_from_extension f); reflexivity.
Qed.

Lemma short_unsigned_file_is_text_witness :
  path_suffix Inputs.three_line_json = ".json"%string
  /\ from_extension ".json" = JSON
  /\ file_type Inputs.three_line_json = Ok TEXT.
Proof.
  split; [reflexivity|]. split; [reflexivity|].
  apply (short_unsigned_file_is_text Inputs.three_line_json);
    [simpl; lia | reflexivity].
Defined.

(** X6: a file that begins with [PK\x03\x04] is ZIP when its path ends in
    [.zip] and it has at least four lines, and EXCEL otherwise. *)
Theorem file_type_of_pk_file (f : File) (rest : bytes) :
  content f = [x50; x4b; x03; x04] ++ rest ->
  file_type f
  = Ok (if (String.eqb (path_suffix f) ".zip"
            && (4 <=? List.length (readlines (content f))))%bool
        then ZIP else EXCEL).
Proof.
  intros Hc.
  assert (Hsig : file_type_from_signature f = EXCEL).
  { unfold file_type_from_signature; rewrite Hc; reflexivity. }
  assert (Hlines : exists tail it,
             readlines (content f) = ([x50; x4b; x03; x04] ++ tail) :: it).
  { rewrite Hc. unfold readlines; simpl.
    destruct (@lines_from_first rest [x04; x03; x4b; x50]) as (tail & it & E);
      [left; discriminate|].
    now exists tail, it. }
  destruct Hlines as (tail & it & Hl).
  unfold file_type, file_type_from_characteristics, file_type_from_extension.
  rewrite Hsig, Hl; cbv beta iota.
  change (List.length (([x50; x4b; x03; x04] ++ tail) :: it)) with (S (List.length it)).
  destruct (Nat.leb_spec 4 (S (List.length it))) as [Hlong|Hshort].
  - destruct (@read_lines_loop_completes 20 0 it [[x50; x4b; x03; x04] ++ tail])
      as [lines Hloop]; [unfold bytes in *; lia|].
    unfold range, bytes in *; rewrite Hloop; simpl.
    destruct (String.eqb_spec (path_suffix f) ".zip") as [E|E].
    + rewrite E; reflexivity.
    + assert (Hext : from_extension (path_suffix f) <> ZIP)
        by (intros H; apply from_extension_zip in H; contradiction).
      destruct (from_extension (path_suffix f)); try reflexivity. now elim Hext.
  - pose proof (@read_lines_loop_short ([x50; x4b; x03; x04] ++ tail) it) as Hloop.
    unfold bytes in *; rewrite Hloop by lia; simpl.
    rewrite andb_false_r.
    destruct (from_extension (path_suffix f)); reflexivity.
Qed.

Lemma file_type_of_pk_file_witness :
  file_type Inputs.small_zip = Ok EXCEL.
Proof.
  apply (@file_type_of_pk_file Inputs.small_zip [x14; x00]).
  reflexivity.
Defined.

End File_type_facts.

(* ================================================================== *)
(** * Further properties: sampling                                     *)
(* ================================================================== *)

Section Sampling_facts.
Import FileClass FileSniffer Notions.
Local Open Scope Z_scope.

Lemma read_chunks_draws (chunk_count : nat) (data : bytes) (chunk_size : Z) :
  (chunk_count = 0%nat \/ chunk_size <= Z.of_nat (List.length data)) ->
  forall (random_chunks : list bytes) (g : Random),
  let g' := snd (read_chunks chunk_count data (Z.of_nat (List.length data)) chunk_size
                   random_chunks g) in
  consumed g' = (consumed g + chunk_count)%nat /\ draws g' = draws g.
Proof.
  induction chunk_count as [|k IH]; intros Hfit random_chunks g; simpl.
  - split; [lia | reflexivity].
  - destruct Hfit as [Hfit|Hfit]; [discriminate|].
    destruct (@randint_in_range g 0 (Z.of_nat (List.length data) - chunk_size))
      as (r & g1 & Hr & _); [lia|].
    rewrite Hr.
    destruct (IH (or_intror Hfit) (random_chunks ++ [read_at data r chunk_size]) g1)
      as [Hc Hd].
    unfold randint in Hr.
    destruct (Z.ltb_spec (Z.of_nat (List.length data) - chunk_size) 0); [lia|].
    injection Hr as _ <-. simpl in Hc, Hd.
    split; [rewrite Hc; lia | exact Hd].
Qed.

(** The sample is made of whole chunks, one draw each. *)
Lemma get_random_sample_run (f : File) (n : Z) (g : Random) :
  let chunk_count := Z.max 0 (Z.min n (Z.of_nat (List.length (content f))) / 4096) in
  exists (sample : bytes) (g' : Random),
    get_random_sample f n g = (Ok sample, g')
    /\ Z.of_nat (List.length sample) = 4096 * chunk_count
    /\ Z.of_nat (consumed g') = Z.of_nat (consumed g) + chunk_count
    /\ draws g' = draws g.
Proof.
  cbv zeta; unfold get_random_sample.
  set (file_size := Z.of_nat (List.length (content f))).
  set (bytes_to_read := if file_size <? n then file_size else n).
  assert (Hmin : bytes_to_read = Z.min n file_size).
  { unfold bytes_to_read; destruct (Z.ltb_spec file_size n); lia. }
  assert (Hsize : 0 <= file_size) by (unfold file_size; lia).
  assert (Hfit : Z.to_nat (bytes_to_read / 4096) = 0%nat \/ 4096 <= file_size).
  { destruct (Z_lt_le_dec bytes_to_read 4096) as [Hlt|Hge].
    - left. assert (bytes_to_read / 4096 < 1) by (apply Z.div_lt_upper_bound; lia). lia.
    - right; lia. }
  destruct (@read_chunks_returns (Z.to_nat (bytes_to_read / 4096)) (content f) 4096)
    with (random_chunks := @nil bytes) (g := g) as (new & g' & Hrun & Hlen & Hall);
    [lia | exact Hfit |].
  pose proof (@read_chunks_draws (Z.to_nat (bytes_to_read / 4096)) (content f) 4096
                Hfit [] g) as Hdraws.
  fold file_size in Hrun, Hdraws; cbv zeta in Hdraws.
  rewrite Hrun in Hdraws |- *; cbn [fst snd app] in Hdraws |- *.
  exists (List.concat new), g'.
  change (Z.to_nat 4096) with 4096%nat in Hall.
  rewrite (concat_slices_length Hall), Hlen, <- Hmin.
  destruct Hdraws as [Hc Hd].
  repeat split; try assumption; rewrite ?Hc; lia.
Qed.


(** When fewer than 4096 bytes are requested, or the file holds fewer
    than 4096 bytes, the body returns the empty sample and draws no random
    number. *)
Lemma small_sample_is_empty (f : File) (n : Z) (g : Random) :
  n < 4096 \/ Z.of_nat (List.length (content f)) < 4096 ->
  get_random_sample f n g = (Ok [], g).
Proof.
  intros H; unfold get_random_sample.
  set (file_size := Z.of_nat (List.length (content f))) in *.
  set (bytes_to_read := if file_size <? n then file_size else n).
  assert (Hlt : bytes_to_read < 4096).
  { unfold bytes_to_read; destruct (Z.ltb_spec file_size n); lia. }
  assert (Hdiv : bytes_to_read / 4096 < 1) by (apply Z.div_lt_upper_bound; lia).
  replace (Z.to_nat (bytes_to_read / 4096)) with 0%nat by lia.
  reflexivity.
Qed.

Lemma small_sample_is_empty_witness :
  get_random_sample Inputs.four_line_csv 16184 Samples.seven_draws
  = (Ok [], Samples.seven_draws).
Proof.
  apply (@small_sample_is_empty Inputs.four_line_csv 16184 Samples.seven_draws).
  right; vm_compute; reflexivity.
Defined.


End Sampling_facts.

(* ================================================================== *)
(** * Further properties: delimiter and line terminator                *)
(* ================================================================== *)

Section Delimiter_facts.
Import FileSniffer.

(** X10: the inferred delimiter is never NONE; no candidate occurs more
    often in the sample than it does; and among candidates that occur
    equally often the one declared first wins, so that a sample without
    any candidate gives COMMA. *)
Theorem infer_delimiter_argmax (s : bytes) :
  let counts := delimiter_counts s in
  let d := infer_delimiter s in
  d <> Delimiter.NONE
  /\ (forall candidate, counts candidate <= counts d)
  /\ (d = Delimiter.SEMICOLON -> counts Delimiter.COMMA < counts d)
  /\ (d = Delimiter.TAB ->
      counts Delimiter.COMMA < counts d /\ counts Delimiter.SEMICOLON < counts d)
  /\ (d = Delimiter.SPACE ->
      counts Delimiter.COMMA < counts d /\ counts Delimiter.SEMICOLON < counts d
      /\ counts Delimiter.TAB < counts d)
  /\ ((forall candidate, counts candidate = 0) -> d = Delimiter.COMMA).
Proof.
  cbv zeta; unfold infer_delimiter; simpl max_by.
  assert (Hnone : delimiter_counts s Delimiter.NONE = 0) by reflexivity.
  repeat match goal with
         | |- context [?a <? ?b] => destruct (Nat.ltb_spec a b)
         end;
    (split; [discriminate|]);
    (split; [intros []; lia|]);
    repeat split; try discriminate; try lia;
    intros Hzero;
    repeat match goal with
           | H : _ < _ |- _ => rewrite !Hzero in H
           end; try lia; reflexivity.
Qed.

Lemma infer_delimiter_argmax_witness :
  infer_delimiter [x61; x62; x63] = Delimiter.COMMA.
Proof.
  apply (infer_delimiter_argmax [x61; x62; x63]).
  intros []; reflexivity.
Defined.

End Delimiter_facts.

Section Line_terminator_choice.
Import FileSniffer.
Import LineTerminator.

(** X11: the inferred line terminator is decided by the counts of the LF
    and of the CR bytes alone: CRLF when they are equal, LF when the
    sample holds more LF than CR, CR when it holds more CR than LF. *)
Theorem infer_line_terminator_by_lf_and_cr (s : bytes) :
  let lf := line_terminator_counts s LF in
  let cr := line_terminator_counts s CR in
  infer_line_terminator s
  = if lf =? cr then CRLF else if cr <? lf then LF else CR.
Proof.
  cbv zeta.
  destruct (line_terminator_counts_unfold s) as (Ecrlf & Elf & Ecr).
  pose proof (proj1 (count_crlf_le_lf s)) as Hlf.
  pose proof (proj1 (count_crlf_le_cr s)) as Hcr.
  rewrite <- Ecrlf, <- Elf in Hlf. rewrite <- Ecrlf, <- Ecr in Hcr.
  unfold infer_line_terminator, choose_line_terminator.
  destruct (float_gt _ _) eqn:E.
  - apply float_gt_spec, weighted_rule_exact in E; lia.
  - destruct (Nat.eqb_spec (line_terminator_counts s LF) (line_terminator_counts s CR))
      as [Heq|Hne]; [reflexivity|].
    simpl.
    repeat match goal with
           | |- context [?a <? ?b] => destruct (Nat.ltb_spec a b)
           end; try reflexivity; lia.
Qed.

End Line_terminator_choice.

(* ================================================================== *)
(** * Further properties: encodings                                    *)
(* ================================================================== *)

Section Encoding_lookup_facts.
Import FileClass FileSniffer.
Local Open Scope Z_scope.

(** X12: [Encoding.get] finds every member by its name, and by its value
    too, except for UTF_8_BOM, whose value [utf-8-sig] is the name of no
    member; for [None] it answers [None]. *)
Theorem encoding_get_round_trip :
  (forall e, Encoding.get (Some (Encoding.name e)) = Some e)
  /\ (forall e, e <> Encoding.UTF_8_BOM ->
                Encoding.get (Some (Encoding.value e)) = Some e)
  /\ Encoding.get (Some (Encoding.value Encoding.UTF_8_BOM)) = None
  /\ Encoding.get None = None.
Proof.
  repeat split.
  - intros e; destruct e; reflexivity.
  - intros e H; destruct e; try reflexivity. now elim H.
Qed.

Lemma encoding_get_round_trip_witness :
  Encoding.get (Some (Encoding.value Encoding.ISO_8859_1)) = Some Encoding.ISO_8859_1.
Proof.
  apply (proj1 (proj2 encoding_get_round_trip) Encoding.ISO_8859_1).
  discriminate.
Defined.

End Encoding_lookup_facts.

Section Encoding_inference_facts.
Import FileClass FileSniffer Further.
Local Open Scope Z_scope.

Variable decodes : string -> bytes -> bool.
Variable detect : bytes -> option string.

(** X13: an encoding that [infer_encoding] returns is the one the
    detector names for the sample the sniffer holds on return, and it
    decodes this sample. *)
Theorem infer_encoding_sound (w w' : World) (e : Encoding.t) :
  infer_encoding decodes detect w = (Ok e, w') ->
  Encoding.get (detect (sample (self w'))) = Some e
  /\ member_of e (candidates_of decodes (sample (self w'))) = true.
Proof. apply infer_encoding_loop_returns_candidate. Qed.

Lemma attempt_turned_down (i : nat) (w : World) :
  turned_down decodes detect (sample (self w)) ->
  attempt decodes detect i w
  = bindM (call_get_random_sample (BYTES_TO_ANALYZE (self w) * Z.of_nat i))
      (fun s => bindM (set_sample s) (fun _ => ret (inr tt))) w.
Proof.
  unfold turned_down, attempt.
  destruct (Encoding.get (detect (sample (self w)))) as [e|]; [|reflexivity].
  now intros ->.
Qed.

Lemma infer_encoding_loop_small_file (idx : list nat) :
  turned_down decodes detect [] ->
  forall w,
  Z.of_nat (List.length (content (delimited_file (self w)))) < 4096 ->
  sample (self w) = [] ->
  fst (infer_encoding_loop decodes detect idx w) = Raise EncodingException.
Proof.
  intros Hdown.
  induction idx as [|i idx IH]; intros w Hsmall Hempty; simpl; [reflexivity|].
  unfold bindM at 1. rewrite attempt_turned_down by (rewrite Hempty; exact Hdown).
  unfold bindM, call_get_random_sample at 1.
  destruct (get_random_sample_run (delimited_file (self w))
              (BYTES_TO_ANALYZE (self w) * Z.of_nat i) (random w))
    as (s & g' & Hrun & Hlen & _).
  rewrite Hrun; simpl.
  assert (Hs : s = []).
  { assert (Hdiv : Z.min (BYTES_TO_ANALYZE (self w) * Z.of_nat i)
                     (Z.of_nat (List.length (content (delimited_file (self w))))) / 4096 < 1)
      by (apply Z.div_lt_upper_bound; lia).
    destruct s; [reflexivity | cbn [List.length] in Hlen; lia]. }
  subst s. apply IH; [exact Hsmall | reflexivity].
Qed.

(** X15: for a file of fewer than 4096 bytes, the sniffer that
    [__init__] builds holds an empty sample, and so does every later
    sample; if the detector's guess for the empty sample is turned down,
    [infer_encoding] raises [EncodingException]. *)
Theorem small_file_encoding_fails (file : File) (bytes_arg : option Z) (g : Random) :
  Z.of_nat (List.length (content file)) < 4096 ->
  turned_down decodes detect [] ->
  exists (o : FileSniffer.t) (g' : Random),
    init file bytes_arg g = (Ok o, g')
    /\ sample o = []
    /\ fst (infer_encoding decodes detect (mkWorld o g')) = Raise EncodingException.
Proof.
  intros Hsmall Hdown.
  destruct (get_random_sample_run file 16184 g) as (s & g' & Hrun & Hlen & _).
  assert (Hs : s = []).
  { assert (Hdiv : Z.min 16184 (Z.of_nat (List.length (content file))) / 4096 < 1)
      by (apply Z.div_lt_upper_bound; lia).
    destruct s; [reflexivity | cbn [List.length] in Hlen; lia]. }
  subst s. unfold init; rewrite Hrun.
  eexists; eexists; split; [reflexivity|]. split; [reflexivity|].
  apply infer_encoding_loop_small_file; [exact Hdown | exact Hsmall | reflexivity].
Qed.

End Encoding_inference_facts.

Section Encoding_inference_witnesses.
Import FileClass FileSniffer Further.

Lemma infer_encoding_sound_witness :
  Encoding.get (Inputs.detect_ascii (sample (self Inputs.sampled_sniffer)))
  = Some Encoding.ASCII
  /\ member_of Encoding.ASCII
       (candidates_of Inputs.decodes_all (sample (self Inputs.sampled_sniffer))) = true.
Proof.
  apply (@infer_encoding_sound Inputs.decodes_all Inputs.detect_ascii
           Inputs.sampled_sniffer Inputs.sampled_sniffer Encoding.ASCII).
  reflexivity.
Defined.

Lemma small_file_encoding_fails_witness :
  exists (o : FileSniffer.t) (g' : Random),
    init Inputs.four_line_csv None Samples.zero_draws = (Ok o, g')
    /\ sample o = []
    /\ fst (infer_encoding Inputs.decodes_all Inputs.detect_nothing (mkWorld o g'))
       = Raise EncodingException.
Proof.
  apply (@small_file_encoding_fails Inputs.decodes_all Inputs.detect_nothing
           Inputs.four_line_csv None Samples.zero_draws).
  - vm_compute; reflexivity.
  - exact I.
Defined.

End Encoding_inference_witnesses.

(* ================================================================== *)
(** * Further properties: setters and getters                          *)
(* ================================================================== *)

Section Property_facts.
Import FileClass FileSniffer Getters.

Lemma assign_valid (p : Property) (value : PyValue) (w : World) :
  isinstance value (class_of p) = true ->
  assign p value w = store p value w.
Proof.
  intros H; unfold assign, setter, input_type_validation, bindM, lift; simpl.
  now rewrite H.
Qed.

Lemma assign_invalid (p : Property) (value : PyValue) (w : World) :
  isinstance value (class_of p) = false ->
  assign p value w = (Raise TypeError, w).
Proof.
  intros H; unfold assign, setter, input_type_validation, bindM, lift; simpl.
  now rewrite H.
Qed.

(** X16: assigning a member of the expected enumeration stores it as the
    value of the property and changes nothing else: the other four
    properties, the sample, the file, [BYTES_TO_ANALYZE], the attribute
    [_line_terminator] and the random generator are as before. *)
Theorem valid_assignment_frame (p : Property) (value : PyValue) (w : World) :
  isinstance value (class_of p) = true ->
  exists w',
    assign p value w = (Ok tt, w')
    /\ stored p (self w') = Some value
    /\ (forall q, q <> p -> stored q (self w') = stored q (self w))
    /\ sample (self w') = sample (self w)
    /\ delimited_file (self w') = delimited_file (self w)
    /\ BYTES_TO_ANALYZE (self w') = BYTES_TO_ANALYZE (self w)
    /\ _line_terminator (self w') = _line_terminator (self w)
    /\ random w' = random w.
Proof.
  intros H. rewrite (assign_valid p value w H).
  eexists; split; [reflexivity|].
  destruct p; simpl; repeat split; intros q Hq; destruct q; try reflexivity; now elim Hq.
Qed.

Lemma valid_assignment_frame_witness :
  exists w',
    assign delimiter (PyDelimiter Delimiter.TAB) Samples.utf8_sniffer = (Ok tt, w')
    /\ stored delimiter (self w') = Some (PyDelimiter Delimiter.TAB)
    /\ (forall q, q <> delimiter ->
                  stored q (self w') = stored q (self Samples.utf8_sniffer))
    /\ sample (self w') = sample (self Samples.utf8_sniffer)
    /\ delimited_file (self w') = delimited_file (self Samples.utf8_sniffer)
    /\ BYTES_TO_ANALYZE (self w') = BYTES_TO_ANALYZE (self Samples.utf8_sniffer)
    /\ _line_terminator (self w') = _line_terminator (self Samples.utf8_sniffer)
    /\ random w' = random Samples.utf8_sniffer.
Proof.
  apply (@valid_assignment_frame delimiter (PyDelimiter Delimiter.TAB) Samples.utf8_sniffer).
  reflexivity.
Defined.

(** A getter whose guard is the attribute it returns. *)
Lemma getter_reads_stored (p : Property) (infer : M PyValue) (w : World) (v : PyValue) :
  stored p (self w) = Some v ->
  getter (stored p) p infer w = (Returned v, w).
Proof.
  intros H; unfold getter, read_attribute; now rewrite H.
Qed.

Lemma getter_first_read (p : Property) (infer : M PyValue) (w w' : World) (v : PyValue) :
  getter (stored p) p infer w = (Returned v, w') ->
  stored p (self w') = Some v.
Proof.
  unfold getter, read_attribute.
  destruct (stored p (self w)) as [v0|] eqn:E.
  - intros [= <- <-]; exact E.
  - destruct (bindM infer _ w) as [[[]|e] w1].
    + destruct (stored p (self w1)) as [v1|] eqn:E1; intros [= <- <-]; exact E1.
    + intros [=].
Qed.

(** X17: the getters of encoding, delimiter, quotechar and header return
    an explicitly assigned value as it is, without running the inference
    and without touching the instance; and once such a getter has
    returned a value, the next read returns the same value and leaves the
    instance and the random generator as they are. *)
Theorem getters_cache_and_respect_assignment
  (decodes : string -> bytes -> bool) (detect : bytes -> option string)
  (infer_quotechar infer_header : M PyValue) (p : Property) :
  p <> lineterminator ->
  let get :=
    match p with
    | encoding => get_encoding decodes detect
    | delimiter => get_delimiter
    | lineterminator => get_lineterminator
    | quotechar => get_quotechar infer_quotechar
    | header => get_header infer_header
    end in
  (forall w w1 value,
      isinstance value (class_of p) = true ->
      assign p value w = (Ok tt, w1) ->
      get w1 = (Returned value, w1))
  /\ (forall w w' v, get w = (Returned v, w') -> get w' = (Returned v, w')).
Proof.
  intros Hp; cbv zeta.
  assert (Hshape : exists infer,
             match p with
             | encoding => get_encoding decodes detect
             | delimiter => get_delimiter
             | lineterminator => get_lineterminator
             | quotechar => get_quotechar infer_quotechar
             | header => get_header infer_header
             end = getter (stored p) p infer).
  { destruct p; try (now elim Hp); eexists; reflexivity. }
  destruct Hshape as [infer ->].
  split.
  - intros w w1 value Hv Hassign.
    rewrite (assign_valid p value w Hv) in Hassign.
    apply getter_reads_stored.
    injection Hassign as <-. destruct p; reflexivity.
  - intros w w' v Hget.
    apply getter_reads_stored. exact (getter_first_read _ _ _ Hget).
Qed.

Lemma getters_cache_and_respect_assignment_witness :
  get_delimiter (snd (assign delimiter (PyDelimiter Delimiter.TAB) Inputs.sampled_sniffer))
  = (Returned (PyDelimiter Delimiter.TAB),
     snd (assign delimiter (PyDelimiter Delimiter.TAB) Inputs.sampled_sniffer)).
Proof.
  apply (proj1 (@getters_cache_and_respect_assignment Inputs.decodes_all
                  Inputs.detect_nothing (ret PyNone) (ret PyNone) delimiter
                  ltac:(discriminate))
           Inputs.sampled_sniffer);
    reflexivity.
Defined.

End Property_facts.

(* ================================================================== *)
(** * Further properties: infer_header at its edges                    *)
(* ================================================================== *)

Section Header_edge_facts.
Import FileSniffer Documented.

Variable int_converts : string -> bool.
Variable float_converts : string -> bool.
Variable strptime_converts : string -> string -> bool.

Local Abbreviation get_data_type :=
  (get_data_type int_converts float_converts strptime_converts).
Local Abbreviation infer_header :=
  (infer_header int_converts float_converts strptime_converts).

Lemma item_in_range {A} (e : Exception) (l : list A) (i : nat) :
  i < List.length l -> exists a, item e l i = Ok a.
Proof.
  intros H; unfold item.
  destruct (nth_error l i) as [a|] eqn:E; [now exists a|].
  apply nth_error_None in E; lia.
Qed.

Lemma item_out_of_range {A} (e : Exception) (l : list A) (i : nat) :
  List.length l <= i -> item e l i = Raise e.
Proof.
  intros H; unfold item.
  now rewrite (proj2 (nth_error_None l i) H).
Qed.

(** The index loop raises [KeyError] at the first column that the second
    row lacks. *)
Lemma count_differences_narrow (n : nat) :
  forall (k : nat) (t1 t2 : list DataType.t) (rest : list (list DataType.t)),
  k + n <= List.length t1 ->
  0 < n ->
  List.length t2 < k + n ->
  count_differences (seq k n) t1 (t2 :: rest) = Raise KeyError.
Proof.
  induction n as [|n IH]; intros k t1 t2 rest Hfirst Hpos Hnarrow; [lia|].
  simpl seq; cbn [count_differences].
  destruct (@item_in_range _ IndexError t1 k) as [a ->]; [lia|].
  cbn [Py.bind item nth_error].
  destruct (Nat.lt_ge_cases k (List.length t2)) as [Hin|Hout].
  - destruct (@item_in_range _ KeyError t2 k Hin) as [b Hb].
    unfold item in Hb |- *; destruct (nth_error t2 k); [|discriminate].
    cbn [Py.bind].
    rewrite IH by lia. reflexivity.
  - pose proof (@item_out_of_range _ KeyError t2 k Hout) as Hb.
    unfold item in Hb |- *; destruct (nth_error t2 k); [discriminate|].
    reflexivity.
Qed.

Lemma count_differences_no_row (t1 : list DataType.t) :
  0 < List.length t1 ->
  count_differences (range (List.length t1)) t1 [] = Raise KeyError.
Proof.
  intros H; unfold range.
  destruct (List.length t1) as [|n] eqn:E; [lia|].
  simpl seq; cbn [count_differences].
  destruct (@item_in_range _ IndexError t1 0) as [a ->]; [lia|].
  reflexivity.
Qed.

(** A first row of strings that no row follows: [checks] is empty, and
    the look-up [checks[0]] for the first column raises. *)
Lemma infer_header_without_second_row (first : list string) :
  (forall field, In field first -> get_data_type field = DataType.str) ->
  first <> [] ->
  infer_header [first] = Raise KeyError.
Proof.
  intros Hstr Hne. unfold FileSniffer.infer_header.
  assert (Hall : forallb (fun t => DataType.eqb t DataType.str) (map get_data_type first)
                 = true).
  { apply forallb_forall. intros t Hin. apply in_map_iff in Hin as (field & <- & Hin).
    rewrite (Hstr field Hin). reflexivity. }
  rewrite Hall; cbn [negb].
  change (map (map get_data_type) []) with (@nil (list DataType.t)).
  rewrite count_differences_no_row; [reflexivity|].
  rewrite length_map. destruct first; [now elim Hne | simpl; lia].
Qed.

(** C6 (the failing input): a sample that holds a header row and no data
    row.  The first row is all strings and has a field, so the claim has
    the method answer "header present" or "no header"; the method raises
    [KeyError] instead, and returns nothing. *)
Theorem header_row_alone_raises_KeyError (first : list string) :
  (forall field, In field first -> get_data_type field = DataType.str) ->
  first <> [] ->
  infer_header [first] = Raise KeyError
  /\ forall answer : Header.t, infer_header [first] <> Ok answer.
Proof.
  intros Hstr Hne.
  rewrite (infer_header_without_second_row Hstr Hne).
  split; [reflexivity | discriminate].
Qed.

(** X19: [infer_header] raises [StopIteration] when the reader yields no
    row, [ZeroDivisionError] when the first row has no field,
    [KeyError] when a first row of strings is the only row, and
    [KeyError] when the second row has fewer fields than a first row of
    strings. *)
Theorem infer_header_raises (first second : list string) (rest : list (list string)) :
  infer_header [] = Raise StopIteration
  /\ infer_header ([] :: rest) = Raise ZeroDivisionError
  /\ ((forall field, In field first -> get_data_type field = DataType.str) ->
      first <> [] ->
      infer_header [first] = Raise KeyError
      /\ (List.length second < List.length first ->
          infer_header (first :: second :: rest) = Raise KeyError)).
Proof.
  split; [reflexivity|]. split; [reflexivity|].
  intros Hstr Hne.
  assert (Hall : forallb (fun t => DataType.eqb t DataType.str) (map get_data_type first)
                 = true).
  { apply forallb_forall. intros t Hin. apply in_map_iff in Hin as (field & <- & Hin).
    rewrite (Hstr field Hin). reflexivity. }
  assert (Hwidth : 0 < List.length (map get_data_type first)).
  { rewrite length_map. destruct first; [now elim Hne | simpl; lia]. }
  split.
  - unfold FileSniffer.infer_header. rewrite Hall; cbn [negb].
    change (map (map get_data_type) []) with (@nil (list DataType.t)).
    rewrite count_differences_no_row by exact Hwidth.
    reflexivity.
  - intros Hnarrow.
    unfold FileSniffer.infer_header. rewrite Hall; cbn [negb].
    change (map (map get_data_type) (second :: rest))
      with (map get_data_type second :: map (map get_data_type) rest).
    unfold range.
    rewrite count_differences_narrow; [reflexivity | lia | exact Hwidth |].
    rewrite !length_map; simpl; lia.
Qed.

Lemma count_differences_first_row_only (idx : list nat) (t1 : list DataType.t)
  (row : list DataType.t) (rest rest' : list (list DataType.t)) :
  count_differences idx t1 (row :: rest) = count_differences idx t1 (row :: rest').
Proof.
  induction idx as [|i idx IH]; [reflexivity|].
  cbn [count_differences]. unfold item at 2 5. cbn [nth_error].
  destruct (item IndexError t1 i); [|reflexivity].
  cbn [Py.bind]. destruct (item KeyError row i); [|reflexivity].
  cbn [Py.bind]. now rewrite IH.
Qed.

(** X20: of the rows behind the first, [infer_header] looks at the
    second row only: replacing all later rows changes neither the answer
    nor the exception. *)
Theorem infer_header_reads_two_rows (first second : list string)
  (rest rest' : list (list string)) :
  infer_header (first :: second :: rest) = infer_header (first :: second :: rest').
Proof.
  unfold FileSniffer.infer_header.
  destruct (negb _); [reflexivity|].
  cbn [map].
  now rewrite (count_differences_first_row_only _ _ _ (map (map get_data_type) rest)
                 (map (map get_data_type) rest')).
Qed.

End Header_edge_facts.

Section Header_edge_witness.
Import FileSniffer Notions.

Lemma header_row_alone_raises_KeyError_witness :
  infer_header decimal_digits decimal_digits (fun _ _ => false)
    [["id"; "name"; "city"]%string] = Raise KeyError
  /\ forall answer : Header.t,
       infer_header decimal_digits decimal_digits (fun _ _ => false)
         [["id"; "name"; "city"]%string] <> Ok answer.
Proof.
  apply (@header_row_alone_raises_KeyError decimal_digits decimal_digits
           (fun _ _ => false) ["id"; "name"; "city"]%string).
  - intros field [<-|[<-|[<-|[]]]]; reflexivity.
  - discriminate.
Defined.

Lemma infer_header_raises_witness :
  infer_header decimal_digits decimal_digits (fun _ _ => false)
    [["Name"; "Age"]%string] = Raise KeyError.
Proof.
  refine (proj1 (proj2 (proj2 (@infer_header_raises decimal_digits decimal_digits
                                  (fun _ _ => false) ["Name"; "Age"]%string [] [])) _ _)).
  - intros field [<-|[<-|[]]]; reflexivity.
  - discriminate.
Defined.

End Header_edge_witness.

(* ================================================================== *)
(** * Further properties: input_type_validation                        *)
(* ================================================================== *)

Section Validation_facts.
Import FileClass FileSniffer.

Lemma check_args_ok (pairs : list (PyValue * PyClass)) :
  (forall a t, In (a, t) pairs -> isinstance a t = true) ->
  check_args pairs = Ok tt.
Proof.
  induction pairs as [|[a t] pairs IH]; intros H; simpl; [reflexivity|].
  rewrite (H a t (or_introl eq_refl)); simpl.
  apply IH; intros a' t' Hin; apply H; now right.
Qed.

Lemma check_args_fails (pairs : list (PyValue * PyClass)) :
  (exists a t, In (a, t) pairs /\ isinstance a t = false) ->
  check_args pairs = Raise TypeError.
Proof.
  induction pairs as [|[a t] pairs IH]; intros (a0 & t0 & Hin & Hf); [destruct Hin|].
  simpl. destruct (isinstance a t) eqn:E; [|reflexivity]. simpl.
  destruct Hin as [[= <- <-]|Hin]; [congruence|].
  apply IH; eauto.
Qed.

Lemma check_kwargs_ok (type0 : PyClass) (types : list PyClass)
  (kwargs : list (string * PyValue)) :
  (forall k v, In (k, v) kwargs -> isinstance v type0 = true) ->
  check_kwargs (type0 :: types) kwargs = Ok tt.
Proof.
  induction kwargs as [|[k v] kwargs IH]; intros H; simpl; [reflexivity|].
  rewrite (H k v (or_introl eq_refl)); simpl.
  apply IH; intros k' v' Hin; apply H with k'; now right.
Qed.

Lemma check_kwargs_fails (type0 : PyClass) (types : list PyClass)
  (kwargs : list (string * PyValue)) :
  (exists k v, In (k, v) kwargs /\ isinstance v type0 = false) ->
  check_kwargs (type0 :: types) kwargs = Raise TypeError.
Proof.
  induction kwargs as [|[k v] kwargs IH]; intros (k0 & v0 & Hin & Hf); [destruct Hin|].
  simpl. destruct (isinstance v type0) eqn:E; [|reflexivity]. simpl.
  destruct Hin as [[= <- <-]|Hin]; [congruence|].
  apply IH; eauto.
Qed.

(** X21: the wrapper of [input_type_validation] checks the positional
    arguments that have a declared type, one each, and every keyword
    argument against the first declared type.  If all of them pass, the
    call is the call of the method, so positional arguments beyond the
    declared types are not checked; if one fails, [TypeError] is raised
    and the method does not run; a keyword argument with no declared type
    at all raises [IndexError]. *)
Theorem input_type_validation_checks (type0 : PyClass) (types : list PyClass)
  (method : list PyValue -> list (string * PyValue) -> M unit)
  (args : list PyValue) (kwargs : list (string * PyValue)) (w : World) :
  ((forall a t, In (a, t) (combine args (type0 :: types)) -> isinstance a t = true) ->
   (forall k v, In (k, v) kwargs -> isinstance v type0 = true) ->
   input_type_validation (type0 :: types) method args kwargs w = method args kwargs w)
  /\ ((exists a t, In (a, t) (combine args (type0 :: types)) /\ isinstance a t = false) ->
      input_type_validation (type0 :: types) method args kwargs w = (Raise TypeError, w))
  /\ ((forall a t, In (a, t) (combine args (type0 :: types)) -> isinstance a t = true) ->
      (exists k v, In (k, v) kwargs /\ isinstance v type0 = false) ->
      input_type_validation (type0 :: types) method args kwargs w = (Raise TypeError, w))
  /\ (kwargs <> [] ->
      input_type_validation [] method args kwargs w = (Raise IndexError, w)).
Proof.
  unfold input_type_validation, bindM, lift.
  repeat split.
  - intros Ha Hk.
    now rewrite (@check_args_ok _ Ha), (@check_kwargs_ok type0 types kwargs Hk).
  - intros Ha. now rewrite (@check_args_fails _ Ha).
  - intros Ha Hk.
    now rewrite (@check_args_ok _ Ha), (@check_kwargs_fails type0 types kwargs Hk).
  - intros Hne. rewrite combine_nil. simpl.
    destruct kwargs as [|[k v] kwargs]; [now elim Hne | reflexivity].
Qed.

Lemma input_type_validation_checks_witness :
  input_type_validation [EncodingClass] (setter_body encoding)
    [PyEncoding Encoding.UTF_8; PyInt 7] [] Samples.utf8_sniffer
  = setter_body encoding [PyEncoding Encoding.UTF_8; PyInt 7] [] Samples.utf8_sniffer.
Proof.
  refine (proj1 (@input_type_validation_checks EncodingClass [] (setter_body encoding)
                   [PyEncoding Encoding.UTF_8; PyInt 7] [] Samples.utf8_sniffer) _ _).
  - intros a t [[= <- <-]|[]]; reflexivity.
  - intros k v [].
Defined.

End Validation_facts.

(* ================================================================== *)
(** * Further properties: EnumDescriptor                               *)
(* ================================================================== *)

Section Descriptor_facts.
Import FileSniffer EnumDescriptor.

Lemma isinstance_of_string (s : string) (c : PyClass) : isinstance (PyStr s) c = false.
Proof. destruct c; reflexivity. Qed.

(** X22: a descriptor accepts one assignment.  While it holds the class,
    assigning an instance of the class succeeds and is what [__get__]
    answers from then on, through every instance; once a value has been
    assigned, every further assignment, through any instance and of any
    value, raises [TypeError] and leaves the value in place. *)
Theorem descriptor_is_write_once (self : Held) (instance : nat) (value : PyValue)
  (self' : Held) :
  EnumDescriptor.set self instance value = (Ok tt, self') ->
  (exists c, self = HeldClass c /\ isinstance value c = true)
  /\ (forall other, get self' other = HeldValue value)
  /\ (forall other value',
        EnumDescriptor.set self' other value' = (Raise TypeError, self')).
Proof.
  unfold EnumDescriptor.set, set_body, get.
  destruct self as [c|v]; simpl; [|intros [=]].
  destruct (isinstance value c) eqn:E; simpl.
  - intros [= <-]. repeat split; eauto.
  - intros H. exfalso.
    destruct value; simpl in H; try discriminate H.
    destruct (call_class c s) as [m|e]; [|destruct e]; simpl in H; discriminate H.
Qed.

Lemma descriptor_is_write_once_witness :
  EnumDescriptor.set (HeldValue (PyDelimiter Delimiter.COMMA)) 2
    (PyDelimiter Delimiter.TAB)
  = (Raise TypeError, HeldValue (PyDelimiter Delimiter.COMMA)).
Proof.
  apply (@descriptor_is_write_once (init DelimiterClass) 1 (PyDelimiter Delimiter.COMMA)
           (HeldValue (PyDelimiter Delimiter.COMMA))).
  reflexivity.
Defined.

Lemma call_class_outcome (c : PyClass) (s : string) :
  (exists m, call_class c s = Ok m) \/ call_class c s = Raise ValueError.
Proof.
  unfold call_class, first_member.
  destruct c;
    match goal with
    | |- context [find ?f ?l] => destruct (find f l)
    end; eauto.
Qed.

(** X23: assigning a string to a descriptor never succeeds: while the
    descriptor holds its class the assignment raises [ValueError], also
    for a string that is the value of a member, and the descriptor is
    left as it was. *)
Theorem descriptor_rejects_strings (c : PyClass) (instance : nat) (s : string) :
  EnumDescriptor.set (init c) instance (PyStr s) = (Raise ValueError, init c).
Proof.
  unfold EnumDescriptor.set, set_body, init, isinstance_held, call_held.
  cbn [Py.bind]. rewrite isinstance_of_string. cbn [negb].
  destruct (call_class_outcome c s) as [[m ->]| ->]; reflexivity.
Qed.

End Descriptor_facts.

(* ================================================================== *)
(** * Further properties: call_counter and cache                       *)
(* ================================================================== *)

Section Decorator_facts.
Import FileClass Decorators DecoratorNotions.
Local Open Scope Z_scope.

Lemma lookup_update_same {V} (key : string) (v : V) (d : list (string * V)) :
  lookup key (update key v d) = Some v.
Proof.
  induction d as [|[k v0] d IH]; simpl.
  - now rewrite String.eqb_refl.
  - destruct (String.eqb k key) eqn:E; simpl; rewrite E; [reflexivity | exact IH].
Qed.

Lemma level_is_50 (count : Z) :
  (level_loop [1; 10; 50; 250; 1000] [10; 20; 30; 40; 50] count 1 =? 50)
  = (1000 <? count).
Proof.
  simpl.
  repeat match goal with
         | |- context [?a <? ?b] => destruct (Z.ltb_spec a b)
         end; try reflexivity; lia.
Qed.

(** X24: a method under [call_counter] that is not exempt is refused
    with [RecursionError], without being run, exactly when 1000 calls of
    its name are already counted on the instance; otherwise it runs on
    the instance as it was, but for the counter and the log.  The call is
    counted in either case. *)
Theorem call_counter_limit {S R : Type} (method : Counted S -> R * Counted S)
  (name : string) (self : Counted S) :
  exempt name self = false ->
  exists self1,
    others self1 = others self
    /\ disable_call_counter self1 = disable_call_counter self
    /\ counted name self1 = counted name self + 1
    /\ (1000 <= counted name self ->
        call_counter method name self = (RaisedRecursionError, self1))
    /\ (counted name self < 1000 ->
        call_counter method name self = (let (r, self') := method self1 in (Ran r, self'))).
Proof.
  intros Hexempt. unfold exempt in Hexempt.
  unfold call_counter. rewrite Hexempt.
  set (counts0 := match call_count self with Some d => d | None => [] end).
  set (counts1 := match lookup name counts0 with
                  | Some _ => counts0
                  | None => update name 0 counts0
                  end).
  set (count := match lookup name counts1 with Some c => c + 1 | None => 1 end).
  assert (Hcount : count = counted name self + 1).
  { unfold count, counts1, counted. fold counts0.
    replace (match call_count self with
             | Some d => match lookup name d with Some c => c | None => 0 end
             | None => 0
             end)
      with (match lookup name counts0 with Some c => c | None => 0 end)
      by (unfold counts0; destruct (call_count self); reflexivity).
    destruct (lookup name counts0) as [c|] eqn:E.
    - now rewrite E.
    - now rewrite lookup_update_same. }
  cbv zeta. rewrite level_is_50.
  match goal with
  | |- context [mkCounted _ _ ?l _] => set (log1 := l)
  end.
  exists (mkCounted (disable_call_counter self) (Some (update name count counts1)) log1
            (others self)).
  split; [reflexivity|]. split; [reflexivity|].
  split; [unfold counted; simpl; now rewrite lookup_update_same|].
  split; intros H.
  - destruct (Z.ltb_spec 1000 count); [reflexivity | lia].
  - destruct (Z.ltb_spec 1000 count); [lia | reflexivity].
Qed.

Lemma call_counter_limit_witness :
  exists self1,
    others self1 = others worn_instance
    /\ disable_call_counter self1 = disable_call_counter worn_instance
    /\ counted "infer_delimiter" self1 = counted "infer_delimiter" worn_instance + 1
    /\ (1000 <= counted "infer_delimiter" worn_instance ->
        call_counter (fun self => (Delimiter.COMMA, self)) "infer_delimiter" worn_instance
        = (RaisedRecursionError, self1))
    /\ (counted "infer_delimiter" worn_instance < 1000 ->
        call_counter (fun self => (Delimiter.COMMA, self)) "infer_delimiter" worn_instance
        = (let (r, self') := (Delimiter.COMMA, self1) in (Ran r, self'))).
Proof.
  apply (@call_counter_limit unit Delimiter.t (fun self => (Delimiter.COMMA, self))
           "infer_delimiter" worn_instance).
  reflexivity.
Defined.

(** X25: a method under [cache] is run once, and for 60 seconds every
    further call answers the value of that run, whatever its arguments:
    if the first call finds no entry and the method returns [v], a second
    call with any arguments, made while the clock reads at most 60
    seconds more, returns [v] again and does not run the method.  Only a
    true [DISABLE_CACHE] makes the second call run the method. *)
Theorem cache_ignores_arguments {V St A K : Type} (truthy : K -> bool)
  (method : A -> list (string * K) -> St -> Result V * St) (name : string)
  (args1 args2 : A) (kwargs1 kwargs2 : list (string * K))
  (self : Cached V St) (v : V) (s1 : St) :
  cached name self = None ->
  bypasses truthy kwargs1 = false ->
  method args1 (remove "DISABLE_CACHE" kwargs1) (attrs self) = (Ok v, s1) ->
  (times (clock self) (S (readings (clock self)))
   - times (clock self) (readings (clock self)) <= 60)%Q ->
  exists self1,
    cache truthy method name args1 kwargs1 self = (Ok v, self1)
    /\ attrs self1 = s1
    /\ (bypasses truthy kwargs2 = false ->
        exists self2,
          cache truthy method name args2 kwargs2 self1 = (Ok v, self2)
          /\ attrs self2 = s1
          /\ cache_attr self2 = cache_attr self1)
    /\ (bypasses truthy kwargs2 = true ->
        cache truthy method name args2 kwargs2 self1
        = (let (r, s') := method args2 (remove "DISABLE_CACHE" kwargs2) s1 in
           (r, mkCached (cache_attr self1) (clock self1) s'))).
Proof.
  intros Hmiss Hby1 Hrun Hclock.
  unfold cached in Hmiss. unfold bypasses in *.
  set (entries := match cache_attr self with Some d => d | None => [] end).
  assert (Hentries : lookup name entries = None).
  { unfold entries; destruct (cache_attr self); [exact Hmiss | reflexivity]. }
  set (t := times (clock self) (readings (clock self))) in *.
  exists (mkCached (Some (update name (v, t) entries))
            (mkClock (times (clock self)) (S (readings (clock self)))) s1).
  split.
  { unfold cache. rewrite Hby1. fold entries. rewrite Hentries.
    unfold fill. rewrite Hrun. reflexivity. }
  split; [reflexivity|].
  split.
  - intros Hby2. unfold cache. rewrite Hby2.
    cbn [cache_attr clock attrs]. rewrite lookup_update_same.
    cbn [time times readings].
    assert (Hgt : float_gt (times (clock self) (S (readings (clock self))) - t) 60 = false).
    { unfold float_gt. apply negb_false_iff, Qle_bool_iff. exact Hclock. }
    rewrite Hgt.
    eexists; split; [reflexivity|]. split; reflexivity.
  - intros Hby2. unfold cache. rewrite Hby2. reflexivity.
Qed.

Lemma cache_ignores_arguments_witness :
  exists self1,
    cache (fun b : bool => b) (sample_method Samples.file_of_4097_bytes)
      "get_random_sample" 16184 [] uncached_file = (Ok (repeat x61 4096), self1)
    /\ attrs self1 = mkRandom (fun _ => 0%N) 1
    /\ (bypasses (fun b : bool => b) [] = false ->
        exists self2,
          cache (fun b : bool => b) (sample_method Samples.file_of_4097_bytes)
            "get_random_sample" 0 [] self1 = (Ok (repeat x61 4096), self2)
          /\ attrs self2 = mkRandom (fun _ => 0%N) 1
          /\ cache_attr self2 = cache_attr self1)
    /\ (bypasses (fun b : bool => b) [] = true ->
        cache (fun b : bool => b) (sample_method Samples.file_of_4097_bytes)
          "get_random_sample" 0 [] self1
        = (let (r, s') := sample_method Samples.file_of_4097_bytes 0
                            (remove "DISABLE_CACHE" []) (mkRandom (fun _ => 0%N) 1) in
           (r, mkCached (cache_attr self1) (clock self1) s'))).
Proof.
  apply (@cache_ignores_arguments bytes Random Z bool (fun b => b)
           (sample_method Samples.file_of_4097_bytes) "get_random_sample"
           16184 0 [] [] uncached_file (repeat x61 4096) (mkRandom (fun _ => 0%N) 1)).
  - reflexivity.
  - reflexivity.
  - vm_compute; reflexivity.
  - vm_compute; discriminate.
Defined.

End Decorator_facts.


(* ================================================================== *)
(** * Further properties: Levenshtein.distance                         *)
(* ================================================================== *)

Section Edit_facts.
Import Levenshtein.

Lemma edit_lengths (s t : str) (n : nat) :
  edit s t n ->
  List.length s <= List.length t + n /\ List.length t <= List.length s + n.
Proof. induction 1; simpl; lia. Qed.

Lemma edit_sym (s t : str) (n : nat) : edit s t n -> edit t s n.
Proof. induction 1; now constructor. Qed.

Lemma edit_all_deleted (s : str) : edit s [] (List.length s).
Proof. induction s; simpl; now constructor. Qed.

Lemma edit_snoc_keep (a : N) (s t : str) (n : nat) :
  edit s t n -> edit (s ++ [a]) (t ++ [a]) n.
Proof. induction 1; simpl; try (now constructor). apply edit_keep, edit_nil. Qed.

Lemma edit_snoc_substitute (a b : N) (s t : str) (n : nat) :
  edit s t n -> edit (s ++ [a]) (t ++ [b]) (S n).
Proof. induction 1; simpl; try (now constructor). apply edit_substitute, edit_nil. Qed.

Lemma edit_snoc_delete (a : N) (s t : str) (n : nat) :
  edit s t n -> edit (s ++ [a]) t (S n).
Proof. induction 1; simpl; try (now constructor). apply edit_delete, edit_nil. Qed.

Lemma edit_snoc_insert (b : N) (s t : str) (n : nat) :
  edit s t n -> edit s (t ++ [b]) (S n).
Proof. intros H. apply edit_sym, edit_snoc_delete, edit_sym, H. Qed.

(** Reading both strings backwards does not change the cost. *)
Lemma edit_rev (s t : str) (n : nat) : edit s t n -> edit (rev s) (rev t) n.
Proof.
  induction 1; simpl.
  - constructor.
  - now apply edit_snoc_keep.
  - now apply edit_snoc_substitute.
  - now apply edit_snoc_delete.
  - now apply edit_snoc_insert.
Qed.

(** Dropping the first character of the target costs at most one more. *)
Lemma edit_drop_right (s t' : str) (n : nat) :
  edit s t' n ->
  forall b t, t' = b :: t -> exists m, m <= S n /\ edit s t m.
Proof.
  induction 1 as [|a s t n H IH|a b0 s t n H IH|a s t n H IH|b0 s t n H IH];
    intros b u E.
  - discriminate.
  - injection E as <- <-. exists (S n); split; [lia | now constructor].
  - injection E as <- <-. exists (S n); split; [lia | now constructor].
  - destruct (IH b u E) as (m & Hm & He).
    exists (S m); split; [lia | now constructor].
  - injection E as <- <-. exists n; split; [lia | exact H].
Qed.

Lemma edit_drop_left (a : N) (s t : str) (n : nat) :
  edit (a :: s) t n -> exists m, m <= S n /\ edit s t m.
Proof.
  intros H. apply edit_sym in H.
  destruct (@edit_drop_right t (a :: s) n H a s eq_refl) as (m & Hm & He).
  exists m; split; [exact Hm | now apply edit_sym].
Qed.

Lemma least_cost_sym (s t : str) (d : nat) : least_cost s t d -> least_cost t s d.
Proof.
  intros [He Hmin]; split; [now apply edit_sym|].
  intros n Hn. apply Hmin, edit_sym, Hn.
Qed.

Lemma least_cost_rev (s t : str) (d : nat) :
  least_cost (rev s) (rev t) d -> least_cost s t d.
Proof.
  intros [He Hmin]; split.
  - apply edit_rev in He. now rewrite !rev_involutive in He.
  - intros n Hn. apply Hmin, edit_rev, Hn.
Qed.

Lemma least_cost_rev' (s t : str) (d : nat) :
  least_cost s t d -> least_cost (rev s) (rev t) d.
Proof.
  intros H. apply least_cost_rev. now rewrite !rev_involutive.
Qed.

Lemma least_cost_empty (s : str) : least_cost s [] (List.length s).
Proof.
  split; [apply edit_all_deleted|].
  intros n Hn. apply edit_lengths in Hn; simpl in Hn; lia.
Qed.

(** The recurrence of the distance, at the front of the strings. *)
Lemma least_cost_cons (a b : N) (s t : str) (d0 d1 d2 : nat) :
  least_cost s t d0 ->
  least_cost (a :: s) t d1 ->
  least_cost s (b :: t) d2 ->
  least_cost (a :: s) (b :: t)
    (if N.eqb a b then d0 else S (Nat.min d0 (Nat.min d1 d2))).
Proof.
  intros [He0 Hmin0] [He1 Hmin1] [He2 Hmin2].
  destruct (N.eqb_spec a b) as [<-|Hab].
  - split; [now constructor|].
    intros n Hn. inversion Hn; subst.
    + now apply Hmin0.
    + match goal with H : edit s t _ |- _ => apply Hmin0 in H; lia end.
    + match goal with
      | H : edit s (a :: t) ?m |- _ =>
          destruct (@edit_drop_right s (a :: t) m H a t eq_refl) as (m' & Hm' & He')
      end.
      apply Hmin0 in He'; lia.
    + match goal with
      | H : edit (a :: s) t ?m |- _ => destruct (edit_drop_left H) as (m' & Hm' & He')
      end.
      apply Hmin0 in He'; lia.
  - split.
    + destruct (Nat.min_spec d0 (Nat.min d1 d2)) as [[_ ->]|[_ ->]].
      * now constructor.
      * destruct (Nat.min_spec d1 d2) as [[_ ->]|[_ ->]].
        -- now apply edit_insert.
        -- now apply edit_delete.
    + intros n Hn. inversion Hn; subst.
      * now elim Hab.
      * match goal with H : edit s t _ |- _ => apply Hmin0 in H; lia end.
      * match goal with H : edit s (b :: t) _ |- _ => apply Hmin2 in H; lia end.
      * match goal with H : edit (a :: s) t _ |- _ => apply Hmin1 in H; lia end.
Qed.

(** The same recurrence at the end of the strings, which is where the
    rows of [distance] grow. *)
Lemma least_cost_snoc (a b : N) (p q : str) (d0 d1 d2 : nat) :
  least_cost p q d0 ->
  least_cost (p ++ [a]) q d1 ->
  least_cost p (q ++ [b]) d2 ->
  least_cost (p ++ [a]) (q ++ [b])
    (if N.eqb a b then d0 else S (Nat.min d0 (Nat.min d1 d2))).
Proof.
  intros H0 H1 H2.
  apply least_cost_rev. rewrite !rev_app_distr; simpl.
  apply least_cost_cons.
  - now apply least_cost_rev'.
  - apply least_cost_rev' in H1. now rewrite rev_app_distr in H1.
  - apply least_cost_rev' in H2. now rewrite rev_app_distr in H2.
Qed.

End Edit_facts.

Section Distance_facts.
Import Levenshtein DistanceNotions.
Import Py.
Local Open Scope Z_scope.

Variable is_space : N -> bool.

Lemma last_item_snoc (l : list Z) (x : Z) : last_item (l ++ [x]) = Ok x.
Proof. unfold last_item. now rewrite rev_app_distr. Qed.

Lemma last_item_at (l : list Z) (k : nat) (x : Z) :
  List.length l = S k -> nth_error l k = Some x -> last_item l = Ok x.
Proof.
  induction l as [|y l _] using rev_ind; [discriminate|].
  rewrite length_app; simpl; intros Hlen Hnth.
  assert (k = List.length l) as -> by lia.
  rewrite nth_error_app2 in Hnth by lia.
  rewrite Nat.sub_diag in Hnth; simpl in Hnth.
  injection Hnth as ->. apply last_item_snoc.
Qed.

Lemma last_item_returns (l : list Z) :
  l <> [] -> exists x, last_item l = Ok x.
Proof.
  induction l as [|y l _] using rev_ind; [now intros []|].
  intros _. exists y. apply last_item_snoc.
Qed.

Lemma item_returns (l : list Z) (i : nat) :
  (i < List.length l)%nat -> exists x, FileSniffer.item IndexError l i = Ok x.
Proof.
  intros H. unfold FileSniffer.item.
  destruct (nth_error l i) eqn:E; [now eexists|].
  apply nth_error_None in E; lia.
Qed.

Lemma firstn_length_app (p r : str) : firstn (List.length p) (p ++ r) = p.
Proof. induction p; simpl; congruence. Qed.

(** The first row: the distances to the empty string. *)
Lemma first_row (s1 : str) :
  row_upto s1 [] (List.length s1)
    (map Z.of_nat (seq 0 (List.length s1 + 1))).
Proof.
  split.
  - rewrite length_map, length_seq. lia.
  - intros i Hi. exists i. split.
    + rewrite nth_error_map, nth_error_seq.
      destruct (Nat.ltb_spec i (List.length s1 + 1)); [reflexivity | lia].
    + pose proof (least_cost_empty (firstn i s1)) as H.
      rewrite length_firstn, Nat.min_l in H by lia. exact H.
Qed.

(** A round of the inner loop, within the limit, extends the new row by
    the recurrence of the distance. *)
Lemma inner_loop_fills (limit : Z) (b : N) (s1 q : str) (distances : list Z) :
  row_upto s1 q (List.length s1) distances ->
  Z.of_nat (List.length s1) <= limit + 1 ->
  forall (rest pre : str) (new_distances : list Z),
    s1 = (pre ++ rest)%list ->
    row_upto s1 (q ++ [b]) (List.length pre) new_distances ->
    exists row,
      inner_loop limit b distances rest (List.length pre) new_distances
        = Ok (Goes row) /\
      row_upto s1 (q ++ [b]) (List.length s1) row.
Proof.
  intros [Hlen Hrow] Hlimit.
  induction rest as [|a rest IH]; intros pre new Hs1 [Hnlen Hnew].
  - rewrite app_nil_r in Hs1; subst pre. exists new. split; [reflexivity|].
    split; assumption.
  - assert (Hk : (List.length pre < List.length s1)%nat).
    { rewrite Hs1, length_app; simpl; lia. }
    cbn [inner_loop].
    destruct (Z.ltb_spec limit (Z.of_nat (List.length pre))) as [Hgt|_]; [lia|].
    destruct (Hrow (List.length pre)) as (d0 & Hd0 & Hc0); [lia|].
    destruct (Hrow (S (List.length pre))) as (dA & HdA & HcA); [lia|].
    destruct (Hnew (List.length pre)) as (dB & HdB & HcB); [lia|].
    assert (Hpre : firstn (List.length pre) s1 = pre)
      by (rewrite Hs1 at 1; apply firstn_length_app).
    assert (Hpre' : firstn (S (List.length pre)) s1 = (pre ++ [a])%list).
    { replace (S (List.length pre)) with (List.length (pre ++ [a])%list)
        by (rewrite length_app; simpl; lia).
      rewrite Hs1 at 1.
      replace (pre ++ a :: rest)%list with ((pre ++ [a]) ++ rest)%list
        by (now rewrite <- app_assoc).
      apply firstn_length_app. }
    rewrite Hpre in Hc0, HcB. rewrite Hpre' in HcA.
    pose proof (@least_cost_snoc a b pre q d0 dA dB Hc0 HcA HcB) as Hentry.
    set (d := if N.eqb a b then d0 else S (Nat.min d0 (Nat.min dA dB))) in Hentry.
    assert (Heq :
      (entry <-
         (if N.eqb a b then FileSniffer.item IndexError distances (List.length pre)
          else
            x <- FileSniffer.item IndexError distances (List.length pre) ;;
            y <- FileSniffer.item IndexError distances (List.length pre + 1) ;;
            z <- last_item new ;;
            Ok (1 + Z.min x (Z.min y z))) ;;
       inner_loop limit b distances rest (S (List.length pre)) (new ++ [entry]))%py
      = inner_loop limit b distances rest (S (List.length pre))
          (new ++ [Z.of_nat d])).
    { unfold FileSniffer.item. rewrite Nat.add_1_r, Hd0, HdA.
      rewrite (@last_item_at new _ _ Hnlen HdB). subst d.
      destruct (N.eqb a b); cbn [bind]; [reflexivity|].
      do 3 f_equal. lia. }
    rewrite Heq.
    replace (S (List.length pre)) with (List.length (pre ++ [a])%list)
      by (rewrite length_app; simpl; lia).
    apply IH.
    + rewrite Hs1. now rewrite <- app_assoc.
    + split.
      * rewrite !length_app; simpl; lia.
      * intros i Hi. rewrite length_app in Hi; simpl in Hi.
        destruct (Nat.eq_dec i (S (List.length pre))) as [->|Hne].
        -- exists d. split.
           ++ rewrite nth_error_app2 by lia.
              rewrite Hnlen, Nat.sub_diag. reflexivity.
           ++ now rewrite Hpre'.
        -- destruct (Hnew i) as (di & Hdi & Hci); [lia|].
           exists di. split; [|exact Hci].
           rewrite nth_error_app1 by lia. exact Hdi.
Qed.

(** The outer loop, within the limit, ends in the least cost. *)
Lemma outer_loop_computes (limit : Z) (s1 : str) :
  Z.of_nat (List.length s1) <= limit + 1 ->
  forall (rest q : str) (distances : list Z),
    row_upto s1 q (List.length s1) distances ->
    Z.of_nat (List.length q + List.length rest) <= limit + 1 ->
    exists d : nat,
      outer_loop limit s1 rest (List.length q) distances = Ok (Z.of_nat d) /\
      least_cost s1 (q ++ rest) d.
Proof.
  intros Hlimit.
  induction rest as [|b rest IH]; intros q distances Hrow Hq.
  - destruct Hrow as [Hlen Hrow].
    destruct (Hrow (List.length s1)) as (d & Hd & Hc); [lia|].
    exists d. split.
    + cbn [outer_loop]. exact (@last_item_at distances _ _ Hlen Hd).
    + now rewrite firstn_all, <- (app_nil_r q) in Hc at 1.
  - cbn [outer_loop]. cbn [List.length] in Hq.
    destruct (Z.ltb_spec limit (Z.of_nat (List.length q))) as [Hgt|_]; [lia|].
    destruct (@inner_loop_fills limit b s1 q distances Hrow Hlimit s1 []
                [Z.of_nat (List.length q) + 1]) as (row & Hrun & Hrow').
    + reflexivity.
    + split; [reflexivity|].
      intros i Hi. cbn [List.length] in Hi.
      assert (i = 0%nat) as -> by lia.
      exists (List.length (q ++ [b])%list). split.
      * rewrite length_app; cbn [List.length nth_error]. f_equal. lia.
      * cbn [firstn]. apply least_cost_sym, least_cost_empty.
    + cbn [List.length] in Hrun. rewrite Hrun. cbn [bind].
      replace (S (List.length q)) with (List.length (q ++ [b])%list)
        by (rewrite length_app; simpl; lia).
      replace (q ++ b :: rest)%list with ((q ++ [b]) ++ rest)%list
        by (now rewrite <- app_assoc).
      apply IH; [exact Hrow'|].
      rewrite length_app; cbn [List.length]. lia.
Qed.

(** A round of the inner loop never raises: it returns [limit + 1], or
    hands over a row as long as the one before. *)
Lemma inner_loop_runs (limit : Z) (b : N) (distances : list Z) :
  forall (rest : str) (k : nat) (new_distances : list Z),
    List.length distances = S (k + List.length rest) ->
    List.length new_distances = S k ->
    inner_loop limit b distances rest k new_distances = Ok (Returns (limit + 1)) \/
    exists row,
      inner_loop limit b distances rest k new_distances = Ok (Goes row) /\
      List.length row = List.length distances.
Proof.
  induction rest as [|a rest IH]; intros k new Hlen Hnew.
  - right. exists new. split; [reflexivity|]. simpl in Hlen. lia.
  - cbn [inner_loop]. cbn [List.length] in Hlen.
    destruct (limit <? Z.of_nat k); [now left|].
    destruct (@item_returns distances k) as (x & Hx); [lia|].
    destruct (@item_returns distances (k + 1)) as (y & Hy); [lia|].
    destruct (@last_item_returns new) as (z & Hz);
      [intros ->; discriminate|].
    rewrite Hx, Hy, Hz.
    destruct (N.eqb a b); cbn [bind];
      apply IH; rewrite ?length_app; cbn [List.length]; lia.
Qed.

(** Past the limit the outer loop returns [limit + 1]. *)
Lemma outer_loop_gives_up (limit : Z) (s1 : str) :
  forall (s2 : str) (index2 : nat) (distances : list Z),
    List.length distances = S (List.length s1) ->
    Z.of_nat index2 <= Z.max 0 (limit + 1) ->
    Z.max 0 (limit + 1) < Z.of_nat (index2 + List.length s2) ->
    outer_loop limit s1 s2 index2 distances = Ok (limit + 1).
Proof.
  induction s2 as [|b s2 IH]; intros index2 distances Hlen Hlow Hhigh.
  - cbn [List.length] in Hhigh. lia.
  - cbn [outer_loop]. cbn [List.length] in Hhigh.
    destruct (Z.ltb_spec limit (Z.of_nat index2)) as [Hgt|Hle]; [reflexivity|].
    destruct (@inner_loop_runs limit b distances s1 0 [Z.of_nat index2 + 1])
      as [Hrun|(row & Hrun & Hrow)]; try (cbn [List.length]; lia).
    + now rewrite Hrun.
    + rewrite Hrun. cbn [bind]. apply IH; lia.
Qed.

(** X29: when the longer of the two stripped strings has more characters
    than [limit + 1] (and at least one), [Levenshtein.distance] returns
    [limit + 1], whatever the strings are; two equal strings of twelve
    letters are at distance 11 under the default limit of 10. *)
Theorem distance_beyond_limit (s1 s2 : str) (limit : Z) :
  Z.max 0 (limit + 1)
    < Z.of_nat (Nat.max (List.length (strip is_space s1))
                        (List.length (strip is_space s2))) ->
  distance is_space s1 s2 limit = Ok (limit + 1).
Proof.
  intros H. unfold distance.
  destruct (Nat.ltb_spec (List.length (strip is_space s2))
                         (List.length (strip is_space s1))) as [Hlt|Hge];
    cbn [fst snd]; apply outer_loop_gives_up;
    rewrite ?length_map, ?length_seq; lia.
Qed.

(** X30: when neither stripped string has more than [limit + 1]
    characters, [Levenshtein.distance] returns the Levenshtein distance of
    the stripped strings: the least number of substitutions, deletions and
    insertions of single characters that turns one into the other. *)
Theorem distance_within_limit (s1 s2 : str) (limit : Z) :
  Z.of_nat (List.length (strip is_space s1)) <= limit + 1 ->
  Z.of_nat (List.length (strip is_space s2)) <= limit + 1 ->
  exists d : nat,
    distance is_space s1 s2 limit = Ok (Z.of_nat d) /\
    least_cost (strip is_space s1) (strip is_space s2) d.
Proof.
  intros H1 H2. unfold distance.
  destruct (Nat.ltb_spec (List.length (strip is_space s2))
                         (List.length (strip is_space s1))) as [Hlt|Hge];
    cbn [fst snd].
  - destruct (@outer_loop_computes limit (strip is_space s2) H2
                (strip is_space s1) [] _ (first_row (strip is_space s2)))
      as (d & Hd & Hc); [cbn [List.length]; lia|].
    exists d. split; [exact Hd|]. apply least_cost_sym. exact Hc.
  - destruct (@outer_loop_computes limit (strip is_space s1) H1
                (strip is_space s2) [] _ (first_row (strip is_space s1)))
      as (d & Hd & Hc); [cbn [List.length]; lia|].
    exists d. split; [exact Hd|]. exact Hc.
Qed.

End Distance_facts.

Section Distance_witnesses.
Import Levenshtein.
Import Py.
Local Open Scope Z_scope.

Lemma distance_beyond_limit_witness :
  distance ascii_space twelve_letters twelve_letters 10 = Ok (10 + 1).
Proof.
  apply (@distance_beyond_limit ascii_space twelve_letters twelve_letters 10).
  vm_compute. reflexivity.
Defined.

Lemma distance_within_limit_witness :
  exists d : nat,
    distance ascii_space kitten sitting 10 = Ok (Z.of_nat d) /\
    least_cost (strip ascii_space kitten) (strip ascii_space sitting) d.
Proof.
  apply (@distance_within_limit ascii_space kitten sitting 10);
    vm_compute; intros H; discriminate H.
Defined.

End Distance_witnesses.

(* ================================================================== *)
(** * The decorators of the classes                                    *)
(* ================================================================== *)

Section Class_decorator_facts.
Import Decorators DecoratorNotions ClassDecorator.
Local Open Scope Z_scope.

Lemma lookup_update_other {V} (key key' : string) (v : V) (d : list (string * V)) :
  key' <> key -> lookup key' (update key v d) = lookup key' d.
Proof.
  intros Hne. induction d as [|[k v0] d IH]; simpl.
  - destruct (String.eqb_spec key key'); [congruence | reflexivity].
  - destruct (String.eqb_spec k key) as [->|Hk]; simpl.
    + destruct (String.eqb_spec key key'); [congruence | reflexivity].
    + destruct (String.eqb_spec k key'); [reflexivity | exact IH].
Qed.

(** The wrapper of [call_counter] refuses the call or runs the method on
    the instance with the call counted. *)
Lemma call_counter_unfold {S R} (method : Counted S -> R * Counted S) (name : string)
  (self : Counted S) :
  call_counter method name self
  = if admits name self
    then let (r, self') := method (tally name self) in (Ran r, self')
    else (RaisedRecursionError, tally name self).
Proof.
  unfold admits, tally, exempt, call_counter.
  destruct (match disable_call_counter self with
            | Some names => existsb (String.eqb name) names
            | None => false
            end) eqn:Hexempt; [reflexivity|].
  cbn [orb].
  set (counts0 := match call_count self with Some d => d | None => [] end).
  set (counts1 := match lookup name counts0 with
                  | Some _ => counts0
                  | None => update name 0 counts0
                  end).
  set (count := match lookup name counts1 with Some c => c + 1 | None => 1 end).
  assert (Hcount : count = counted name self + 1).
  { unfold count, counts1, counted. fold counts0.
    replace (match call_count self with
             | Some d => match lookup name d with Some c => c | None => 0 end
             | None => 0
             end)
      with (match lookup name counts0 with Some c => c | None => 0 end)
      by (unfold counts0; destruct (call_count self); reflexivity).
    destruct (lookup name counts0) as [c|] eqn:E.
    - now rewrite E.
    - now rewrite lookup_update_same. }
  cbv zeta. rewrite level_is_50.
  destruct (Z.ltb_spec 1000 count), (Z.ltb_spec (counted name self) 1000);
    try lia; reflexivity.
Qed.

Lemma tally_keeps_attributes {S} (name : string) (self : Counted S) :
  others (tally name self) = others self
  /\ disable_call_counter (tally name self) = disable_call_counter self.
Proof.
  unfold tally, call_counter.
  destruct (match disable_call_counter self with
            | Some names => existsb (String.eqb name) names
            | None => false
            end); [split; reflexivity|].
  cbv zeta. destruct (_ =? 50); split; reflexivity.
Qed.

Lemma tally_counts {S} (name : string) (self : Counted S) :
  exempt name self = false ->
  counted name (tally name self) = counted name self + 1.
Proof.
  intros Hexempt. unfold exempt in Hexempt.
  unfold tally, call_counter. rewrite Hexempt.
  set (counts0 := match call_count self with Some d => d | None => [] end).
  set (counts1 := match lookup name counts0 with
                  | Some _ => counts0
                  | None => update name 0 counts0
                  end).
  set (count := match lookup name counts1 with Some c => c + 1 | None => 1 end).
  assert (Hcount : count = counted name self + 1).
  { unfold count, counts1, counted. fold counts0.
    replace (match call_count self with
             | Some d => match lookup name d with Some c => c | None => 0 end
             | None => 0
             end)
      with (match lookup name counts0 with Some c => c | None => 0 end)
      by (unfold counts0; destruct (call_count self); reflexivity).
    destruct (lookup name counts0) as [c|] eqn:E.
    - now rewrite E.
    - now rewrite lookup_update_same. }
  cbv zeta.
  destruct (_ =? 50); cbn [snd]; unfold counted; cbn [call_count];
    now rewrite lookup_update_same.
Qed.

Lemma tally_exempt {S} (name name' : string) (self : Counted S) :
  exempt name' (tally name self) = exempt name' self.
Proof.
  unfold exempt. now rewrite (proj2 (tally_keeps_attributes name self)).
Qed.

(** A call of one name leaves the counts of the other names. *)
Lemma tally_other {S} (name name' : string) (self : Counted S) :
  name' <> name -> counted name' (tally name self) = counted name' self.
Proof.
  intros Hne. unfold tally, call_counter.
  destruct (match disable_call_counter self with
            | Some names => existsb (String.eqb name) names
            | None => false
            end); [reflexivity|].
  set (counts0 := match call_count self with Some d => d | None => [] end).
  assert (Hcounted : counted name' self
                     = match lookup name' counts0 with Some c => c | None => 0 end).
  { unfold counted, counts0. destruct (call_count self); reflexivity. }
  rewrite Hcounted. cbv zeta.
  destruct (_ =? 50); cbn [snd]; unfold counted; cbn [call_count];
    rewrite lookup_update_other by exact Hne;
    (destruct (lookup name counts0);
     [reflexivity | now rewrite lookup_update_other by exact Hne]).
Qed.

Lemma with_others_exempt {S} (name : string) (self : Counted S) (s : S) :
  exempt name (with_others self s) = exempt name self.
Proof. reflexivity. Qed.

Lemma with_others_counted {S} (name : string) (self : Counted S) (s : S) :
  counted name (with_others self s) = counted name self.
Proof. reflexivity. Qed.

(** The decorated method: refused with [RecursionError], or run under
    [log_return_value] with the call counted. *)
Lemma class_decorator_unfold {S A} (unsliceable : A -> bool) (name : string)
  (method : Counted S -> Result A * Counted S) (self : Counted S) :
  class_decorator unsliceable name method self
  = if admits name self
    then log_return_value unsliceable method (tally name self)
    else (Raise RecursionError, tally name self).
Proof.
  unfold class_decorator. rewrite call_counter_unfold.
  destruct (admits name self); [|reflexivity].
  now destruct (log_return_value unsliceable method (tally name self)).
Qed.

(** A method whose values can all be sliced. *)
Lemma log_return_value_sliceable {S A} (method : S -> Result A * S) (self : S) :
  log_return_value (fun _ : A => false) method self = method self.
Proof.
  unfold log_return_value. now destruct (method self) as [[a|e] self'].
Qed.

(** [cache] answers from its store. *)
Lemma cache_hit {V St A K} (truthy : K -> bool)
  (method : A -> list (string * K) -> St -> Result V * St) (name : string)
  (args : A) (kwargs : list (string * K)) (self : Cached V St) (v : V) :
  bypasses truthy kwargs = false ->
  fresh name self = Some v ->
  exists self',
    cache truthy method name args kwargs self = (Ok v, self')
    /\ attrs self' = attrs self
    /\ cached name self' = cached name self.
Proof.
  unfold bypasses, fresh, cached, cache. intros -> Hfresh.
  destruct (cache_attr self) as [entries|]; [|discriminate].
  destruct (lookup name entries) as [[v0 t]|] eqn:Hentry; [|discriminate].
  cbn [time].
  destruct (float_gt _ 60); [discriminate|].
  injection Hfresh as <-.
  eexists; split; [reflexivity|]. split; [reflexivity | exact Hentry].
Qed.

(** [cache] runs the method, and stores what it returns. *)
Lemma cache_miss {V St A K} (truthy : K -> bool)
  (method : A -> list (string * K) -> St -> Result V * St) (name : string)
  (args : A) (kwargs : list (string * K)) (self : Cached V St) :
  bypasses truthy kwargs = false ->
  fresh name self = None ->
  exists self',
    cache truthy method name args kwargs self
    = (fst (method args (remove "DISABLE_CACHE" kwargs) (attrs self)), self')
    /\ attrs self' = snd (method args (remove "DISABLE_CACHE" kwargs) (attrs self))
    /\ forall v, fst (method args (remove "DISABLE_CACHE" kwargs) (attrs self)) = Ok v ->
                 exists t, cached name self' = Some (v, t).
Proof.
  unfold bypasses, fresh, cached, cache. intros -> Hfresh.
  set (entries := match cache_attr self with Some d => d | None => [] end).
  assert (Hfill : forall c,
    exists self',
      fill method name args (remove "DISABLE_CACHE" kwargs) entries c (attrs self)
      = (fst (method args (remove "DISABLE_CACHE" kwargs) (attrs self)), self')
      /\ attrs self' = snd (method args (remove "DISABLE_CACHE" kwargs) (attrs self))
      /\ forall v, fst (method args (remove "DISABLE_CACHE" kwargs) (attrs self)) = Ok v ->
                   exists t, match cache_attr self' with
                             | Some d => lookup name d
                             | None => None
                             end = Some (v, t)).
  { intros c. unfold fill.
    destruct (method args (remove "DISABLE_CACHE" kwargs) (attrs self)) as [[v|e] s'].
    - cbn [time fst snd]. eexists; split; [reflexivity|]. split; [reflexivity|].
      intros v' [= <-]. eexists. cbn [cache_attr]. apply lookup_update_same.
    - cbn [fst snd]. eexists; split; [reflexivity|]. split; [reflexivity|].
      intros v' [=]. }
  destruct (lookup name entries) as [[v0 t]|] eqn:Hentry.
  - cbn [time].
    assert (Hstale : float_gt (times (clock self) (readings (clock self)) - t)%Q 60 = true).
    { unfold entries in Hentry. destruct (cache_attr self); [|discriminate].
      rewrite Hentry in Hfresh. destruct (float_gt _ 60); [reflexivity|discriminate]. }
    rewrite Hstale. apply Hfill.
  - apply Hfill.
Qed.

(** With [DISABLE_CACHE] the method runs and the store is left alone. *)
Lemma cache_bypassed {V St A K} (truthy : K -> bool)
  (method : A -> list (string * K) -> St -> Result V * St) (name : string)
  (args : A) (kwargs : list (string * K)) (self : Cached V St) :
  bypasses truthy kwargs = true ->
  cache truthy method name args kwargs self
  = (fst (method args (remove "DISABLE_CACHE" kwargs) (attrs self)),
     mkCached (cache_attr self) (clock self)
       (snd (method args (remove "DISABLE_CACHE" kwargs) (attrs self)))).
Proof.
  unfold bypasses, cache. intros ->.
  now destruct (method args (remove "DISABLE_CACHE" kwargs) (attrs self)).
Qed.

End Class_decorator_facts.

(* ================================================================== *)
(** * File.get_random_sample as the class holds it                     *)
(* ================================================================== *)

Section Running_sample_facts.
Import FileClass Decorators DecoratorNotions ClassDecorator Running RunningInputs Notions.
Local Open Scope Z_scope.

Lemma fresh_is_cached {V St} (name : string) (self : Cached V St) (v : V) :
  fresh name self = Some v -> exists t, cached name self = Some (v, t).
Proof.
  unfold fresh. destruct (cached name self) as [[v0 t]|]; [|discriminate].
  destruct (float_gt _ 60); [discriminate|].
  intros [= <-]. now exists t.
Qed.

(** An admitted call is the call of the method under [@cache], on the
    object with the call counted. *)
Lemma get_random_sample_admitted (f : File) (n : Z) (kwargs : list (string * bool))
  (self : FileObject) :
  admits "get_random_sample" self = true ->
  Running.get_random_sample f n kwargs self
  = match cache (fun b : bool => b) (sample_body f) "get_random_sample" n kwargs
            (others self) with
    | (r, cached') => (r, with_others (tally "get_random_sample" self) cached')
    end.
Proof.
  intros Hadmits. unfold Running.get_random_sample.
  rewrite class_decorator_unfold, Hadmits, log_return_value_sliceable.
  now rewrite (proj1 (tally_keeps_attributes "get_random_sample" self)).
Qed.

(** A call without keyword arguments: the sample comes from the cache
    and nothing is read, or the body runs. *)
Lemma decorated_sample_run (f : File) (n : Z) (self : FileObject) :
  admits "get_random_sample" self = true ->
  exists (sample : bytes) (cached' : Cached bytes Random),
    Running.get_random_sample f n [] self
    = (Ok sample, with_others (tally "get_random_sample" self) cached')
    /\ match fresh "get_random_sample" (others self) with
       | Some v => sample = v /\ attrs cached' = attrs (others self)
       | None =>
           FileClass.get_random_sample f n (attrs (others self)) = (Ok sample, attrs cached')
       end.
Proof.
  intros Hadmits. rewrite (@get_random_sample_admitted f n [] self Hadmits).
  destruct (fresh "get_random_sample" (others self)) as [v|] eqn:Hfresh.
  - destruct (@cache_hit bytes Random Z bool (fun b => b) (sample_body f)
                "get_random_sample" n [] (others self) v eq_refl Hfresh)
      as (cached' & -> & Hattrs & _).
    now exists v, cached'.
  - destruct (@cache_miss bytes Random Z bool (fun b => b) (sample_body f)
                "get_random_sample" n [] (others self) eq_refl Hfresh)
      as (cached' & -> & Hattrs & _).
    cbn [remove filter sample_body] in Hattrs |- *.
    destruct (get_random_sample_run f n (attrs (others self))) as (sample & g' & Hrun & _).
    rewrite Hrun in Hattrs |- *. cbn [fst snd] in Hattrs |- *.
    exists sample, cached'. split; [reflexivity|]. now rewrite Hattrs.
Qed.




(** X7: an admitted call [get_random_sample(n)] draws random numbers
    only when its body runs.  Answered from the cache, it draws none;
    otherwise, for every [n], negative ones too, the sample holds exactly
    4096 bytes for each whole chunk that fits into the smaller of [n] and
    the size of the file, and one number is drawn for each chunk. *)
Theorem sample_length_and_draws (f : File) (n : Z) (self : FileObject) :
  admits "get_random_sample" self = true ->
  let chunk_count := Z.max 0 (Z.min n (Z.of_nat (List.length (content f))) / 4096) in
  exists (sample : bytes) (self' : FileObject),
    Running.get_random_sample f n [] self = (Ok sample, self')
    /\ draws (attrs (others self')) = draws (attrs (others self))
    /\ match fresh "get_random_sample" (others self) with
       | Some v =>
           sample = v
           /\ consumed (attrs (others self')) = consumed (attrs (others self))
       | None =>
           Z.of_nat (List.length sample) = 4096 * chunk_count
           /\ Z.of_nat (consumed (attrs (others self')))
              = Z.of_nat (consumed (attrs (others self))) + chunk_count
       end.
Proof.
  intros Hadmits; cbv zeta.
  destruct (@decorated_sample_run f n self Hadmits) as (sample & cached' & Hcall & Hsample).
  exists sample, (with_others (tally "get_random_sample" self) cached').
  split; [exact Hcall|]. cbn [with_others others].
  destruct (fresh "get_random_sample" (others self)) as [v|].
  - destruct Hsample as [-> ->]. repeat split.
  - destruct (get_random_sample_run f n (attrs (others self)))
      as (sample' & g' & Hrun & Hlen & Hconsumed & Hdraws).
    rewrite Hrun in Hsample. injection Hsample as <- <-.
    repeat split; assumption.
Qed.

Lemma sample_length_and_draws_witness :
  exists (sample : bytes) (self' : FileObject),
    Running.get_random_sample Samples.file_of_4097_bytes 16184 [] new_file_object
    = (Ok sample, self')
    /\ draws (attrs (others self')) = draws (attrs (others new_file_object))
    /\ match fresh "get_random_sample" (others new_file_object) with
       | Some v =>
           sample = v
           /\ consumed (attrs (others self')) = consumed (attrs (others new_file_object))
       | None =>
           Z.of_nat (List.length sample)
           = 4096 * Z.max 0 (Z.min 16184
                               (Z.of_nat (List.length (content Samples.file_of_4097_bytes)))
                             / 4096)
           /\ Z.of_nat (consumed (attrs (others self')))
              = Z.of_nat (consumed (attrs (others new_file_object)))
                + Z.max 0 (Z.min 16184
                             (Z.of_nat (List.length (content Samples.file_of_4097_bytes)))
                           / 4096)
       end.
Proof.
  apply (@sample_length_and_draws Samples.file_of_4097_bytes 16184 new_file_object).
  reflexivity.
Defined.

(** X8: on a file of fewer than 4096 bytes every admitted call of
    [get_random_sample], whatever size it asks for and with or without
    [DISABLE_CACHE], returns the empty sample and draws no random number,
    as long as the cache of the [File] object holds no sample or an empty
    one; and the call leaves the cache in this state. *)
Theorem small_file_samples_are_empty (f : File) (n : Z) (kwargs : list (string * bool))
  (self : FileObject) :
  Z.of_nat (List.length (content f)) < 4096 ->
  remove "DISABLE_CACHE" kwargs = [] ->
  caches_no_byte self ->
  admits "get_random_sample" self = true ->
  exists self' : FileObject,
    Running.get_random_sample f n kwargs self = (Ok [], self')
    /\ caches_no_byte self'
    /\ attrs (others self') = attrs (others self).
Proof.
  intros Hsmall Hkwargs Hcache Hadmits.
  rewrite (@get_random_sample_admitted f n kwargs self Hadmits).
  assert (Hbody : sample_body f n (remove "DISABLE_CACHE" kwargs) (attrs (others self))
                  = (Ok [], attrs (others self))).
  { rewrite Hkwargs. cbn [sample_body]. apply small_sample_is_empty. now right. }
  unfold caches_no_byte in *.
  destruct (bypasses (fun b : bool => b) kwargs) eqn:Hbypass.
  - rewrite (@cache_bypassed bytes Random Z bool (fun b => b) (sample_body f)
               "get_random_sample" n kwargs (others self) Hbypass), Hbody.
    cbn [fst snd]. eexists; split; [reflexivity|].
    split; [exact Hcache | reflexivity].
  - destruct (fresh "get_random_sample" (others self)) as [v|] eqn:Hfresh.
    + destruct (@cache_hit bytes Random Z bool (fun b => b) (sample_body f)
                  "get_random_sample" n kwargs (others self) v Hbypass Hfresh)
        as (cached' & -> & Hattrs & Hcached).
      destruct (fresh_is_cached _ _ Hfresh) as [t Ht].
      rewrite Ht in Hcache. subst v.
      eexists; split; [reflexivity|]. cbn [with_others others].
      split; [now rewrite Hcached, Ht | exact Hattrs].
    + destruct (@cache_miss bytes Random Z bool (fun b => b) (sample_body f)
                  "get_random_sample" n kwargs (others self) Hbypass Hfresh)
        as (cached' & -> & Hattrs & Hcached).
      rewrite Hbody in Hattrs, Hcached |- *. cbn [fst snd] in Hattrs, Hcached |- *.
      destruct (Hcached [] eq_refl) as [t Ht].
      eexists; split; [reflexivity|]. cbn [with_others others].
      split; [now rewrite Ht | exact Hattrs].
Qed.

Lemma small_file_samples_are_empty_witness :
  exists self' : FileObject,
    Running.get_random_sample Inputs.four_line_csv 16184 [] new_file_object = (Ok [], self')
    /\ caches_no_byte self'
    /\ attrs (others self') = attrs (others new_file_object).
Proof.
  apply (@small_file_samples_are_empty Inputs.four_line_csv 16184 [] new_file_object).
  - vm_compute; reflexivity.
  - reflexivity.
  - exact I.
  - reflexivity.
Defined.

End Running_sample_facts.

(* ================================================================== *)
(** * FileSniffer.infer_encoding as the class holds it                 *)
(* ================================================================== *)

Section Running_encoding_facts.
Import FileClass Decorators DecoratorNotions ClassDecorator Running RunningInputs.
Local Open Scope Z_scope.

Variable decode : string -> bytes -> Decoding.
Variable detect : bytes -> option string.

(** A round whose guess is turned down asks the [File] object for a
    sample. *)
Lemma attempt_resamples (i : nat) (self : Sniffer) :
  turned_down decode detect (FileSniffer.sample (attributes (others self))) ->
  attempt decode detect i self
  = match call_get_random_sample
            (FileSniffer.BYTES_TO_ANALYZE (attributes (others self)) * Z.of_nat i) self with
    | (Ok s, self') =>
        (Ok (inr tt), with_attributes self' (with_sample (attributes (others self')) s))
    | (Raise e, self') => (Raise e, self')
    end.
Proof.
  intros (candidates & Hcandidates & Hguess). unfold attempt. rewrite Hcandidates.
  destruct (Encoding.get (detect (FileSniffer.sample (attributes (others self)))));
    [now rewrite Hguess | reflexivity].
Qed.

(** What such a round leaves: the sample that the [File] object has
    answered with, and the [File] object with one more call counted. *)
Lemma attempt_turned_down_run (i : nat) (self : Sniffer) :
  turned_down decode detect (FileSniffer.sample (attributes (others self))) ->
  admits "get_random_sample" (file_object (others self)) = true ->
  exists (s : bytes) (cached' : Cached bytes Random),
    attempt decode detect i self
    = (Ok (inr tt),
       with_others self
         (mkState (with_sample (attributes (others self)) s)
            (with_others (tally "get_random_sample" (file_object (others self))) cached')))
    /\ match fresh "get_random_sample" (others (file_object (others self))) with
       | Some v => s = v /\ attrs cached' = attrs (others (file_object (others self)))
       | None =>
           FileClass.get_random_sample
             (FileSniffer.delimited_file (attributes (others self)))
             (FileSniffer.BYTES_TO_ANALYZE (attributes (others self)) * Z.of_nat i)
             (attrs (others (file_object (others self))))
           = (Ok s, attrs cached')
       end.
Proof.
  intros Hdown Hadmits. rewrite (attempt_resamples i self Hdown).
  unfold call_get_random_sample.
  destruct (@decorated_sample_run
              (FileSniffer.delimited_file (attributes (others self)))
              (FileSniffer.BYTES_TO_ANALYZE (attributes (others self)) * Z.of_nat i)
              (file_object (others self)) Hadmits)
    as (s & cached' & -> & Hs).
  exists s, cached'. split; [reflexivity | exact Hs].
Qed.

(** C5 (the failing input): a first round, whose index is 0, that does
    not return.  When the cache of the [File] object holds a sample
    stored at most 60 seconds ago, as it does when the sniffer has just
    been built, the round puts this cached sample in the place of the
    sample; otherwise the body runs for [BYTES_TO_ANALYZE * 0] bytes and
    the round puts the empty sample there.  No random number is drawn:
    no byte of the file is read, and the new sample is not a fresh and
    larger one. *)
Theorem first_retry_reads_nothing (self : Sniffer) :
  turned_down decode detect (FileSniffer.sample (attributes (others self))) ->
  admits "get_random_sample" (file_object (others self)) = true ->
  exists self' : Sniffer,
    attempt decode detect 0 self = (Ok (inr tt), self')
    /\ FileSniffer.sample (attributes (others self'))
       = match fresh "get_random_sample" (others (file_object (others self))) with
         | Some cached_sample => cached_sample
         | None => []
         end
    /\ consumed (attrs (others (file_object (others self'))))
       = consumed (attrs (others (file_object (others self)))).
Proof.
  intros Hdown Hadmits.
  destruct (attempt_turned_down_run 0 self Hdown Hadmits) as (s & cached' & -> & Hs).
  eexists; split; [reflexivity|].
  cbn [with_others others attributes file_object with_sample FileSniffer.sample].
  destruct (fresh "get_random_sample" (others (file_object (others self)))) as [v|].
  - destruct Hs as [-> ->]. split; reflexivity.
  - rewrite Z.mul_0_r, get_random_sample_zero in Hs.
    injection Hs as <- <-. split; reflexivity.
Qed.

(** An unknown codec ends the search for candidates. *)
Lemma candidates_loop_unknown (s : bytes) (members : list Encoding.t) :
  forall candidates : list Encoding.t,
  (exists encoding, In encoding members
                    /\ decode (Encoding.value encoding) s = RaisedLookupError) ->
  candidates_loop decode members s candidates = Raise LookupError.
Proof.
  induction members as [|m members IH]; intros candidates (encoding & Hin & Hunknown).
  - destruct Hin.
  - cbn [candidates_loop].
    destruct Hin as [->|Hin]; [now rewrite Hunknown|].
    destruct (decode (Encoding.value m) s); [| |reflexivity];
      apply IH; now exists encoding.
Qed.

(** Rounds whose guesses are all turned down end in
    [EncodingException], if the [File] object admits their calls. *)
Lemma infer_encoding_loop_turned_down (idx : list nat) :
  (forall s, turned_down decode detect s) ->
  forall self : Sniffer,
  exempt "get_random_sample" (file_object (others self)) = true
  \/ counted "get_random_sample" (file_object (others self))
     + Z.of_nat (List.length idx) <= 1000 ->
  fst (infer_encoding_loop decode detect idx self) = Raise EncodingException.
Proof.
  intros Hdown.
  induction idx as [|i idx IH]; intros self Hcalls; [reflexivity|].
  cbn [infer_encoding_loop].
  assert (Hadmits : admits "get_random_sample" (file_object (others self)) = true).
  { unfold admits. destruct Hcalls as [->|Hcalls]; [reflexivity|].
    apply orb_true_iff; right. apply Z.ltb_lt.
    cbn [List.length] in Hcalls. lia. }
  destruct (attempt_turned_down_run i self (Hdown _) Hadmits) as (s & cached' & -> & _).
  apply IH. cbn [with_others others file_object].
  rewrite with_others_exempt, with_others_counted.
  rewrite tally_exempt.
  destruct (exempt "get_random_sample" (file_object (others self))) eqn:Hexempt;
    [now left | right].
  rewrite tally_counts by exact Hexempt.
  destruct Hcalls as [Hcalls|Hcalls]; [discriminate|].
  cbn [List.length] in Hcalls. lia.
Qed.

(** X14: [infer_encoding], admitted by the call counter of the sniffer,
    raises [LookupError] in its first round when the interpreter does not
    know the codec of some member of [Encoding] for the sample, as it is
    with [ansi] outside of Windows on every sample that is not empty.
    When every codec is known and the guess of the detector is turned
    down on every sample, it raises [EncodingException], provided that
    the call counter of the [File] object admits the five calls of
    [get_random_sample]. *)
Theorem infer_encoding_raises (self : Sniffer) :
  admits "infer_encoding" self = true ->
  ((exists encoding,
       In encoding Encoding.members
       /\ decode (Encoding.value encoding) (FileSniffer.sample (attributes (others self)))
          = RaisedLookupError) ->
   fst (infer_encoding decode detect self) = Raise LookupError)
  /\ ((forall s, turned_down decode detect s) ->
      exempt "get_random_sample" (file_object (others self)) = true
      \/ counted "get_random_sample" (file_object (others self)) + 5 <= 1000 ->
      fst (infer_encoding decode detect self) = Raise EncodingException).
Proof.
  intros Hadmits. unfold infer_encoding.
  rewrite class_decorator_unfold, Hadmits, log_return_value_sliceable.
  pose proof (tally_keeps_attributes "infer_encoding" self) as [Hothers _].
  split.
  - intros Hunknown. cbn [range seq infer_encoding_loop]. unfold attempt.
    rewrite Hothers, (@candidates_loop_unknown _ Encoding.members [] Hunknown). reflexivity.
  - intros Hdown Hcalls.
    apply infer_encoding_loop_turned_down; [exact Hdown|].
    rewrite Hothers. exact Hcalls.
Qed.

(** A round returns only what the detector names, and only if it is
    among the candidates of the sample of this round. *)
Lemma attempt_returns_a_candidate (i : nat) (self self' : Sniffer) (e : Encoding.t) :
  attempt decode detect i self = (Ok (inl e), self') ->
  self' = self
  /\ exists candidates,
       candidates_loop decode Encoding.members
         (FileSniffer.sample (attributes (others self))) [] = Ok candidates
       /\ Encoding.get (detect (FileSniffer.sample (attributes (others self)))) = Some e
       /\ FileSniffer.member_of e candidates = true.
Proof.
  unfold attempt.
  destruct (candidates_loop decode Encoding.members
              (FileSniffer.sample (attributes (others self))) [])
    as [candidates|ex] eqn:Hcandidates; [|intros [=]].
  destruct (Encoding.get (detect (FileSniffer.sample (attributes (others self)))))
    as [e'|] eqn:Hget.
  - destruct (FileSniffer.member_of e' candidates) eqn:Hin.
    + intros [= <- <-]. split; [reflexivity|].
      exists candidates. repeat split; first [assumption | reflexivity].
    + destruct (call_get_random_sample _ self) as [[s|ex] self1]; intros [=].
  - destruct (call_get_random_sample _ self) as [[s|ex] self1]; intros [=].
Qed.

Lemma infer_encoding_loop_returns_a_candidate (idx : list nat) :
  forall (self self' : Sniffer) (e : Encoding.t),
  infer_encoding_loop decode detect idx self = (Ok e, self') ->
  exists candidates,
    candidates_loop decode Encoding.members
      (FileSniffer.sample (attributes (others self'))) [] = Ok candidates
    /\ Encoding.get (detect (FileSniffer.sample (attributes (others self')))) = Some e
    /\ FileSniffer.member_of e candidates = true.
Proof.
  induction idx as [|i idx IH]; intros self self' e; cbn [infer_encoding_loop].
  - intros [=].
  - destruct (attempt decode detect i self) as [[[e1|[]]|ex] self1] eqn:Hattempt.
    + intros [= <- <-].
      apply attempt_returns_a_candidate in Hattempt as (-> & H). exact H.
    + apply IH.
    + intros [=].
Qed.

(** The decorated method runs at most five rounds, and what it returns
    is named by the detector and decodes the sample of the round that
    returned. *)
Lemma infer_encoding_returns_a_candidate (self self' : Sniffer) (e : Encoding.t) :
  infer_encoding decode detect self = (Ok e, self') ->
  List.length (range 5) = 5%nat
  /\ exists candidates,
       candidates_loop decode Encoding.members
         (FileSniffer.sample (attributes (others self'))) [] = Ok candidates
       /\ Encoding.get (detect (FileSniffer.sample (attributes (others self')))) = Some e
       /\ FileSniffer.member_of e candidates = true.
Proof.
  unfold infer_encoding. rewrite class_decorator_unfold.
  destruct (admits "infer_encoding" self); [|intros [=]].
  rewrite log_return_value_sliceable. intros Hloop.
  split; [reflexivity|].
  exact (infer_encoding_loop_returns_a_candidate _ _ Hloop).
Qed.

End Running_encoding_facts.

Section Running_encoding_witnesses.
Import FileClass Decorators DecoratorNotions ClassDecorator Running RunningInputs.
Local Open Scope Z_scope.

(** The sniffer of the witnesses is the one that [__init__] builds. *)
Lemma init_builds_new_sniffer :
  init Samples.file_of_4097_bytes None new_file_object = (Ok new_sniffer, sampled_file_object).
Proof. vm_compute. reflexivity. Qed.

Lemma first_retry_reads_nothing_witness :
  exists self' : Sniffer,
    attempt decode_all Inputs.detect_nothing 0 new_sniffer = (Ok (inr tt), self')
    /\ FileSniffer.sample (attributes (others self'))
       = match fresh "get_random_sample" (others (file_object (others new_sniffer))) with
         | Some cached_sample => cached_sample
         | None => []
         end
    /\ consumed (attrs (others (file_object (others self'))))
       = consumed (attrs (others (file_object (others new_sniffer)))).
Proof.
  apply (@first_retry_reads_nothing decode_all Inputs.detect_nothing new_sniffer).
  - eexists; split; [vm_compute; reflexivity | exact I].
  - reflexivity.
Defined.

Lemma infer_encoding_raises_witness :
  fst (infer_encoding decode_without_ansi Inputs.detect_ascii new_sniffer)
  = Raise LookupError.
Proof.
  apply (proj1 (@infer_encoding_raises decode_without_ansi Inputs.detect_ascii
                  new_sniffer eq_refl)).
  exists Encoding.ANSI. split; [vm_compute; tauto | reflexivity].
Defined.

End Running_encoding_witnesses.

(* ================================================================== *)
(** * The getter of lineterminator as the class holds it               *)
(* ================================================================== *)

Section Running_getter_facts.
Import FileClass Decorators DecoratorNotions ClassDecorator Getters Running RunningInputs.
Local Open Scope Z_scope.

(** X18: the getter of lineterminator tests the attribute
    [_line_terminator], which no setter writes.  While it is unset, a
    read that the call counter admits runs [infer_line_terminator] again,
    returns its result and overwrites [_lineterminator] with it, so that
    an explicitly assigned line terminator is lost at the first read; and
    a read that the counter does not admit, as the 1001st is, raises
    [RecursionError] and leaves the attributes as they are. *)
Theorem lineterminator_getter_overwrites (self : Sniffer) :
  FileSniffer._line_terminator (attributes (others self)) = None ->
  let inferred :=
    FileSniffer.PyLineTerminator
      (FileSniffer.infer_line_terminator (FileSniffer.sample (attributes (others self)))) in
  (admits "infer_line_terminator" self = true ->
   exists self' : Sniffer,
     get_lineterminator self = (Returned inferred, self')
     /\ FileSniffer._lineterminator (attributes (others self')) = Some inferred
     /\ FileSniffer._line_terminator (attributes (others self')) = None
     /\ FileSniffer.sample (attributes (others self'))
        = FileSniffer.sample (attributes (others self))
     /\ (exempt "infer_line_terminator" self = false ->
         counted "infer_line_terminator" self'
         = counted "infer_line_terminator" self + 1))
  /\ (admits "infer_line_terminator" self = false ->
      exists self' : Sniffer,
        get_lineterminator self = (Raised RecursionError, self')
        /\ attributes (others self') = attributes (others self)).
Proof.
  intros Hguard; cbv zeta.
  unfold get_lineterminator, Running.infer_line_terminator. rewrite Hguard.
  rewrite class_decorator_unfold.
  pose proof (tally_keeps_attributes "infer_line_terminator" self) as [Hothers _].
  split; intros Hadmits; rewrite Hadmits.
  - rewrite log_return_value_sliceable, Hothers.
    unfold Running.assign. rewrite assign_valid by reflexivity.
    cbn [FileSniffer.store FileSniffer.self with_attributes with_others others
         attributes FileSniffer._lineterminator].
    eexists; split; [reflexivity|].
    cbn [others attributes FileSniffer._lineterminator FileSniffer._line_terminator
         FileSniffer.sample].
    rewrite Hothers.
    repeat split; try assumption.
    intros Hexempt. now apply tally_counts.
  - eexists; split; [reflexivity|]. now rewrite Hothers.
Qed.

Lemma lineterminator_getter_overwrites_witness :
  FileSniffer._lineterminator (attributes (others cr_sniffer))
  = Some (FileSniffer.PyLineTerminator LineTerminator.CR)
  /\ fst (get_lineterminator cr_sniffer)
     = Returned (FileSniffer.PyLineTerminator LineTerminator.CRLF)
  /\ fst (get_lineterminator worn_sniffer) = Raised RecursionError.
Proof.
  split; [reflexivity|]. split.
  - destruct (proj1 (@lineterminator_getter_overwrites cr_sniffer eq_refl) eq_refl)
      as (self' & Hget & _).
    rewrite Hget. reflexivity.
  - destruct (proj2 (@lineterminator_getter_overwrites worn_sniffer eq_refl) eq_refl)
      as (self' & Hget & _).
    rewrite Hget. reflexivity.
Defined.

End Running_getter_facts.

(* ================================================================== *)
(** * Further properties: backup and restore                           *)
(* ================================================================== *)

Section Backup_facts.
Import Getters Decorators DecoratorNotions ClassDecorator Backup.

Lemma skipn_firstn_length {A} (n : nat) (l : list A) :
  skipn (List.length (firstn n l)) l = skipn n l.
Proof.
  rewrite length_firstn.
  destruct (Nat.le_ge_cases n (List.length l)) as [H|H].
  - now rewrite Nat.min_l.
  - rewrite Nat.min_r by exact H.
    now rewrite skipn_all, (skipn_all2 l H).
Qed.

Lemma write_same (disk : Disk) (path : string) (data : bytes) :
  write disk path data path = Some data.
Proof. unfold write; now rewrite String.eqb_refl. Qed.

Lemma write_other (disk : Disk) (path q : string) (data : bytes) :
  q <> path -> write disk path data q = disk q.
Proof.
  intros H; unfold write.
  destruct (String.eqb_spec q path); [contradiction | reflexivity].
Qed.

(** The loop appends to the target what the source holds from the
    position on, in rounds of at most 4096 bytes, and ends. *)
Lemma copy_loop_copies (source target : string) (data : bytes) (fuel : nat) :
  source <> target ->
  forall (disk : Disk) (position : nat) (written : bytes),
  disk source = Some data ->
  disk target = Some written ->
  List.length data - position < fuel ->
  exists disk',
    copy_loop fuel disk source target position = Some disk'
    /\ disk' target = Some (written ++ skipn position data)
    /\ forall q, q <> target -> disk' q = disk q.
Proof.
  intros Hne.
  induction fuel as [|fuel IH]; intros disk position written Hs Ht Hfuel; [lia|].
  cbn [copy_loop]. unfold content_of. rewrite Hs, Ht.
  destruct (firstn 4096 (skipn position data)) as [|c chunk] eqn:Hchunk.
  - exists disk. split; [reflexivity|]. split; [|reflexivity].
    assert (Hrest : skipn position data = []).
    { destruct (skipn position data); [reflexivity | discriminate]. }
    now rewrite Hrest, app_nil_r.
  - assert (Hlen : List.length (skipn position data) > 0).
    { destruct (skipn position data); [discriminate | simpl; lia]. }
    rewrite length_skipn in Hlen.
    destruct (IH (write disk target (written ++ c :: chunk))
                (position + List.length (c :: chunk)) (written ++ c :: chunk))
      as (disk' & Hrun & Htarget & Hother).
    + rewrite write_other by exact Hne. exact Hs.
    + apply write_same.
    + simpl; lia.
    + exists disk'. split; [exact Hrun|]. split.
      * rewrite Htarget, <- app_assoc. do 2 f_equal.
        rewrite <- Hchunk, Nat.add_comm, <- skipn_skipn, skipn_firstn_length.
        apply firstn_skipn.
      * intros q Hq. rewrite (Hother q Hq). now apply write_other.
Qed.

Lemma copy_file_copies (disk : Disk) (source target : string) (data : bytes) :
  source <> target ->
  disk source = Some data ->
  exists disk',
    copy_file disk source target = Some (Ok tt, disk')
    /\ disk' target = Some data
    /\ forall q, q <> target -> disk' q = disk q.
Proof.
  intros Hne Hs. unfold copy_file. rewrite Hs.
  destruct (@copy_loop_copies source target data (S (List.length data)) Hne
              (write disk target []) 0 [])
    as (disk' & Hrun & Htarget & Hother).
  - rewrite write_other by exact Hne. exact Hs.
  - apply write_same.
  - lia.
  - rewrite Hrun. exists disk'. split; [reflexivity|]. split; [exact Htarget|].
    intros q Hq. rewrite (Hother q Hq). now apply write_other.
Qed.

Variable with_suffix : string -> string -> Result string.

Lemma decorated_unfold {A} (unsliceable : A -> bool) (name : string) (method : Method A)
  (self : Object) :
  decorated unsliceable name method self
  = if admits name self
    then match method (tally name self) with
         | Some (Ok return_value, self') =>
             if unsliceable return_value then Some (Raise TypeError, self')
             else Some (Ok return_value, self')
         | Some (Raise e, self') => Some (Raise e, self')
         | None => None
         end
    else Some (Raise RecursionError, tally name self).
Proof.
  unfold decorated. rewrite call_counter_unfold.
  destruct (admits name self); [|reflexivity].
  now destruct (method (tally name self)) as [[[r|e] self']|].
Qed.

(** A call of one name leaves the calls of the other names admitted. *)
Lemma admits_tally_other (name name' : string) (self : Object) :
  name' <> name -> admits name' (tally name self) = admits name' self.
Proof.
  intros Hne. unfold admits. now rewrite tally_exempt, tally_other.
Qed.

Lemma log_error_admitted (self : Object) :
  admits "log_error" self = true ->
  log_error self = Some (Ok tt, tally "log_error" self).
Proof.
  intros Hadmits. unfold log_error. now rewrite decorated_unfold, Hadmits.
Qed.

(** On a method that ends, [decorated] is [class_decorator]. *)
Lemma decorated_is_class_decorator {A} (unsliceable : A -> bool) (name : string)
  (method : Object -> Result A * Object) (self : Object) :
  decorated unsliceable name (fun self1 => Some (method self1)) self
  = Some (class_decorator unsliceable name method self).
Proof.
  rewrite decorated_unfold, class_decorator_unfold.
  destruct (admits name self); [|reflexivity].
  unfold log_return_value.
  destruct (method (tally name self)) as [[r|e] self']; [|reflexivity].
  now destruct (unsliceable r).
Qed.

(** What an admitted call of [backup_file] does on a file that exists. *)
Lemma backup_file_made (self : Object) (backup_path : string) (data : bytes) :
  with_suffix (_path (handle (others self))) ".bak" = Ok backup_path ->
  admits "backup_file" self = true ->
  disk (others self) (_path (handle (others self))) = Some data ->
  backup_path <> _path (handle (others self)) ->
  exists self' : Object,
    backup_file with_suffix self
    = Some (if 200 <? String.length backup_path
            then Raise TypeError else Ok backup_path, self')
    /\ disk (others self') backup_path = Some data
    /\ (forall q, q <> backup_path -> disk (others self') q = disk (others self) q)
    /\ handle (others self') = handle (others self).
Proof.
  intros Hsuffix Hadmits Hdata Hne.
  unfold backup_file. rewrite decorated_unfold, Hadmits. unfold backup_file_body.
  pose proof (tally_keeps_attributes "backup_file" self) as [Hothers _].
  rewrite Hothers, Hsuffix.
  destruct (@copy_file_copies (disk (others self)) (_path (handle (others self)))
              backup_path data) as (disk' & -> & Hcopy & Hother);
    [congruence | exact Hdata |].
  destruct (200 <? String.length backup_path);
    (eexists; split; [reflexivity|]);
    cbn [with_disk with_others others disk handle];
    (split; [exact Hcopy|]); (split; [exact Hother|]); now rewrite Hothers.
Qed.

(** X26: a call of [backup_file] that the call counter admits, on a
    file that exists and whose backup path is another path, ends and
    leaves under the backup path a copy of the whole content of the file,
    and changes no other file; it returns the backup path, unless the
    text of this path is longer than 200 characters: then the copy is
    made and [TypeError] is raised.  On a file that does not exist it
    creates nothing and raises [IOError], if the counter admits the call
    of [log_error]. *)
Theorem backup_file_copies (self : Object) (backup_path : string) :
  with_suffix (_path (handle (others self))) ".bak" = Ok backup_path ->
  admits "backup_file" self = true ->
  (forall data,
      disk (others self) (_path (handle (others self))) = Some data ->
      backup_path <> _path (handle (others self)) ->
      exists self' : Object,
        backup_file with_suffix self
        = Some (if 200 <? String.length backup_path
                then Raise TypeError else Ok backup_path, self')
        /\ disk (others self') backup_path = Some data
        /\ (forall q, q <> backup_path -> disk (others self') q = disk (others self) q)
        /\ handle (others self') = handle (others self))
  /\ (disk (others self) (_path (handle (others self))) = None ->
      admits "log_error" self = true ->
      exists self' : Object,
        backup_file with_suffix self = Some (Raise IOError, self')
        /\ disk (others self') = disk (others self)).
Proof.
  intros Hsuffix Hadmits. split.
  - intros data Hdata Hne. now apply backup_file_made.
  - intros Hmissing Hlog.
    unfold backup_file. rewrite decorated_unfold, Hadmits. unfold backup_file_body.
    pose proof (tally_keeps_attributes "backup_file" self) as [Hothers _].
    rewrite Hothers, Hsuffix. unfold copy_file. rewrite Hmissing.
    unfold handler. rewrite log_error_admitted.
    + eexists; split; [reflexivity|].
      rewrite (proj1 (tally_keeps_attributes "log_error" _)). reflexivity.
    + change (admits "log_error" (with_disk (tally "backup_file" self) (disk (others self))))
        with (admits "log_error" (tally "backup_file" self)).
      rewrite admits_tally_other by discriminate. exact Hlog.
Qed.

(** X27: a [with] block over a file that exists, whose backup path is
    another path, with the call of [backup_file] admitted by the call
    counter.  If the text of the backup path is longer than 200
    characters, [__enter__] raises [TypeError]: the copy is made, and no
    backup is recorded on the object.  Otherwise [__enter__] returns and
    records the backup; then, whatever the block does to the disk short
    of touching the backup, [__exit__] for a raised exception, if the
    counter admits its calls of [log_error] and [restore_backup], writes
    the content of entry back under the path, changes no other file and
    answers [False]; and [__exit__] for a block that has not raised
    removes the backup, changes no other file and answers [True]. *)
Theorem with_block_restores (self : Object) (backup_path : string) (data : bytes) :
  with_suffix (_path (handle (others self))) ".bak" = Ok backup_path ->
  backup_path <> _path (handle (others self)) ->
  disk (others self) (_path (handle (others self))) = Some data ->
  admits "backup_file" self = true ->
  (200 < String.length backup_path ->
   exists self1 : Object,
     enter with_suffix self = Some (Raise TypeError, self1)
     /\ disk (others self1) backup_path = Some data
     /\ handle (others self1) = handle (others self))
  /\ (String.length backup_path <= 200 ->
      exists self1 : Object,
        enter with_suffix self = Some (Ok tt, self1)
        /\ handle (others self1)
           = mkHandle (_path (handle (others self))) (Some backup_path)
        /\ forall self2 : Object,
             handle (others self2) = handle (others self1) ->
             disk (others self2) backup_path = Some data ->
             (admits "log_error" self2 = true ->
              admits "restore_backup" self2 = true ->
              exists self3 : Object,
                exit self2 true = Some (Returned false, self3)
                /\ disk (others self3) (_path (handle (others self))) = Some data
                /\ forall q, q <> _path (handle (others self)) ->
                             disk (others self3) q = disk (others self2) q)
             /\ (exists self3 : Object,
                    exit self2 false = Some (Returned true, self3)
                    /\ disk (others self3) backup_path = None
                    /\ forall q, q <> backup_path ->
                                 disk (others self3) q = disk (others self2) q)).
Proof.
  intros Hsuffix Hne Hdata Hadmits.
  destruct (@backup_file_made self backup_path data Hsuffix Hadmits Hdata Hne)
    as (self1 & Hbackup & Hcopy & Hother & Hhandle).
  unfold enter. rewrite Hbackup. split.
  - intros Hlong. apply Nat.ltb_lt in Hlong. rewrite Hlong.
    exists self1. split; [reflexivity|]. split; assumption.
  - intros Hshort. apply Nat.ltb_ge in Hshort. rewrite Hshort.
    eexists; split; [reflexivity|].
    cbn [with_others others handle disk]. rewrite Hhandle.
    split; [reflexivity|].
    intros self2 Hhandle2 Hkept. split.
    + intros Hlog Hrestore. unfold exit.
      rewrite log_error_admitted by exact Hlog.
      unfold restore_backup. rewrite decorated_unfold.
      rewrite admits_tally_other, Hrestore by discriminate.
      unfold restore_backup_body.
      rewrite (proj1 (tally_keeps_attributes "restore_backup" _)).
      rewrite (proj1 (tally_keeps_attributes "log_error" _)).
      rewrite Hhandle2. cbn [_backup _path].
      destruct (@copy_file_copies (disk (others self2)) backup_path
                  (_path (handle (others self))) data Hne Hkept)
        as (disk3 & -> & Hpath & Hother3).
      eexists; split; [reflexivity|].
      cbn [with_disk with_others others disk]. split; assumption.
    + unfold exit. rewrite Hhandle2. cbn [_backup].
      eexists; split; [reflexivity|].
      cbn [with_disk with_others others disk]. unfold unlink. split.
      * now rewrite String.eqb_refl.
      * intros q Hq. destruct (String.eqb_spec q backup_path); [contradiction | reflexivity].
Qed.

(** X28: when the backup path is the path of the file itself, as for a
    file whose suffix is [.bak] already, an admitted call of
    [backup_file] leaves the file empty: opening the target empties the
    source before the first chunk is read.  No exception tells of it: the
    call returns the path, or, for a path whose text is longer than 200
    characters, raises the [TypeError] of [log_return_value]. *)
Theorem backup_of_bak_file_empties_it (self : Object) (data : bytes) :
  with_suffix (_path (handle (others self))) ".bak" = Ok (_path (handle (others self))) ->
  disk (others self) (_path (handle (others self))) = Some data ->
  admits "backup_file" self = true ->
  exists self' : Object,
    backup_file with_suffix self
    = Some (if 200 <? String.length (_path (handle (others self)))
            then Raise TypeError else Ok (_path (handle (others self))), self')
    /\ disk (others self') (_path (handle (others self))) = Some []
    /\ (forall q, q <> _path (handle (others self)) ->
                  disk (others self') q = disk (others self) q)
    /\ handle (others self') = handle (others self).
Proof.
  intros Hsuffix Hdata Hadmits.
  unfold backup_file. rewrite decorated_unfold, Hadmits. unfold backup_file_body.
  pose proof (tally_keeps_attributes "backup_file" self) as [Hothers _].
  rewrite Hothers, Hsuffix. unfold copy_file. rewrite Hdata.
  cbn [copy_loop]. unfold content_of. rewrite write_same. cbn [skipn firstn].
  destruct (200 <? String.length (_path (handle (others self))));
    (eexists; split; [reflexivity|]);
    cbn [with_disk with_others others disk handle];
    (split; [apply write_same|]);
    (split; [intros q Hq; now apply write_other | now rewrite Hothers]).
Qed.

End Backup_facts.

Section Backup_witnesses.
Import Getters Decorators DecoratorNotions ClassDecorator Backup.

Lemma backup_file_copies_witness :
  exists self' : Object,
    backup_file swap_suffix report_object = Some (Ok "report.bak"%string, self')
    /\ disk (others self') "report.bak"%string = Some [x61; x2c; x62; x0a]
    /\ (forall q, q <> "report.bak"%string ->
                  disk (others self') q = disk (others report_object) q)
    /\ handle (others self') = handle (others report_object).
Proof.
  refine (proj1 (@backup_file_copies swap_suffix report_object "report.bak"
                   eq_refl eq_refl) [x61; x2c; x62; x0a] eq_refl _).
  discriminate.
Defined.

Lemma with_block_restores_witness :
  exists self1 : Object,
    enter swap_suffix report_object = Some (Ok tt, self1)
    /\ handle (others self1) = mkHandle "report.csv" (Some "report.bak"%string)
    /\ forall self2 : Object,
         handle (others self2) = handle (others self1) ->
         disk (others self2) "report.bak"%string = Some [x61; x2c; x62; x0a] ->
         (admits "log_error" self2 = true ->
          admits "restore_backup" self2 = true ->
          exists self3 : Object,
            exit self2 true = Some (Returned false, self3)
            /\ disk (others self3) "report.csv"%string = Some [x61; x2c; x62; x0a]
            /\ forall q, q <> "report.csv"%string ->
                         disk (others self3) q = disk (others self2) q)
         /\ (exists self3 : Object,
                exit self2 false = Some (Returned true, self3)
                /\ disk (others self3) "report.bak"%string = None
                /\ forall q, q <> "report.bak"%string ->
                             disk (others self3) q = disk (others self2) q).
Proof.
  refine (proj2 (@with_block_restores swap_suffix report_object "report.bak"
                   [x61; x2c; x62; x0a] eq_refl _ eq_refl eq_refl) _).
  - discriminate.
  - apply Nat.leb_le. reflexivity.
Defined.

Lemma backup_of_bak_file_empties_it_witness :
  exists self' : Object,
    backup_file swap_suffix old_bak_object = Some (Ok "old.bak"%string, self')
    /\ disk (others self') "old.bak"%string = Some []
    /\ (forall q, q <> "old.bak"%string ->
                  disk (others self') q = disk (others old_bak_object) q)
    /\ handle (others self') = handle (others old_bak_object).
Proof.
  apply (@backup_of_bak_file_empties_it swap_suffix old_bak_object [x61; x2c; x62; x0a]);
    reflexivity.
Defined.

End Backup_witnesses.
